(** * Meeting_Bot: the bot session lifecycle orchestrator

    A shallow embedding of the parts of the backend that the session
    lifecycle rests on:

    - [core/process.py]: [terminate_process_gracefully],
      [start_pipecat_process] (up to the call of [subprocess.Popen]);
    - [app/services/transcript_service.py]: [__init__],
      [_load_existing_transcripts], [_save_metadata],
      [save_meeting_transcript], [_download_recording], [get_transcript],
      [get_recording_path], [list_transcripts];
    - [app/routes.py]: the persona routes ([list_personas], [get_persona],
      [create_persona], [update_persona], [delete_persona]),
      [join_meeting], [leave_bot], [list_bots], [meetingbaas_webhook],
      [get_transcript], [download_transcript], [download_recording];
    - [config/persona_utils.py]: [PersonaManager.get_persona],
      [PersonaManager.get_persona_by_name].

    Python floats are IEEE binary64 numbers and are embedded as Rocq's
    primitive floats; a [str] is the string of its code points, which are
    below 256; dictionaries whose iteration order is observable are
    association lists in insertion order, the others are [gmap]s; code that
    raises or mutates runs in a small state-and-exception monad. *)

From Stdlib Require Import ZArith Floats List Ascii DecimalString Lia.
From stdpp Require Import gmap strings list.

Set Default Proof Using "Type".
Local Set Warnings "-inexact-float".

(** ** A state and exception monad

    A Python statement either completes with a value or raises; in both
    cases the side effects made so far stay.

    An exception is its class and what the code gives it.  Where the code
    builds the detail of an [HTTPException] from a caught exception [e],
    as [f"{detail}{str(e)}"], the exception keeps [detail] and [e]
    ([HTTPExceptionStr]): the text of [e] is the libraries' business. *)

Inductive exn : Type :=
| KeyError (msg : string)
| IndexError
| ValueError
| OverflowError
| OSError
| TimeoutExpired
| ValidationError
| HTTPException (status_code : Z) (detail : string)
| HTTPExceptionStr (status_code : Z) (detail : string) (e : exn).

Inductive result (A : Type) : Type :=
| Ok (a : A)
| Raise (e : exn).
Arguments Ok {A} a.
Arguments Raise {A} e.

Definition M (S A : Type) : Type := S -> result A * S.

Definition ret {S A} (a : A) : M S A := fun s => (Ok a, s).

Definition raise {S A} (e : exn) : M S A := fun s => (Raise e, s).

Definition bind {S A B} (m : M S A) (k : A -> M S B) : M S B :=
  fun s => match m s with
           | (Ok a, s') => k a s'
           | (Raise e, s') => (Raise e, s')
           end.

(** [try: body except Exception as e: handler e] *)
Definition try_except {S A} (body : M S A) (handler : exn -> M S A) : M S A :=
  fun s => match body s with
           | (Ok a, s') => (Ok a, s')
           | (Raise e, s') => handler e s'
           end.

Definition get {S} : M S S := fun s => (Ok s, s).
Definition modify {S} (f : S -> S) : M S unit := fun s => (Ok tt, f s).

Declare Scope py_scope.
Delimit Scope py_scope with py.
Notation "'let!' x ':=' m 'in' k" := (bind m (fun x => k))
  (at level 10, x name, m at level 100, k at level 200) : py_scope.
Notation "m ;;; k" := (bind m (fun _ => k))
  (at level 100, k at level 200, right associativity) : py_scope.

(** ** Python's [int(x)] on a float: truncation toward zero; [int(inf)]
    raises [OverflowError] and [int(nan)] raises [ValueError]. *)

Definition py_int (x : float) : result Z :=
  match Prim2SF x with
  | S754_zero _ => Ok 0%Z
  | S754_infinity _ => Raise OverflowError
  | S754_nan => Raise ValueError
  | S754_finite sign m e =>
      let mag := if (0 <=? e)%Z then Z.shiftl (Z.pos m) e
                 else Z.shiftr (Z.pos m) (- e) in
      Ok (if sign then (- mag)%Z else mag)
  end.

(** ** [core/process.py] *)

Module Process.

(** The child process, as [subprocess.Popen] shows it.  Time advances in
    ticks of a tenth of a second.  [pending] is the number of ticks left
    until the child exits ([Some 0]: the child is dead but not yet reaped by
    [poll]); [sigterm_delay] says how the child reacts to SIGTERM: it exits
    that many ticks later, or ignores the signal.  The flags say whether
    the operating system refuses a signal (the call raises) and whether the
    child outlives SIGKILL (it is stuck in the kernel). *)
Record Popen : Type := mkPopen {
  returncode : option Z;
  pending : option nat;
  sigterm_delay : option nat;
  exit_code : Z;
  terminate_raises : bool;
  kill_raises : bool;
  ignores_sigkill : bool;
}.

Inductive event : Type :=
| EvPoll
| EvTerminate          (* SIGTERM *)
| EvSleep (seconds : float)
| EvKill               (* SIGKILL *)
| EvWait (seconds : float).

Record state : Type := mkState {
  proc : Popen;
  log : list event;
}.

Definition emit (e : event) : M state unit :=
  modify (fun s => mkState (proc s) (log s ++ [e])).

Definition set_proc (p : Popen) : M state unit :=
  modify (fun s => mkState p (log s)).

Definition with_returncode (p : Popen) (rc : option Z) : Popen :=
  mkPopen rc (pending p) (sigterm_delay p) (exit_code p)
          (terminate_raises p) (kill_raises p) (ignores_sigkill p).

Definition with_pending (p : Popen) (k : option nat) : Popen :=
  mkPopen (returncode p) k (sigterm_delay p) (exit_code p)
          (terminate_raises p) (kill_raises p) (ignores_sigkill p).

(** What [Popen.poll] finds, without the bookkeeping. *)
Definition reap (p : Popen) : Popen :=
  match returncode p, pending p with
  | None, Some O => with_returncode p (Some (exit_code p))
  | _, _ => p
  end.

(** The child has exited (whether or not [poll] has seen it yet). *)
Definition exited (p : Popen) : Prop := returncode (reap p) <> None.

Definition running (p : Popen) : Prop := returncode (reap p) = None.

(** The number of ticks in [seconds]. *)
Definition ticks (seconds : float) : nat :=
  match py_int (seconds * 10)%float with
  | Ok z => Z.to_nat z
  | Raise _ => 0
  end.

(** The child, [k] ticks later. *)
Definition advance (k : nat) (p : Popen) : Popen :=
  match pending p with
  | Some d => with_pending p (Some (d - k))
  | None => p
  end.

(** [process.poll()] *)
Definition poll : M state (option Z) :=
  (emit EvPoll ;;;
   let! s := get in
   set_proc (reap (proc s)) ;;;
   ret (returncode (reap (proc s))))%py.

Definition min_delay (a b : option nat) : option nat :=
  match a, b with
  | Some x, Some y => Some (Nat.min x y)
  | Some x, None => Some x
  | None, y => y
  end.

(** [process.terminate()]: a no-op on a reaped child. *)
Definition terminate : M state unit :=
  (emit EvTerminate ;;;
   let! s := get in
   let p := proc s in
   if terminate_raises p then raise OSError
   else match returncode p with
        | Some _ => ret tt
        | None => set_proc (with_pending p (min_delay (pending p) (sigterm_delay p)))
        end)%py.

(** [process.kill()] *)
Definition kill : M state unit :=
  (emit EvKill ;;;
   let! s := get in
   let p := proc s in
   if kill_raises p then raise OSError
   else match returncode p with
        | Some _ => ret tt
        | None => if ignores_sigkill p then ret tt
                  else set_proc (with_pending p (Some O))
        end)%py.

(** [process.wait(seconds)]: raises [TimeoutExpired] when the child is
    still there after [seconds]. *)
Definition wait (seconds : float) : M state unit :=
  (emit (EvWait seconds) ;;;
   let! s := get in
   let p := reap (advance (ticks seconds) (proc s)) in
   set_proc p ;;;
   match returncode p with
   | Some _ => ret tt
   | None => raise TimeoutExpired
   end)%py.

(** [time.sleep(seconds)] *)
Definition sleep (seconds : float) : M state unit :=
  (emit (EvSleep seconds) ;;;
   let! s := get in
   set_proc (advance (ticks seconds) (proc s)))%py.

(** [for _ in range(n): if process.poll() is not None: return True;
    time.sleep(0.1)].  [Some true] is the early [return True]. *)
Fixpoint poll_loop (n : nat) : M state (option bool) :=
  match n with
  | O => ret None
  | S n' =>
      (let! rc := poll in
       match rc with
       | Some _ => ret (Some true)
       | None => sleep 0.1 ;;; poll_loop n'
       end)%py
  end.

(** [range(int(timeout * 10))] *)
Definition iterations (timeout : float) : result nat :=
  match py_int (timeout * 10)%float with
  | Ok z => Ok (Z.to_nat z)
  | Raise e => Raise e
  end.

Definition lift_result {S A} (r : result A) : M S A :=
  match r with
  | Ok a => ret a
  | Raise e => raise e
  end.

(** [terminate_process_gracefully(process, timeout)]: [true] is the
    graceful outcome, [false] the forced one. *)
Definition terminate_process_gracefully (timeout : float) : M state bool :=
  (let! rc := poll in
   match rc with
   | Some _ => ret true
   | None =>
       try_except
         (terminate ;;;
          let! n := lift_result (iterations timeout) in
          let! r := poll_loop n in
          match r with
          | Some b => ret b
          | None => kill ;;; wait 1.0 ;;; ret false
          end)
         (fun _ =>
            try_except kill (fun _ => ret tt) ;;;
            ret false)
   end)%py.

(** The events of [n] rounds of the polling loop. *)
Fixpoint loop_events (n : nat) : list event :=
  match n with
  | O => []
  | S n' => EvPoll :: EvSleep 0.1 :: loop_events n'
  end.



(** A child that never exits by itself and ignores SIGTERM. *)
Definition stubborn : Popen := mkPopen None None None 0 false false false.

(** A child that was reaped before. *)
Definition reaped : Popen := mkPopen (Some 0%Z) None None 0 false false false.

End Process.

(** ** Python strings

    A Python [str] is a sequence of code points.  A string here is the
    [str] whose code points are the numbers of its characters, so the
    strings of the model are those of code points below 256 (Latin-1), and
    a character above 127 is the code point of that number, not a byte of
    an encoding.  On these strings [lower] and [split] are Python's. *)

Module Str.

(** [chr(n)], for [n] below 256 *)
Definition chr (n : nat) : ascii := ascii_of_nat n.

(** The cased letters below 256 are [A]-[Z] and U+00C0-U+00DE without the
    multiplication sign U+00D7; each has its lower-case form 32 places
    further.  The lower-case letters without an upper-case form below 256
    (U+00B5, U+00DF, U+00FF) stay. *)
Definition lower_char (c : ascii) : ascii :=
  let n := nat_of_ascii c in
  if ((65 <=? n)%nat && (n <=? 90)%nat)
     || ((192 <=? n)%nat && (n <=? 222)%nat && negb (n =? 215)%nat)
  then ascii_of_nat (n + 32) else c.

(** [s.lower()] *)
Fixpoint lower (s : string) : string :=
  match s with
  | EmptyString => EmptyString
  | String c s' => String (lower_char c) (lower s')
  end.

(** [s.replace(a, b)] for one-character [a] and [b] *)
Fixpoint replace_char (a b : ascii) (s : string) : string :=
  match s with
  | EmptyString => EmptyString
  | String c s' =>
      String (if Ascii.eqb c a then b else c) (replace_char a b s')
  end.

(** The pieces of [s] between separator characters, empty pieces
    included: [s.split(sep)] for a one-character [sep]. *)
Fixpoint split_by (is_sep : ascii -> bool) (s : string) : list string :=
  match s with
  | EmptyString => [EmptyString]
  | String c s' =>
      if is_sep c then EmptyString :: split_by is_sep s'
      else match split_by is_sep s' with
           | [] => [String c EmptyString]
           | w :: ws => String c w :: ws
           end
  end.

Definition split_on (sep : ascii) (s : string) : list string :=
  split_by (Ascii.eqb sep) s.

(** [c.isspace()]: below 256 the white space is U+0009-U+000D,
    U+001C-U+0020, U+0085 and U+00A0. *)
Definition is_space (c : ascii) : bool :=
  let n := nat_of_ascii c in
  ((9 <=? n)%nat && (n <=? 13)%nat) || ((28 <=? n)%nat && (n <=? 32)%nat)
  || (n =? 133)%nat || (n =? 160)%nat.

Definition nonempty (s : string) : bool :=
  match s with
  | EmptyString => false
  | String _ _ => true
  end.

(** [s.split()]: the maximal runs of characters that are not white
    space *)
Definition split (s : string) : list string :=
  List.filter nonempty (split_by is_space s).

(** [sep.join(parts)] *)
Fixpoint join (sep : string) (parts : list string) : string :=
  match parts with
  | [] => EmptyString
  | [p] => p
  | p :: ps => p +:+ sep +:+ join sep ps
  end.

Definition startswith (p s : string) : bool := String.prefix p s.

Fixpoint endswith_char (c : ascii) (s : string) : bool :=
  match s with
  | EmptyString => false
  | String d EmptyString => Ascii.eqb c d
  | String _ s' => endswith_char c s'
  end.

(** [os.path.join(a, b)] on POSIX *)
Definition os_path_join (a b : string) : string :=
  if startswith "/" b then b
  else if negb (nonempty a) || endswith_char "/" a then a +:+ b
  else a +:+ "/" +:+ b.

End Str.

(** ** Python dictionaries whose order is observable

    A [dict] keeps its keys in insertion order; assigning to a key that is
    present keeps the key's place. *)

Module Dict.

Section Ops.
Context {A : Type}.

(** [d.get(key)] *)
Fixpoint lookup (key : string) (d : list (string * A)) : option A :=
  match d with
  | [] => None
  | (k, v) :: d' => if String.eqb k key then Some v else lookup key d'
  end.

(** [d[key] = v] *)
Fixpoint set (key : string) (v : A) (d : list (string * A)) : list (string * A) :=
  match d with
  | [] => [(key, v)]
  | (k, v') :: d' =>
      if String.eqb k key then (k, v) :: d' else (k, v') :: set key v d'
  end.

(** [d.pop(key, None)] *)
Fixpoint pop (key : string) (d : list (string * A)) : list (string * A) :=
  match d with
  | [] => []
  | (k, v) :: d' => if String.eqb k key then d' else (k, v) :: pop key d'
  end.

Definition keys (d : list (string * A)) : list string := map fst d.

Definition mem (key : string) (d : list (string * A)) : bool :=
  match lookup key d with
  | Some _ => true
  | None => false
  end.

End Ops.

End Dict.

(** ** [config/persona_utils.py]: [PersonaManager.get_persona]

    A persona is a Python [dict]; the manager's table [self.personas] maps
    folder names to such dicts.  Dicts and lists are objects on a heap and
    values refer to them by address, so that what [dict.copy()] shares with
    the original is visible. *)

Module Persona.

Definition addr : Type := nat.

Inductive value : Type :=
| VNone
| VBool (b : bool)
| VInt (z : Z)
| VFloat (f : float)
| VStr (s : string)
| VRef (a : addr).

Inductive obj : Type :=
| ODict (d : gmap string value)
| OList (l : list value).

(** The manager ([self]) and the heap it lives in.  [personas] keeps the
    insertion order of the Python dict. *)
Record state : Type := mkState {
  heap : gmap addr obj;
  personas : list (string * addr);
  personas_dir : string;
}.

Definition set_heap (h : gmap addr obj) : M state unit :=
  modify (fun s => mkState h (personas s) (personas_dir s)).

(** Python truthiness *)
Definition truthy (h : gmap addr obj) (v : value) : bool :=
  match v with
  | VNone => false
  | VBool b => b
  | VInt z => negb (z =? 0)%Z
  | VFloat f => negb (PrimFloat.eqb f 0%float)
  | VStr s => Str.nonempty s
  | VRef a =>
      match h !! a with
      | Some (ODict d) => negb (bool_decide (d = ∅))
      | Some (OList l) => negb (bool_decide (length l = 0%nat))
      | None => true
      end
  end.

(** [d.copy()]: a new dict object with the same entries; the values, and
    so the objects they refer to, are shared. *)
Definition dict_copy (a : addr) : M state addr :=
  (let! s := get in
   match heap s !! a with
   | Some (ODict d) =>
       let a' := fresh (dom (heap s)) in
       set_heap (<[a' := ODict d]> (heap s)) ;;;
       ret a'
   | _ => raise (KeyError "not a dict")
   end)%py.

(** [d.get(key)] *)
Definition dict_get (a : addr) (key : string) : M state value :=
  (let! s := get in
   match heap s !! a with
   | Some (ODict d) => ret (default VNone (d !! key))
   | _ => raise (KeyError "not a dict")
   end)%py.

(** [d[key]] *)
Definition dict_getitem (a : addr) (key : string) : M state value :=
  (let! s := get in
   match heap s !! a with
   | Some (ODict d) =>
       match d !! key with
       | Some v => ret v
       | None => raise (KeyError key)
       end
   | _ => raise (KeyError "not a dict")
   end)%py.

(** [d[key] = v] *)
Definition dict_setitem (a : addr) (key : string) (v : value) : M state unit :=
  (let! s := get in
   match heap s !! a with
   | Some (ODict d) => set_heap (<[a := ODict (<[key := v]> d)]> (heap s))
   | _ => raise (KeyError "not a dict")
   end)%py.

(** [name.lower().replace(" ", "_")] *)
Definition folder_name_of (name : string) : string :=
  Str.replace_char " " "_" (Str.lower name).

Definition word_set (ws : list string) : gset string := list_to_set ws.

(** The loop over [self.personas.keys()] that looks for the folder name
    sharing the most words with the request: a later key replaces the
    current candidate only when it overlaps strictly more. *)
Fixpoint closest (words : gset string) (keys : list string)
    (closest_match : option string) (max_overlap : nat)
    : option string * nat :=
  match keys with
  | [] => (closest_match, max_overlap)
  | persona_key :: keys' =>
      let persona_words := word_set (Str.split_on "_" persona_key) in
      let overlap := size (words ∩ persona_words) in
      if (max_overlap <? overlap)%nat
      then closest words keys' (Some persona_key) overlap
      else closest words keys' closest_match max_overlap
  end.

Definition str_truthy (o : option string) : bool :=
  match o with
  | Some s => Str.nonempty s
  | None => false
  end.

(** The string operands of [+] and of [.lower()]; anything else is a
    [TypeError] or [AttributeError] in Python, here [ValueError]. *)
Definition as_str (v : value) : M state string :=
  match v with
  | VStr s => ret s
  | _ => raise ValueError
  end.

Section WithPrompts.

(** [config/prompts.py] is not part of the sources at hand. *)
Variable PERSONA_INTERACTION_INSTRUCTIONS : string.

(** The message of the [KeyError] for a name that is not found. *)
Definition not_found (name : string) (options : list string) : string :=
  "Persona '" +:+ name +:+ "' not found. Valid options: "
  +:+ Str.join ", " options.

(** The selection of the stored record and its copy (lines 442-474).
    [rnd] stands for the draw of [random.choice]; the random branch reads
    [persona['name']] of the copy for its log line. *)
Definition select_persona (rnd : nat) (name : option string) : M state addr :=
  (let! s := get in
   if str_truthy name then
     let n := default "" name in
     let folder_name := folder_name_of n in
     match Dict.lookup folder_name (personas s) with
     | Some a => dict_copy a
     | None =>
         let words := word_set (Str.split (Str.lower n)) in
         let '(closest_match, max_overlap) :=
           closest words (Dict.keys (personas s)) None 0 in
         if str_truthy closest_match && (1 <=? max_overlap)%nat then
           match Dict.lookup (default "" closest_match) (personas s) with
           | Some a => dict_copy a
           | None => raise (KeyError (default "" closest_match))
           end
         else raise (KeyError (not_found n (Dict.keys (personas s))))
     end
   else
     match personas s !! (rnd `mod` length (personas s))%nat with
     | Some (_, a) =>
         let! persona := dict_copy a in
         dict_getitem persona "name" ;;;
         ret persona
     | None => raise IndexError
     end)%py.

(** Lines 476-478: an absent or empty image becomes the empty string. *)
Definition default_image (persona : addr) : M state unit :=
  (let! img := dict_get persona "image" in
   let! s := get in
   if truthy (heap s) img then ret tt
   else dict_setitem persona "image" (VStr ""))%py.

(** Line 480: [persona["prompt"] = persona["prompt"] +
    PERSONA_INTERACTION_INSTRUCTIONS] *)
Definition append_instructions (persona : addr) : M state unit :=
  (let! p := dict_getitem persona "prompt" in
   let! prompt := as_str p in
   dict_setitem persona "prompt"
     (VStr (prompt +:+ PERSONA_INTERACTION_INSTRUCTIONS)))%py.

(** Lines 481-487: the directory of the persona, under the normalised
    name. *)
Definition set_path (name : option string) (persona : addr) : M state unit :=
  (let! persona_key :=
     (if str_truthy name then ret (folder_name_of (default "" name))
      else (let! nm := dict_getitem persona "name" in
            let! nm_s := as_str nm in
            ret (folder_name_of nm_s))) in
   let! s := get in
   dict_setitem persona "path"
     (VStr (Str.os_path_join (personas_dir s) persona_key)))%py.

(** [PersonaManager.get_persona(name)]: the address of the returned dict. *)
Definition get_persona (rnd : nat) (name : option string) : M state addr :=
  (let! persona := select_persona rnd name in
   default_image persona ;;;
   append_instructions persona ;;;
   set_path name persona ;;;
   ret persona)%py.

(** The image entry as [default_image] leaves it. *)
Definition fix_image (h : gmap addr obj) (d : gmap string value)
    : gmap string value :=
  if truthy h (default VNone (d !! "image")) then d
  else <["image" := VStr ""]> d.

(** A step that writes to the object at [a'] at most. *)
Definition touches (a' : addr) (s s' : state) : Prop :=
  personas s' = personas s ∧ personas_dir s' = personas_dir s ∧
  (∀ b, b ≠ a' → heap s' !! b = heap s !! b).

(** What one call of [get_persona] does to the manager: nothing to the
    table, and on the heap nothing but one new object, the returned dict.
    That dict is the matched record [d] with the image defaulted, the
    instructions appended to the prompt and a path added; the record
    itself stays as it was. *)
Definition returns_copy (s : state) (r : result addr) (s' : state) : Prop :=
  personas s' = personas s ∧ personas_dir s' = personas_dir s ∧
  (heap s ⊆ heap s') ∧
  match r with
  | Raise _ => True
  | Ok a' =>
      (a' ∉ dom (heap s)) ∧
      (∃ key a d prompt path,
         (key, a) ∈ personas s ∧
         heap s !! a = Some (ODict d) ∧
         heap s' !! a = Some (ODict d) ∧
         d !! "prompt" = Some (VStr prompt) ∧
         heap s' !! a' =
           Some (ODict (<["path" := VStr path]>
                          (<["prompt" := VStr (prompt +:+ PERSONA_INTERACTION_INSTRUCTIONS)]>
                             (fix_image (<[a' := ODict d]> (heap s)) d)))))
  end.

(** Several calls in a row, as the routes and the child process make
    them: the answers, and the manager after the last call. *)
Fixpoint get_personas (calls : list (nat * option string)) (s : state)
    : list (result addr) * state :=
  match calls with
  | [] => ([], s)
  | (rnd, name) :: calls' =>
      let '(r, s') := get_persona rnd name s in
      let '(rs, s'') := get_personas calls' s' in
      (r :: rs, s'')
  end.

End WithPrompts.

End Persona.

(** ** Paths, as [pathlib.PurePosixPath] prints them *)

Module Path.

Definition is_slash (c : ascii) : bool := Ascii.eqb c "/".

Definition keep_part (p : string) : bool :=
  Str.nonempty p && negb (String.eqb p ".").

(** The components of a path: empty ones and ["."] are dropped, [".."] is
    kept. *)
Definition parts (s : string) : list string :=
  List.filter keep_part (Str.split_by is_slash s).

(** The root: ["/"], or ["//"] for exactly two leading slashes. *)
Definition root (s : string) : string :=
  match s with
  | String c1 (String c2 (String c3 _)) =>
      if is_slash c1 then
        if is_slash c2 then (if is_slash c3 then "/" else "//") else "/"
      else ""
  | String c1 (String c2 EmptyString) =>
      if is_slash c1 then (if is_slash c2 then "//" else "/") else ""
  | String c1 EmptyString => if is_slash c1 then "/" else ""
  | EmptyString => ""
  end.

(** [str(Path(s))] *)
Definition str (s : string) : string :=
  let r := root s +:+ Str.join "/" (parts s) in
  if Str.nonempty r then r else ".".

(** [str(Path(a) / b)]: an absolute [b] replaces [a]. *)
Definition div (a b : string) : string :=
  if Str.startswith "/" b then str b else str (a +:+ "/" +:+ b).

(** No slash in the string. *)
Fixpoint clean (p : string) : bool :=
  match p with
  | EmptyString => true
  | String c p' => negb (is_slash c) && clean p'
  end.

(** The string does not begin with a slash. *)
Definition no_leading_slash (s : string) : Prop :=
  match s with
  | EmptyString => True
  | String c _ => is_slash c = false
  end.

End Path.

(** ** [app/models.py] and [app/services/transcript_service.py] *)

Module Transcript.

Record WordItem : Type := mkWordItem {
  start : float;
  end_ : float;
  word : string;
}.

Record TranscriptSegment : Type := mkTranscriptSegment {
  speaker : string;
  words : list WordItem;
}.

Record MeetingCompletedData : Type := mkMeetingCompletedData {
  bot_id : string;
  mp4 : string;
  speakers : list string;
  transcript : list TranscriptSegment;
}.

(** [datetime.now()] *)
Record datetime : Type := mkDatetime {
  year : nat;
  month : nat;
  day : nat;
  hour : nat;
  minute : nat;
  second : nat;
  microsecond : nat;
}.

Record TranscriptMetadata : Type := mkTranscriptMetadata {
  meta_bot_id : string;
  meeting_id : string;
  timestamp : datetime;
  duration : option float;
  num_speakers : nat;
  recording_path : option string;
  transcript_path : string;
}.

Definition TRANSCRIPT_DIR : string := Path.str "data/transcripts".
Definition RECORDING_DIR : string := Path.str "data/recordings".

(** A decimal number, padded with zeros on the left to [width] digits. *)
Definition pad (width : nat) (n : nat) : string :=
  let digits := NilZero.string_of_uint (Nat.to_uint n) in
  String.concat "" (repeat "0" (width - String.length digits)) +:+ digits.

(** [dt.strftime('%Y%m%d_%H%M%S')] *)
Definition strftime (dt : datetime) : string :=
  pad 4 (year dt) +:+ pad 2 (month dt) +:+ pad 2 (day dt) +:+ "_" +:+
  pad 2 (hour dt) +:+ pad 2 (minute dt) +:+ pad 2 (second dt).

(** What a file holds. *)
Inductive file : Type :=
| FTranscript (d : MeetingCompletedData)
| FIndex (records : gmap string TranscriptMetadata)
| FRecording (chunks : list string).

(** The body of an HTTP response, read chunk by chunk: [Eof] is the empty
    read, [Broken] a read that raises. *)
Inductive stream : Type :=
| Eof
| Chunk (data : string) (rest : stream)
| Broken.

Inductive response : Type :=
| Response (status : Z) (body : stream)
| ConnectionError.

(** The background task [_download_recording(meeting_id, mp4_url,
    metadata)] and how far it has come; it is suspended at each [await]. *)
Inductive phase : Type :=
| Scheduled
| Streaming (body : stream)
| Finished.

Definition addr : Type := nat.

Record task : Type := mkTask {
  t_meeting_id : string;
  t_mp4_url : string;
  t_metadata : addr;
  t_phase : phase;
}.

(** The service ([self]) and its surroundings.  [TranscriptMetadata]
    objects are mutable and shared between the cache and the download
    task, so the cache holds addresses into [objects].  The file system is
    keyed by the path as [pathlib] prints it; [unwritable] lists the paths
    that cannot be opened for writing; [http] is what a GET answers;
    [clock] is the sequence of readings of [datetime.now()]. *)
Record state : Type := mkState {
  objects : gmap addr TranscriptMetadata;
  _metadata_cache : gmap string addr;
  files : gmap string file;
  unwritable : gset string;
  http : string -> response;
  clock : nat -> datetime;
  clock_reads : nat;
  tasks : list task;
}.

Definition set_objects (o : gmap addr TranscriptMetadata) : M state unit :=
  modify (fun s => mkState o (_metadata_cache s) (files s) (unwritable s)
                           (http s) (clock s) (clock_reads s) (tasks s)).

Definition set_cache (c : gmap string addr) : M state unit :=
  modify (fun s => mkState (objects s) c (files s) (unwritable s)
                           (http s) (clock s) (clock_reads s) (tasks s)).

Definition set_files (f : gmap string file) : M state unit :=
  modify (fun s => mkState (objects s) (_metadata_cache s) f (unwritable s)
                           (http s) (clock s) (clock_reads s) (tasks s)).

Definition set_tasks (t : list task) : M state unit :=
  modify (fun s => mkState (objects s) (_metadata_cache s) (files s)
                           (unwritable s) (http s) (clock s) (clock_reads s) t).

(** [datetime.now()] *)
Definition now : M state datetime :=
  (let! s := get in
   modify (fun s => mkState (objects s) (_metadata_cache s) (files s)
                            (unwritable s) (http s) (clock s)
                            (S (clock_reads s)) (tasks s)) ;;;
   ret (clock s (clock_reads s)))%py.

(** [open(path, "w")] followed by one write of the whole content *)
Definition write_file (path : string) (content : file) : M state unit :=
  (let! s := get in
   if bool_decide (path ∈ unwritable s) then raise OSError
   else set_files (<[path := content]> (files s)))%py.

(** [Path(path).exists()] *)
Definition exists_ (path : string) : M state bool :=
  (let! s := get in
   ret (bool_decide (is_Some (files s !! Path.str path))))%py.

(** The records of the cache, as [_save_metadata] serialises them. *)
Definition snapshot (s : state) : gmap string TranscriptMetadata :=
  omap (fun a => objects s !! a) (_metadata_cache s).

(** [_save_metadata()]: never raises, reports failure as [False]. *)
Definition _save_metadata : M state bool :=
  (let! s := get in
   try_except
     (write_file (Path.div TRANSCRIPT_DIR "metadata.json") (FIndex (snapshot s)) ;;;
      ret true)
     (fun _ => ret false))%py.

(** The span from the first word of the first segment to the last word of
    the last segment (lines 106-115). *)
Definition compute_duration (transcript : list TranscriptSegment) : option float :=
  match head transcript, last transcript with
  | Some first_segment, Some last_segment =>
      match head (words first_segment), last (words last_segment) with
      | Some w0, Some wn => Some (end_ wn - start w0)%float
      | _, _ => None
      end
  | _, _ => None
  end.

(** [save_meeting_transcript(bot_id, meeting_data)] *)
Definition save_meeting_transcript (bot_id : string)
    (meeting_data : MeetingCompletedData) : M state string :=
  (let! t0 := now in
   let meeting_id := bot_id +:+ "_" +:+ strftime t0 in
   let transcript_path := Path.div TRANSCRIPT_DIR (meeting_id +:+ "_transcript.json") in
   try_except
     (write_file transcript_path (FTranscript meeting_data) ;;;
      let duration := compute_duration (transcript meeting_data) in
      let! t1 := now in
      let metadata :=
        mkTranscriptMetadata bot_id meeting_id t1 duration
          (length (speakers meeting_data)) None transcript_path in
      let! s := get in
      let a := fresh (dom (objects s)) in
      set_objects (<[a := metadata]> (objects s)) ;;;
      (* asyncio.create_task(self._download_recording(...)) *)
      set_tasks (tasks s ++ [mkTask meeting_id (mp4 meeting_data) a Scheduled]) ;;;
      set_cache (<[meeting_id := a]> (_metadata_cache s)) ;;;
      _save_metadata ;;;
      ret meeting_id)
     (fun e => raise (HTTPExceptionStr 500 "Failed to save transcript: " e)))%py.

Definition with_recording_path (m : TranscriptMetadata) (p : option string)
    : TranscriptMetadata :=
  mkTranscriptMetadata (meta_bot_id m) (meeting_id m) (timestamp m)
    (duration m) (num_speakers m) p (transcript_path m).

Definition set_phase (i : nat) (p : phase) : M state unit :=
  (let! s := get in
   set_tasks (alter (fun t => mkTask (t_meeting_id t) (t_mp4_url t)
                                      (t_metadata t) p) i (tasks s)))%py.

Definition append_chunk (path : string) (data : string) : M state unit :=
  (let! s := get in
   match files s !! path with
   | Some (FRecording chunks) =>
       set_files (<[path := FRecording (chunks ++ [data])]> (files s))
   | _ => set_files (<[path := FRecording [data]]> (files s))
   end)%py.

(** One step of the [i]-th background task, from one suspension point of
    [_download_recording] to the next.  Whatever is raised is caught and
    logged by the task itself (lines 173-174). *)
Definition download_step (i : nat) : M state unit :=
  (let! s := get in
   match tasks s !! i with
   | None => ret tt
   | Some t =>
       let recording_path := Path.div RECORDING_DIR (t_meeting_id t +:+ ".mp4") in
       match t_phase t with
       | Finished => ret tt
       | Scheduled =>
           match http s (t_mp4_url t) with
           | ConnectionError => set_phase i Finished
           | Response status body =>
               if (status =? 200)%Z then
                 try_except
                   (write_file recording_path (FRecording []) ;;;
                    set_phase i (Streaming body))
                   (fun _ => set_phase i Finished)
               else set_phase i Finished
           end
       | Streaming Broken => set_phase i Finished
       | Streaming (Chunk data rest) =>
           if Str.nonempty data then
             append_chunk recording_path data ;;;
             set_phase i (Streaming rest)
           else set_phase i (Streaming Eof)
       | Streaming Eof =>
           (* metadata.recording_path = str(recording_path) *)
           (match objects s !! t_metadata t with
            | Some m =>
                set_objects (<[t_metadata t :=
                               with_recording_path m (Some recording_path)]>
                               (objects s))
            | None => ret tt
            end) ;;;
           set_cache (<[t_meeting_id t := t_metadata t]> (_metadata_cache s)) ;;;
           _save_metadata ;;;
           set_phase i Finished
       end
   end)%py.

(** [n] steps of the [i]-th task in a row. *)
Fixpoint download_steps (i : nat) (n : nat) : M state unit :=
  match n with
  | O => ret tt
  | S n' => (download_step i ;;; download_steps i n')%py
  end.

(** [get_recording_path(meeting_id)]; [None] is the "not found" answer. *)
Definition get_recording_path (mid : string) : M state (option string) :=
  (let! s := get in
   match _metadata_cache s !! mid ≫= (fun a => objects s !! a) with
   | None => ret None
   | Some metadata =>
       match recording_path metadata with
       | None => ret None
       | Some rp =>
           if negb (Str.nonempty rp) then ret None
           else
             let! there := exists_ rp in
             if there then ret (Some (Path.str rp)) else ret None
       end
   end)%py.

(** [list_transcripts()], up to the order of the records *)
Definition list_transcripts (s : state) : list TranscriptMetadata :=
  (map_to_list (snapshot s)).*2.

(** *** Vocabulary for the statements about the service *)

(** The meeting id a call of [save_meeting_transcript] in state [s] makes. *)
Definition next_meeting_id (bot : string) (s : state) : string :=
  bot +:+ "_" +:+ strftime (clock s (clock_reads s)).

Definition transcript_file (mid : string) : string :=
  Path.div TRANSCRIPT_DIR (mid +:+ "_transcript.json").

Definition recording_file (mid : string) : string :=
  Path.div RECORDING_DIR (mid +:+ ".mp4").

Definition index_file : string := Path.div TRANSCRIPT_DIR "metadata.json".

(** The record behind a meeting id. *)
Definition metadata_of (mid : string) (s : state) : option TranscriptMetadata :=
  _metadata_cache s !! mid ≫= (fun a => objects s !! a).

(** The state a successful [save_meeting_transcript] leaves. *)
Definition saved (bot : string) (d : MeetingCompletedData) (s : state) : state :=
  let mid := next_meeting_id bot s in
  let a := fresh (dom (objects s)) in
  let metadata :=
    mkTranscriptMetadata bot mid (clock s (S (clock_reads s)))
      (compute_duration (transcript d)) (length (speakers d)) None
      (transcript_file mid) in
  let objects1 := <[a := metadata]> (objects s) in
  let cache1 := <[mid := a]> (_metadata_cache s) in
  let files1 := <[transcript_file mid := FTranscript d]> (files s) in
  let s1 := mkState objects1 cache1 files1 (unwritable s) (http s) (clock s)
              (S (S (clock_reads s)))
              (tasks s ++ [mkTask mid (mp4 d) a Scheduled]) in
  if bool_decide (index_file ∈ unwritable s) then s1
  else mkState objects1 cache1 (<[index_file := FIndex (snapshot s1)]> files1)
         (unwritable s) (http s) (clock s) (S (S (clock_reads s)))
         (tasks s ++ [mkTask mid (mp4 d) a Scheduled]).

(** The duration as the specification words it: from the first word to
    the last word across all segments. *)
Definition all_words (t : list TranscriptSegment) : list WordItem :=
  concat (map words t).

Definition span_across_segments (t : list TranscriptSegment) : option float :=
  match head (all_words t), last (all_words t) with
  | Some w0, Some wn => Some (end_ wn - start w0)%float
  | _, _ => None
  end.

(** The duration stored for the meeting a call creates. *)
Definition stored_duration (bot : string) (d : MeetingCompletedData)
    (s : state) : option (option float) :=
  duration <$> metadata_of (next_meeting_id bot s)
                 (save_meeting_transcript bot d s).2.

(** The phase of the [i]-th background task. *)
Definition phase_of (i : nat) (s : state) : option phase :=
  t_phase <$> tasks s !! i.

(** While its download runs, the record of the meeting is the one the task
    holds, and it has no recording path. *)
Definition downloading (i : nat) (mid : string) (a : addr) (s : state) : Prop :=
  (∃ t, tasks s !! i = Some t ∧ t_meeting_id t = mid ∧ t_metadata t = a) ∧
  _metadata_cache s !! mid = Some a ∧
  (∃ m, objects s !! a = Some m ∧ recording_path m = None).

(** The chunks a body delivers when it can be read to its end. *)
Fixpoint delivered (body : stream) : option (list string) :=
  match body with
  | Eof => Some []
  | Chunk data rest =>
      if Str.nonempty data then cons data <$> delivered rest else Some []
  | Broken => None
  end.

(** The number of reads before the empty read. *)
Fixpoint reads (body : stream) : nat :=
  match body with
  | Chunk data rest => if Str.nonempty data then S (reads rest) else 1
  | _ => 0
  end.

(** The download is under way: the file is there, [body] is still to be
    read. *)
Definition streaming (i : nat) (mid : string) (a : addr) (body : stream)
    (s : state) : Prop :=
  downloading i mid a s ∧ phase_of i s = Some (Streaming body) ∧
  is_Some (files s !! recording_file mid).

(** *** Scenarios *)

(** A clock that stands within one second. *)
Definition quiet_clock : nat → datetime :=
  fun _ => mkDatetime 2024 1 5 12 0 7 0.

(** An empty service whose provider cannot be reached. *)
Definition fresh_service : state :=
  mkState ∅ ∅ ∅ ∅ (fun _ => ConnectionError) quiet_clock 0 [].

(** An empty service whose recordings download in two chunks. *)
Definition served : state :=
  mkState ∅ ∅ ∅ ∅ (fun _ => Response 200 (Chunk "ab" (Chunk "cd" Eof)))
    quiet_clock 0 [].

(** A first segment without words, then one word from 1.0 to 2.0. *)
Definition silent_start : MeetingCompletedData :=
  mkMeetingCompletedData "bot1" "https://example.com/rec.mp4" ["A"; "B"]
    [mkTranscriptSegment "A" [];
     mkTranscriptSegment "B" [mkWordItem 1.0 2.0 "hello"]].

(** The transcript of [scripts/test_webhook.py]. *)
Definition sample_transcript : list TranscriptSegment :=
  [mkTranscriptSegment "Meeting Bot"
     [mkWordItem 0.0 0.5 "Hello"; mkWordItem 0.6 1.0 "everyone";
      mkWordItem 1.1 1.5 "welcome"; mkWordItem 1.6 2.0 "to";
      mkWordItem 2.1 2.5 "the"; mkWordItem 2.6 3.0 "meeting"];
   mkTranscriptSegment "User"
     [mkWordItem 4.0 4.5 "Thanks"; mkWordItem 4.6 5.0 "for";
      mkWordItem 5.1 5.5 "joining"; mkWordItem 5.6 6.0 "us";
      mkWordItem 6.1 6.5 "today"];
   mkTranscriptSegment "Meeting Bot"
     [mkWordItem 7.0 7.5 "Happy"; mkWordItem 7.6 8.0 "to";
      mkWordItem 8.1 8.5 "be"; mkWordItem 8.6 9.0 "here"]].

Definition sample_complete : MeetingCompletedData :=
  mkMeetingCompletedData "bot1" "https://example.com/test-recording.mp4"
    ["Meeting Bot"; "User"] sample_transcript.

End Transcript.

(** ** [app/routes.py] *)

Module Routes.

(** An entry of [MEETING_DETAILS]: the 7-tuple [(meeting_url,
    persona_name, meetingbaas_bot_id, enable_tools,
    streaming_audio_frequency, entry_message, text_message)].  Every tuple
    the routes store has the seven fields, so [len(details) >= 3] holds. *)
Record Details : Type := mkDetails {
  d_meeting_url : string;
  d_persona_name : string;
  d_meetingbaas_bot_id : option string;
  d_enable_tools : bool;
  d_streaming_audio_frequency : string;
  d_entry_message : option string;
  d_text_message : option string;
}.

(** A registered WebSocket; [close_raises] says whether closing it fails. *)
Record socket : Type := mkSocket {
  close_raises : bool;
}.

Record create_call : Type := mkCreateCall {
  c_meeting_url : string;
  c_websocket_url : string;
  c_bot_id : string;
  c_persona_name : string;
  c_api_key : string;
  c_bot_image : option string;
  c_entry_message : option string;
  c_text_message : option string;
  c_extra : list (string * string);
  c_streaming_audio_frequency : string;
  c_webhook_url : option string;
}.

(** The calls the routes make on their collaborators, and the steps of the
    leave flow, in the order they happen. *)
Inductive event : Type :=
| EvDetermineWebsocketUrl
| EvSetSampleRate (hz : Z)
| EvUpdateNgrokClientId (temp_client_id client_id : string)
| EvLogNgrokStatus
| EvCreateMeetingBot (call : create_call)
| EvLeaveMeetingBot (bot_id api_key : string)
| EvMarkClosing (client_id : string)
| EvDisconnect (client_id : string) (is_pipecat : bool)
| EvSleep (seconds : float)
| EvTerminateProcess (client_id : string) (timeout : float)
| EvPopProcess (client_id : string)
| EvPopDetails (client_id : string)
| EvReleaseNgrokUrl (client_id : string).

Inductive level : Type := INFO | WARNING | ERROR.

(** What lies outside the sources at hand: the settings, the remote
    provider ([scripts/meetingbaas_api.py]), [utils/ngrok.py], the draws of
    [uuid.uuid4] and [random.choice], [config/prompts.py], and Python's
    [repr] of a value that is not a string. *)
Record env : Type := mkEnv {
  LOCAL_DEV_MODE : bool;
  WEBHOOK_URL : option string;
  determine_websocket_url : string * option string;
  uuid4 : nat -> string;
  random_choice : nat;
  create_meeting_bot : create_call -> option string;
  leave_meeting_bot : string -> string -> bool;
  PERSONA_INTERACTION_INSTRUCTIONS : string;
  repr : Persona.value -> string;
}.

Definition pid : Type := nat.

(** The module-level state of the service. *)
Record world : Type := mkWorld {
  MEETING_DETAILS : list (string * Details);
  PIPECAT_PROCESSES : gmap string pid;
  processes : gmap pid Process.state;
  pipecat_connections : gmap string socket;
  active_connections : gmap string socket;
  closing_clients : gset string;
  transcript_service : Transcript.state;
  persona_manager : Persona.state;
  uuid_count : nat;
  trace : list event;
  logs : list (level * string);
}.

Definition set_MEETING_DETAILS (x : list (string * Details)) (w : world) : world :=
  mkWorld x (PIPECAT_PROCESSES w) (processes w) (pipecat_connections w)
    (active_connections w) (closing_clients w) (transcript_service w)
    (persona_manager w) (uuid_count w) (trace w) (logs w).

Definition set_PIPECAT_PROCESSES (x : gmap string pid) (w : world) : world :=
  mkWorld (MEETING_DETAILS w) x (processes w) (pipecat_connections w)
    (active_connections w) (closing_clients w) (transcript_service w)
    (persona_manager w) (uuid_count w) (trace w) (logs w).

Definition set_processes (x : gmap pid Process.state) (w : world) : world :=
  mkWorld (MEETING_DETAILS w) (PIPECAT_PROCESSES w) x (pipecat_connections w)
    (active_connections w) (closing_clients w) (transcript_service w)
    (persona_manager w) (uuid_count w) (trace w) (logs w).

Definition set_pipecat_connections (x : gmap string socket) (w : world) : world :=
  mkWorld (MEETING_DETAILS w) (PIPECAT_PROCESSES w) (processes w) x
    (active_connections w) (closing_clients w) (transcript_service w)
    (persona_manager w) (uuid_count w) (trace w) (logs w).

Definition set_active_connections (x : gmap string socket) (w : world) : world :=
  mkWorld (MEETING_DETAILS w) (PIPECAT_PROCESSES w) (processes w)
    (pipecat_connections w) x (closing_clients w) (transcript_service w)
    (persona_manager w) (uuid_count w) (trace w) (logs w).

Definition set_closing_clients (x : gset string) (w : world) : world :=
  mkWorld (MEETING_DETAILS w) (PIPECAT_PROCESSES w) (processes w)
    (pipecat_connections w) (active_connections w) x (transcript_service w)
    (persona_manager w) (uuid_count w) (trace w) (logs w).

Definition set_transcript_service (x : Transcript.state) (w : world) : world :=
  mkWorld (MEETING_DETAILS w) (PIPECAT_PROCESSES w) (processes w)
    (pipecat_connections w) (active_connections w) (closing_clients w) x
    (persona_manager w) (uuid_count w) (trace w) (logs w).

Definition set_persona_manager (x : Persona.state) (w : world) : world :=
  mkWorld (MEETING_DETAILS w) (PIPECAT_PROCESSES w) (processes w)
    (pipecat_connections w) (active_connections w) (closing_clients w)
    (transcript_service w) x (uuid_count w) (trace w) (logs w).

Definition set_uuid_count (x : nat) (w : world) : world :=
  mkWorld (MEETING_DETAILS w) (PIPECAT_PROCESSES w) (processes w)
    (pipecat_connections w) (active_connections w) (closing_clients w)
    (transcript_service w) (persona_manager w) x (trace w) (logs w).

Definition set_trace (x : list event) (w : world) : world :=
  mkWorld (MEETING_DETAILS w) (PIPECAT_PROCESSES w) (processes w)
    (pipecat_connections w) (active_connections w) (closing_clients w)
    (transcript_service w) (persona_manager w) (uuid_count w) x (logs w).

Definition set_logs (x : list (level * string)) (w : world) : world :=
  mkWorld (MEETING_DETAILS w) (PIPECAT_PROCESSES w) (processes w)
    (pipecat_connections w) (active_connections w) (closing_clients w)
    (transcript_service w) (persona_manager w) (uuid_count w) (trace w) x.

Definition emit (e : event) : M world unit :=
  modify (fun w => set_trace (trace w ++ [e]) w).

(** [logger.info], [logger.warning], [logger.error].  Where the source
    formats a caught exception into the line ([f"...: {e}"]), the line is
    kept without the colon and the text of the exception. *)
Definition log (lvl : level) (msg : string) : M world unit :=
  modify (fun w => set_logs (logs w ++ [(lvl, msg)]) w).

(** Running code of a component on the component's part of the world. *)
Definition lift {S A} (proj : world -> S) (inj : S -> world -> world)
    (m : M S A) : M world A :=
  fun w => let '(r, s') := m (proj w) in (r, inj s' w).

Definition in_transcript_service {A} (m : M Transcript.state A) : M world A :=
  lift transcript_service set_transcript_service m.

Definition in_persona_manager {A} (m : M Persona.state A) : M world A :=
  lift persona_manager set_persona_manager m.

(** Calls on the [Popen] object of process [p]. *)
Definition on_process {A} (p : pid) (m : M Process.state A) : M world A :=
  fun w => match processes w !! p with
           | Some ps => let '(r, ps') := m ps in
                        (r, set_processes (<[p := ps']> (processes w)) w)
           | None => (Raise (KeyError "no such process"), w)
           end.

(** An HTTP answer: the status code and the fields of the JSON body. *)
Record response : Type := mkResponse {
  status_code : Z;
  body : list (string * string);
}.

Definition field (name : string) (r : response) : option string :=
  Dict.lookup name (body r).

(** *** The connection registry and the message router *)

(** Modelled from the spec: [message_router.mark_closing] of
    [core/router.py], which is not part of the sources at hand.  It sets
    the closing flag of the session. *)
Definition mark_closing (client_id : string) : M world unit :=
  (emit (EvMarkClosing client_id) ;;;
   modify (fun w => set_closing_clients ({[client_id]} ∪ closing_clients w) w))%py.

(** Modelled from the spec: [registry.disconnect] of [core/connection.py],
    which is not part of the sources at hand.  It closes the transport of
    the named socket and removes the socket from the registry; it does
    nothing when the socket is absent.  A transport that fails to close
    raises, and the socket stays registered. *)
Definition disconnect (client_id : string) (is_pipecat : bool) : M world unit :=
  (emit (EvDisconnect client_id is_pipecat) ;;;
   let! w := get in
   let conns := if is_pipecat then pipecat_connections w else active_connections w in
   match conns !! client_id with
   | None => ret tt
   | Some sock =>
       if close_raises sock then raise OSError
       else if is_pipecat
            then modify (set_pipecat_connections (delete client_id conns))
            else modify (set_active_connections (delete client_id conns))
   end)%py.

(** A child, [seconds] later. *)
Definition later (seconds : float) (ps : Process.state) : Process.state :=
  Process.mkState (Process.advance (Process.ticks seconds) (Process.proc ps))
    (Process.log ps).

(** The world after [seconds] in which the service does nothing: the
    children have gone on running. *)
Definition elapse (seconds : float) (w : world) : world :=
  set_processes (later seconds <$> processes w) w.

(** [await asyncio.sleep(seconds)] *)
Definition sleep (seconds : float) : M world unit :=
  (emit (EvSleep seconds) ;;; modify (elapse seconds))%py.

(** *** [join_meeting] *)

Record BotRequest : Type := mkBotRequest {
  meeting_url : string;
  bot_name : string;
  personas : option (list string);
  bot_image : option string;
  entry_message : option string;
  text_message : option string;
  context_info : option string;
  extra : option (list (string * string));
  enable_tools : bool;
  webhook_url : option string;
}.

Definition str_truthy := Persona.str_truthy.

(** [str(v)] *)
Definition py_str (E : env) (v : Persona.value) : string :=
  match v with
  | Persona.VStr s => s
  | _ => repr E v
  end.

(** The choice of the persona (lines 212-234). *)
Definition choose_persona (E : env) (request : BotRequest) : M world string :=
  (let! w := get in
   match personas request with
   | Some (p :: _) => ret p
   | _ =>
       let persona_name := bot_name request in
       let table := Persona.personas (persona_manager w) in
       if Dict.mem persona_name table then ret persona_name
       else
         match Dict.keys table !! (random_choice E `mod` length table)%nat with
         | Some k => ret k
         | None => ret "baas_onboarder"
         end
   end)%py.

Definition join_meeting (E : env) (request : BotRequest) (api_key : string)
    : M world response :=
  (if negb (Str.nonempty (meeting_url request)) then
     ret (mkResponse 400 [("message", "Meeting URL is required"); ("status", "error")])
   else
     let webhook_url :=
       if str_truthy (webhook_url request) then webhook_url request
       else WEBHOOK_URL E in
     emit EvDetermineWebsocketUrl ;;;
     let '(websocket_url, temp_client_id) := determine_websocket_url E in
     let streaming_audio_frequency := "16khz" in
     emit (EvSetSampleRate 16000) ;;;
     let! w := get in
     let bot_client_id := uuid4 E (uuid_count w) in
     modify (set_uuid_count (S (uuid_count w))) ;;;
     (if LOCAL_DEV_MODE E && str_truthy temp_client_id then
        emit (EvUpdateNgrokClientId (default "" temp_client_id) bot_client_id) ;;;
        emit EvLogNgrokStatus
      else ret tt) ;;;
     let! persona_name := choose_persona E request in
     let! persona :=
       in_persona_manager
         (Persona.get_persona (PERSONA_INTERACTION_INSTRUCTIONS E)
            (random_choice E) (Some persona_name)) in
     modify (fun w => set_MEETING_DETAILS
       (Dict.set bot_client_id
          (mkDetails (meeting_url request) persona_name None
             (enable_tools request) streaming_audio_frequency
             (entry_message request) (text_message request))
          (MEETING_DETAILS w)) w) ;;;
     let! image := in_persona_manager (Persona.dict_get persona "image") in
     let! w := get in
     let bot_image_str :=
       if negb (str_truthy (bot_image request))
          && Persona.truthy (Persona.heap (persona_manager w)) image
       then Some (py_str E image)
       else bot_image request in
     let extra_data :=
       match context_info request with
       | Some info =>
           if Str.nonempty info
           then Dict.set "context_info" info (default [] (extra request))
           else default [] (extra request)
       | None => default [] (extra request)
       end in
     let! display :=
       in_persona_manager
         (fun s => match Persona.heap s !! persona with
                   | Some (Persona.ODict d) =>
                       (Ok (default (Persona.VStr persona_name) (d !! "name")), s)
                   | _ => (Ok (Persona.VStr persona_name), s)
                   end) in
     let call :=
       mkCreateCall (meeting_url request) websocket_url bot_client_id
         (py_str E display) api_key bot_image_str (entry_message request)
         (text_message request) extra_data streaming_audio_frequency
         webhook_url in
     emit (EvCreateMeetingBot call) ;;;
     let meetingbaas_bot_id := create_meeting_bot E call in
     if str_truthy meetingbaas_bot_id then
       modify (fun w => set_MEETING_DETAILS
         (Dict.set bot_client_id
            (mkDetails (meeting_url request) persona_name meetingbaas_bot_id
               (enable_tools request) streaming_audio_frequency
               (entry_message request) (text_message request))
            (MEETING_DETAILS w)) w) ;;;
       ret (mkResponse 201 [("bot_id", default "" meetingbaas_bot_id)])
     else
       ret (mkResponse 500
              [("message", "Failed to create bot through MeetingBaas API");
               ("status", "error")]))%py.

(** *** [leave_bot] *)

Record LeaveBotRequest : Type := mkLeaveBotRequest {
  req_bot_id : option string;
}.

(** The loop over [MEETING_DETAILS.items()] that looks for the session
    holding the remote bot id; it stops at the first match. *)
Fixpoint find_client_id (meetingbaas_bot_id : string)
    (details : list (string * Details)) : option string :=
  match details with
  | [] => None
  | (cid, d) :: details' =>
      if bool_decide (d_meetingbaas_bot_id d = Some meetingbaas_bot_id)
      then Some cid
      else find_client_id meetingbaas_bot_id details'
  end.

(** Step 1: the call to the MeetingBaas API (lines 380-393). *)
Definition leave_remote (E : env) (meetingbaas_bot_id api_key : string)
    : M world bool :=
  (if Str.nonempty meetingbaas_bot_id then
     log INFO ("Removing bot with ID: " +:+ meetingbaas_bot_id +:+ " from MeetingBaas API") ;;;
     emit (EvLeaveMeetingBot meetingbaas_bot_id api_key) ;;;
     if leave_meeting_bot E meetingbaas_bot_id api_key then ret true
     else
       log ERROR ("Failed to remove bot " +:+ meetingbaas_bot_id +:+ " from MeetingBaas API") ;;;
       ret false
   else
     log WARNING "No MeetingBaas bot ID or API key found, skipping API call" ;;;
     ret true)%py.

(** Step 2: the WebSocket connections (lines 395-419). *)
Definition close_sockets (client_id : string) (success : bool) : M world bool :=
  (mark_closing client_id ;;;
   let! w := get in
   let! success :=
     (if bool_decide (is_Some (pipecat_connections w !! client_id)) then
        try_except
          (disconnect client_id true ;;;
           log INFO ("Closed Pipecat WebSocket for client " +:+ client_id) ;;;
           ret success)
          (fun _ => log ERROR "Error closing Pipecat WebSocket" ;;; ret false)
      else ret success) in
   let! w := get in
   let! success :=
     (if bool_decide (is_Some (active_connections w !! client_id)) then
        try_except
          (disconnect client_id false ;;;
           log INFO ("Closed client WebSocket for client " +:+ client_id) ;;;
           ret success)
          (fun _ => log ERROR "Error closing client WebSocket" ;;; ret false)
      else ret success) in
   sleep 0.5 ;;;
   ret success)%py.

(** Step 3: the Pipecat process and the tables (lines 421-450). *)
Definition stop_process (E : env) (client_id : string) (success : bool)
    : M world bool :=
  (let! w := get in
   match PIPECAT_PROCESSES w !! client_id with
   | Some p =>
       let! rc := on_process p Process.poll in
       let! success :=
         (match rc with
          | None =>
              try_except
                (emit (EvTerminateProcess client_id 3.0) ;;;
                 let! graceful :=
                   on_process p (Process.terminate_process_gracefully 3.0) in
                 (if graceful : bool
                  then log INFO ("Gracefully terminated Pipecat process for client " +:+ client_id)
                  else log WARNING ("Had to forcefully kill Pipecat process for client " +:+ client_id)) ;;;
                 ret success)
                (fun _ => log ERROR "Error terminating Pipecat process" ;;; ret false)
          | Some _ => ret success
          end) in
       emit (EvPopProcess client_id) ;;;
       modify (fun w => set_PIPECAT_PROCESSES (delete client_id (PIPECAT_PROCESSES w)) w) ;;;
       let! w := get in
       (if Dict.mem client_id (MEETING_DETAILS w) then
          emit (EvPopDetails client_id) ;;;
          modify (fun w => set_MEETING_DETAILS (Dict.pop client_id (MEETING_DETAILS w)) w)
        else ret tt) ;;;
       (if LOCAL_DEV_MODE E then
          emit (EvReleaseNgrokUrl client_id) ;;; emit EvLogNgrokStatus
        else ret tt) ;;;
       ret success
   | None =>
       log WARNING ("No Pipecat process found for client " +:+ client_id) ;;;
       ret success
   end)%py.

(** [f"{client_id}"] *)
Definition format_opt (o : option string) : string :=
  match o with
  | Some s => s
  | None => "None"
  end.

Definition leave_bot (E : env) (bot_id : string) (request : LeaveBotRequest)
    (api_key : string) : M world response :=
  (log INFO ("Removing bot with ID: " +:+ bot_id) ;;;
   if negb (Str.nonempty bot_id) && negb (str_truthy (req_bot_id request)) then
     ret (mkResponse 400 [("message", "Bot ID is required"); ("status", "error")])
   else
     let meetingbaas_bot_id :=
       if Str.nonempty bot_id then bot_id else default "" (req_bot_id request) in
     let! w := get in
     let client_id := find_client_id meetingbaas_bot_id (MEETING_DETAILS w) in
     (match client_id with
      | Some cid => log INFO ("Found client ID " +:+ cid +:+ " for bot ID " +:+ meetingbaas_bot_id)
      | None => ret tt
      end) ;;;
     (if str_truthy client_id then ret tt
      else log WARNING ("No client ID found for bot ID " +:+ meetingbaas_bot_id)) ;;;
     let! success := leave_remote E meetingbaas_bot_id api_key in
     let! success :=
       (if str_truthy client_id
        then close_sockets (default "" client_id) success
        else ret success) in
     let! success :=
       (if str_truthy client_id
        then stop_process E (default "" client_id) success
        else
          log WARNING ("No Pipecat process found for client " +:+ format_opt client_id) ;;;
          ret success) in
     ret (mkResponse 200
            [("message", "Bot removal request processed");
             ("status", if success : bool then "success" else "partial");
             ("bot_id", meetingbaas_bot_id)]))%py.

(** [stop_bot]: the POST alias of [leave_bot]. *)
Definition stop_bot (E : env) (bot_id : string) (api_key : string)
    : M world response :=
  (log INFO ("Stopping bot with ID (POST method): " +:+ bot_id) ;;;
   leave_bot E bot_id (mkLeaveBotRequest None) api_key)%py.

(** *** [meetingbaas_webhook] *)

Record MeetingFailedData : Type := mkMeetingFailedData {
  f_bot_id : string;
  f_error : string;
}.

Record MeetingStatusData : Type := mkMeetingStatusData {
  st_bot_id : string;
  st_status : string;
}.

(** The [data] dictionary of an event, seen through the three models it
    may be parsed with; [None] is a pydantic validation error. *)
Record webhook_data : Type := mkWebhookData {
  as_completed : option Transcript.MeetingCompletedData;
  as_failed : option MeetingFailedData;
  as_status : option MeetingStatusData;
}.

Record MeetingWebhookEvent : Type := mkMeetingWebhookEvent {
  event_kind : string;
  data : webhook_data;
}.

Definition parse {A} (o : option A) : M world A :=
  match o with
  | Some a => ret a
  | None => raise ValidationError
  end.

Definition meetingbaas_webhook (webhook_event : MeetingWebhookEvent)
    : M world response :=
  try_except
    (log INFO ("Received MeetingBaas webhook event: " +:+ event_kind webhook_event) ;;;
     if String.eqb (event_kind webhook_event) "complete" then
       let! meeting_data := parse (as_completed (data webhook_event)) in
       let bot_id := Transcript.bot_id meeting_data in
       let! meeting_id :=
         in_transcript_service
           (Transcript.save_meeting_transcript bot_id meeting_data) in
       log INFO ("Meeting completed webhook processed. Meeting ID: " +:+ meeting_id) ;;;
       ret (mkResponse 200
              [("status", "success");
               ("message", "Meeting transcript saved");
               ("meeting_id", meeting_id)])
     else if String.eqb (event_kind webhook_event) "failed" then
       let! failed_data := parse (as_failed (data webhook_event)) in
       log ERROR ("Meeting failed: " +:+ f_error failed_data) ;;;
       ret (mkResponse 200
              [("status", "error");
               ("message", "Meeting failed");
               ("error", f_error failed_data)])
     else if String.eqb (event_kind webhook_event) "bot.status_change" then
       let! status_data := parse (as_status (data webhook_event)) in
       log INFO ("Bot status changed: " +:+ st_status status_data) ;;;
       ret (mkResponse 200
              [("status", "success");
               ("message", "Bot status change recorded")])
     else
       log WARNING ("Unknown webhook event: " +:+ event_kind webhook_event) ;;;
       ret (mkResponse 200
              [("status", "error");
               ("message", "Unknown webhook event: " +:+ event_kind webhook_event)]))%py
    (fun e =>
       (log ERROR "Error processing webhook" ;;;
        raise (HTTPExceptionStr 500 "Failed to process webhook: " e))%py).

(** *** Vocabulary for the statements about the routes *)

Definition unknown_kind (ev : MeetingWebhookEvent) : Prop :=
  event_kind ev ≠ "complete" ∧ event_kind ev ≠ "failed" ∧
  event_kind ev ≠ "bot.status_change".

(** The tables a stage of the leave flow does not touch. *)
Definition same_session_tables (w w' : world) : Prop :=
  MEETING_DETAILS w' = MEETING_DETAILS w ∧
  PIPECAT_PROCESSES w' = PIPECAT_PROCESSES w ∧
  processes w' = processes w.

(** The steps of the last stage of the leave flow. *)
Definition stop_steps (E : env) (cid : string) (w : world) : list event :=
  match PIPECAT_PROCESSES w !! cid ≫= (fun p => processes w !! p) with
  | Some ps =>
      match Process.returncode (Process.reap (Process.proc ps)) with
      | None => [EvTerminateProcess cid 3.0]
      | Some _ => []
      end ++
      [EvPopProcess cid] ++
      (if Dict.mem cid (MEETING_DETAILS w) then [EvPopDetails cid] else []) ++
      (if LOCAL_DEV_MODE E then [EvReleaseNgrokUrl cid; EvLogNgrokStatus] else [])
  | None => []
  end.

(** The same, for a session that is in [MEETING_DETAILS]: the process is
    terminated if it still runs, then the tables are cleared.  Nothing
    happens when no process is registered for the session. *)
Definition final_steps (E : env) (cid : string) (w : world) : list event :=
  match PIPECAT_PROCESSES w !! cid ≫= (fun p => processes w !! p) with
  | Some ps =>
      match Process.returncode (Process.reap (Process.proc ps)) with
      | None => [EvTerminateProcess cid 3.0]
      | Some _ => []
      end ++
      [EvPopProcess cid; EvPopDetails cid] ++
      (if LOCAL_DEV_MODE E then [EvReleaseNgrokUrl cid; EvLogNgrokStatus] else [])
  | None => []
  end.

Definition is_disconnect (cid : string) (pipecat : bool) (e : event) : bool :=
  match e with
  | EvDisconnect c p => String.eqb c cid && Bool.eqb p pipecat
  | _ => false
  end.

Definition is_sleep (e : event) : bool :=
  match e with
  | EvSleep _ => true
  | _ => false
  end.

(** What follows the first event that satisfies [P]. *)
Fixpoint after_first (P : event → bool) (tr : list event) : list event :=
  match tr with
  | [] => []
  | e :: tr' => if P e then tr' else after_first P tr'
  end.

(** Some pause lies between a disconnection of the subprocess socket and a
    later disconnection of the client socket. *)
Definition pause_between_disconnections (cid : string) (tr : list event) : bool :=
  existsb (is_disconnect cid false)
    (after_first is_sleep (after_first (is_disconnect cid true) tr)).

(** *** Scenarios *)

Definition quiet_env : env :=
  mkEnv false None ("wss://bridge.example/ws", None)
    (fun n => "uuid-" +:+ Transcript.pad 1 n) 0
    (fun _ => Some "remote-1") (fun _ _ => true)
    " Speak briefly." (fun _ => "").

(** The name [Élan Baas], with the capital U+00C9. *)
Definition elan_baas : string := String (Str.chr 201) "lan Baas".

(** One persona on disk. *)
Definition one_persona : Persona.state :=
  Persona.mkState
    {[ 0%nat := Persona.ODict
         (<["name" := Persona.VStr "Baas Onboarder"]>
            (<["prompt" := Persona.VStr "You welcome new users."]> ∅)) ]}
    [("baas_onboarder", 0%nat)] "/app/config/personas".

(** The service just started. *)
Definition started : world :=
  mkWorld [] ∅ ∅ ∅ ∅ ∅ Transcript.fresh_service one_persona 0 [] [].

Definition session_details : Details :=
  mkDetails "https://meet.example/abc" "baas_onboarder" (Some "remote-1")
    true "16khz" None None.

(** One session in full swing: both sockets are registered and the child
    process runs. *)
Definition busy : world :=
  mkWorld [("cid-1", session_details)] {["cid-1" := 7%nat]}
    {[7%nat := Process.mkState (Process.mkPopen None None (Some 3%nat) 0 false false false) []]}
    {["cid-1" := mkSocket false]} {["cid-1" := mkSocket false]} ∅
    Transcript.fresh_service one_persona 1 [] [].

(** The session of [busy] when its child is about to exit by itself, two
    tenths of a second from now. *)
Definition winding_down : world :=
  set_processes
    {[7%nat := Process.mkState
                 (Process.mkPopen None (Some 2%nat) (Some 3%nat) 0 false false false) []]}
    busy.

(** The service just started on a disk where the transcript of the next
    meeting of [bot1] cannot be written. *)
Definition read_only : world :=
  set_transcript_service
    (Transcript.mkState ∅ ∅ ∅
       {[Transcript.transcript_file
           (Transcript.next_meeting_id "bot1" Transcript.fresh_service)]}
       (fun _ => Transcript.ConnectionError) Transcript.quiet_clock 0 [])
    started.

Definition join_request : BotRequest :=
  mkBotRequest "https://meet.example/abc" "baas_onboarder" None None None
    None None None true None.

Definition no_url_request : BotRequest :=
  mkBotRequest "" "baas_onboarder" None None None None None None true None.

Definition unknown_event : MeetingWebhookEvent :=
  mkMeetingWebhookEvent "recording.ready" (mkWebhookData None None None).

End Routes.

(** ** [app/services/transcript_service.py]: the rest of the service *)

Module TranscriptService.
Import Transcript.

(** [s] ends with [suffix]. *)
Fixpoint endswith (suffix s : string) : bool :=
  String.eqb s suffix ||
  match s with
  | EmptyString => false
  | String _ s' => endswith suffix s'
  end.

(** The loop of [_load_existing_transcripts] (lines 54-58): each record
    of the index becomes a new [TranscriptMetadata] object in the cache.
    The timestamp is read back with [datetime.fromisoformat] from what
    [isoformat] wrote, which gives the same [datetime]. *)
Fixpoint load_records (data : list (string * TranscriptMetadata)) : M state unit :=
  match data with
  | [] => ret tt
  | (meeting_id, meta) :: data' =>
      (let! s := get in
       let a := fresh (dom (objects s)) in
       set_objects (<[a := meta]> (objects s)) ;;;
       set_cache (<[meeting_id := a]> (_metadata_cache s)) ;;;
       load_records data')%py
  end.

(** [_load_existing_transcripts()]: whatever is raised is caught and
    logged.  A file that is no index makes [json.load] or the first turn
    of the loop raise: a transcript document is a JSON object whose values
    have no [.get], and the bytes of a recording are taken not to be
    JSON. *)
Definition _load_existing_transcripts : M state unit :=
  try_except
    (let metadata_file := Path.div TRANSCRIPT_DIR "metadata.json" in
     let! there := exists_ metadata_file in
     if there then
       let! s := get in
       match files s !! metadata_file with
       | Some (FIndex data) => load_records (map_to_list data)
       | Some _ => raise ValueError
       | None => raise OSError
       end
     else ret tt)%py
    (fun _ => ret tt).

(** [TranscriptService()]: a new service over the files that are on
    disk, with an empty cache that [_load_existing_transcripts] fills.
    The objects and the background tasks of an earlier process are gone;
    the two data directories are taken to exist. *)
Definition __init__ (disk : state) : state :=
  (_load_existing_transcripts
     (mkState ∅ ∅ (files disk) (unwritable disk) (http disk) (clock disk)
        (clock_reads disk) [])).2.

(** What [json.loads] makes of a file of the service. *)
Inductive document : Type :=
| DTranscript (d : MeetingCompletedData)
| DIndex (records : gmap string TranscriptMetadata).

(** [get_transcript(meeting_id)]: [None] when the meeting is unknown,
    when the transcript file is gone and when reading it fails. *)
Definition get_transcript (meeting_id : string) : M state (option document) :=
  (let! s := get in
   match _metadata_cache s !! meeting_id ≫= (fun a => objects s !! a) with
   | None => ret None
   | Some metadata =>
       try_except
         (let! there := exists_ (transcript_path metadata) in
          if negb there then ret None
          else
            match files s !! Path.str (transcript_path metadata) with
            | Some (FTranscript d) => ret (Some (DTranscript d))
            | Some (FIndex data) => ret (Some (DIndex data))
            | Some (FRecording _) => raise ValueError
            | None => raise OSError
            end)
         (fun _ => ret None)
   end)%py.

(** *** Vocabulary *)

(** The records of the index on disk. *)
Definition on_disk (s : state) : gmap string TranscriptMetadata :=
  match files s !! index_file with
  | Some (FIndex data) => data
  | _ => ∅
  end.

(** The index can be written and is up to date. *)
Definition kept (s : state) : Prop :=
  (index_file ∉ unwritable s) ∧ on_disk s = snapshot s.

(** What the service does between two restarts: it saves completed
    meetings and its background tasks take steps, in any order. *)
Inductive action : Type :=
| Save (bot_id : string) (meeting_data : MeetingCompletedData)
| Step (i : nat).

Definition act (a : action) (s : state) : state :=
  match a with
  | Save bot_id meeting_data => (save_meeting_transcript bot_id meeting_data s).2
  | Step i => (download_step i s).2
  end.

Definition acts (l : list action) (s : state) : state :=
  foldl (fun s a => act a s) s l.

(** A download that cannot come to a good end: the file cannot be
    created, the provider cannot be reached or answers another code than
    200, or the body breaks off before its end. *)
Definition failing (s : state) (mid url : string) (ph : phase) : Prop :=
  match ph with
  | Scheduled =>
      recording_file mid ∈ unwritable s ∨
      match http s url with
      | ConnectionError => True
      | Response status body => status ≠ 200%Z ∨ delivered body = None
      end
  | Streaming body => delivered body = None
  | Finished => True
  end.

(** Task [i] downloads the recording of meeting [mid] from [url] and is
    in phase [ph]. *)
Definition in_phase (i : nat) (mid url : string) (ph : phase) (s : state) : Prop :=
  ∃ t, tasks s !! i = Some t ∧ t_meeting_id t = mid ∧ t_mp4_url t = url ∧
       t_phase t = ph.

(** The transcript of meeting [mid] is on disk as [d], and the record of
    the meeting, which task [i] shares, points to it. *)
Definition readable (i : nat) (mid : string) (d : MeetingCompletedData)
    (s : state) : Prop :=
  ∃ t m, tasks s !! i = Some t ∧ t_meeting_id t = mid ∧
         _metadata_cache s !! mid = Some (t_metadata t) ∧
         objects s !! t_metadata t = Some m ∧
         transcript_path m = transcript_file mid ∧
         files s !! transcript_file mid = Some (FTranscript d).

(** The bytes written to a recording so far. *)
Definition recorded (mid : string) (s : state) : option (list string) :=
  match files s !! recording_file mid with
  | Some (FRecording chunks) => Some chunks
  | _ => None
  end.

End TranscriptService.

(** ** [app/routes.py]: vocabulary for the leave flow *)

Module Leave.
Import Routes.

(** The socket of [client_id] in a registry, if there is one, can be
    closed. *)
Definition closes (connections : gmap string socket) (client_id : string) : bool :=
  match connections !! client_id with
  | Some sock => negb (close_raises sock)
  | None => true
  end.

(** Every step of the leave flow for session [client_id] goes through:
    the provider removes the bot and both sockets can be closed. *)
Definition all_steps_succeed (E : env) (bot_id api_key client_id : string)
    (w : world) : bool :=
  leave_meeting_bot E bot_id api_key &&
  closes (pipecat_connections w) client_id &&
  closes (active_connections w) client_id.

(** SIGKILL reaches the child. *)
Definition killable (ps : Process.state) : Prop :=
  Process.kill_raises (Process.proc ps) = false ∧
  Process.ignores_sigkill (Process.proc ps) = false.

End Leave.

(** ** [config/persona_utils.py]: [PersonaManager.get_persona_by_name] *)

Module PersonaManager.
Import Persona.

(** The loop of [get_persona_by_name] (lines 492-494): the first record, in
    the order of the table, whose ["name"] is the name asked for; [None]
    when the loop ends without one.  [persona["name"]] raises [KeyError] on
    a record without a name. *)
Fixpoint first_named (name : string) (records : list (string * addr))
    : M state (option addr) :=
  match records with
  | [] => ret None
  | (_, a) :: records' =>
      (let! nm := dict_getitem a "name" in
       match nm with
       | VStr n => if String.eqb n name
                   then (let! persona := dict_copy a in ret (Some persona))
                   else first_named name records'
       | _ => first_named name records'
       end)%py
  end.

(** [p['name'] for p in self.personas.values()], as [', '.join] takes
    them: strings only. *)
Fixpoint names_of (records : list (string * addr)) : M state (list string) :=
  match records with
  | [] => ret []
  | (_, a) :: records' =>
      (let! nm := dict_getitem a "name" in
       let! n := as_str nm in
       let! names := names_of records' in
       ret (n :: names))%py
  end.

(** [get_persona_by_name(name)] *)
Definition get_persona_by_name (name : string) : M state addr :=
  (let! s := get in
   let! found := first_named name (personas s) in
   match found with
   | Some persona => ret persona
   | None =>
       let! names := names_of (personas s) in
       raise (KeyError (not_found name names))
   end)%py.

(** *** Vocabulary *)

(** The record at [a] is a dict with a name other than [name]. *)
Definition named_otherwise (s : state) (name : string) (a : addr) : Prop :=
  ∃ d v, heap s !! a = Some (ODict d) ∧ d !! "name" = Some v ∧ v ≠ VStr name.

End PersonaManager.

(** ** [app/routes.py]: the persona, bot and transcript routes *)

Module Api.
Import Routes.

(** *** Personas *)

(** [PersonaCreate] and [PersonaUpdate]: the fields of [PersonaBase]. *)
Record PersonaBase : Type := mkPersonaBase {
  name : string;
  description : option string;
  personality : option string;
  knowledge_base : option string;
  image : option string;
}.

(** The response model [Persona]. *)
Record PersonaOut : Type := mkPersona {
  id : string;
  base : PersonaBase;
}.

Definition opt_value (o : option string) : Persona.value :=
  match o with
  | Some s => Persona.VStr s
  | None => Persona.VNone
  end.

(** [persona.dict()] *)
Definition to_dict (p : PersonaBase) : gmap string Persona.value :=
  <["name" := Persona.VStr (name p)]>
    (<["description" := opt_value (description p)]>
       (<["personality" := opt_value (personality p)]>
          (<["knowledge_base" := opt_value (knowledge_base p)]>
             (<["image" := opt_value (image p)]> ∅)))).

(** The validation of a [str] field and of an [Optional[str]] field of
    the response model: a string passes, [None] passes for an optional
    field, anything else is refused (pydantic 2; pydantic 1 would turn a
    number into a string). *)
Definition str_field (v : Persona.value) : M world string :=
  match v with
  | Persona.VStr s => ret s
  | _ => raise ValidationError
  end.

Definition opt_field (v : Persona.value) : M world (option string) :=
  match v with
  | Persona.VStr s => ret (Some s)
  | Persona.VNone => ret None
  | _ => raise ValidationError
  end.

(** [Persona(id=persona_id, name=data.get("name", persona_id),
    description=data.get("description", ""), ...)] for the record at
    address [a]. *)
Definition persona_of (persona_id : string) (a : Persona.addr)
    : M world PersonaOut :=
  (let! w := get in
   match Persona.heap (persona_manager w) !! a with
   | Some (Persona.ODict data) =>
       let! n := str_field (default (Persona.VStr persona_id) (data !! "name")) in
       let! d := opt_field (default (Persona.VStr "") (data !! "description")) in
       let! p := opt_field (default (Persona.VStr "") (data !! "personality")) in
       let! k := opt_field (default (Persona.VStr "") (data !! "knowledge_base")) in
       let! i := opt_field (default (Persona.VStr "") (data !! "image")) in
       ret (mkPersona persona_id (mkPersonaBase n d p k i))
   | _ => raise (KeyError "not a dict")
   end)%py.

(** [except HTTPException: raise] followed by [except Exception as e],
    which logs [msg] and raises a 500 with [detail]. *)
Definition reraise {A} (msg detail : string) (e : exn) : M world A :=
  match e with
  | HTTPException _ _ | HTTPExceptionStr _ _ _ => raise e
  | _ => (log ERROR msg ;;; raise (HTTPException 500 detail))%py
  end.

(** The same, where the detail is [f"{detail}{str(e)}"]. *)
Definition reraise_str {A} (msg detail : string) (e : exn) : M world A :=
  match e with
  | HTTPException _ _ | HTTPExceptionStr _ _ _ => raise e
  | _ => (log ERROR msg ;;; raise (HTTPExceptionStr 500 detail e))%py
  end.

(** The routes that catch every exception alike. *)
Definition fail {A} (msg detail : string) (e : exn) : M world A :=
  (log ERROR msg ;;; raise (HTTPException 500 detail))%py.

Fixpoint personas_of (records : list (string * Persona.addr))
    : M world (list PersonaOut) :=
  match records with
  | [] => ret []
  | (name, a) :: records' =>
      (let! persona := persona_of name a in
       let! personas := personas_of records' in
       ret (persona :: personas))%py
  end.

(** [GET /personas] *)
Definition list_personas : M world (list PersonaOut) :=
  try_except
    (let! w := get in personas_of (Persona.personas (persona_manager w)))%py
    (fail "Error listing personas" "Failed to list personas").

(** [GET /personas/{persona_id}] *)
Definition get_persona (persona_id : string) : M world PersonaOut :=
  try_except
    (let! w := get in
     match Dict.lookup persona_id (Persona.personas (persona_manager w)) with
     | None => raise (HTTPException 404 "Persona not found")
     | Some a => persona_of persona_id a
     end)%py
    (reraise "Error getting persona" "Failed to get persona").

Definition set_personas (table : list (string * Persona.addr))
    (s : Persona.state) : Persona.state :=
  Persona.mkState (Persona.heap s) table (Persona.personas_dir s).

Definition set_heap (h : gmap Persona.addr Persona.obj)
    (s : Persona.state) : Persona.state :=
  Persona.mkState h (Persona.personas s) (Persona.personas_dir s).

(** [POST /personas] *)
Definition create_persona (E : env) (persona : PersonaBase) : M world PersonaOut :=
  try_except
    (let! w := get in
     let persona_id := uuid4 E (uuid_count w) in
     modify (set_uuid_count (S (uuid_count w))) ;;;
     let persona_data := to_dict persona in
     let a := fresh (dom (Persona.heap (persona_manager w))) in
     in_persona_manager
       (modify (fun s =>
          set_personas (Dict.set persona_id a (Persona.personas s))
            (set_heap (<[a := Persona.ODict persona_data]> (Persona.heap s)) s))) ;;;
     ret (mkPersona persona_id persona))%py
    (fail "Error creating persona" "Failed to create persona").

(** [PUT /personas/{persona_id}]; [d.update(persona_data)] overwrites the
    keys of [persona_data] and keeps the others. *)
Definition update_persona (persona_id : string) (persona : PersonaBase)
    : M world PersonaOut :=
  try_except
    (let! w := get in
     match Dict.lookup persona_id (Persona.personas (persona_manager w)) with
     | None => raise (HTTPException 404 "Persona not found")
     | Some a =>
         let persona_data := to_dict persona in
         match Persona.heap (persona_manager w) !! a with
         | Some (Persona.ODict data) =>
             in_persona_manager
               (modify (fun s =>
                  set_heap (<[a := Persona.ODict (persona_data ∪ data)]>
                              (Persona.heap s)) s)) ;;;
             ret (mkPersona persona_id persona)
         | _ => raise (KeyError "not a dict")
         end
     end)%py
    (reraise "Error updating persona" "Failed to update persona").

(** [DELETE /personas/{persona_id}] *)
Definition delete_persona (persona_id : string) : M world unit :=
  try_except
    (let! w := get in
     match Dict.lookup persona_id (Persona.personas (persona_manager w)) with
     | None => raise (HTTPException 404 "Persona not found")
     | Some _ =>
         in_persona_manager
           (modify (fun s =>
              set_personas (Dict.pop persona_id (Persona.personas s)) s))
     end)%py
    (reraise "Error deleting persona" "Failed to delete persona").

(** The record [data] holds, for the five fields of the model, what [p]
    holds. *)
Definition shows (data : gmap string Persona.value) (p : PersonaBase) : Prop :=
  data !! "name" = Some (Persona.VStr (name p)) ∧
  data !! "description" = Some (opt_value (description p)) ∧
  data !! "personality" = Some (opt_value (personality p)) ∧
  data !! "knowledge_base" = Some (opt_value (knowledge_base p)) ∧
  data !! "image" = Some (opt_value (image p)).

(** The keys of [PersonaBase]. *)
Definition model_keys : list string :=
  ["name"; "description"; "personality"; "knowledge_base"; "image"].

(** *** Bots *)

Record BotEntry : Type := mkBotEntry {
  b_id : string;
  b_name : string;
  b_meeting_url : string;
  b_personas : list string;
}.

(** The loop of [list_bots] (lines 565-575): the sessions whose remote bot
    id is set, in the order of [MEETING_DETAILS]. *)
Fixpoint bots_of (details : list (string * Details)) : list BotEntry :=
  match details with
  | [] => []
  | (client_id, d) :: details' =>
      if str_truthy (d_meetingbaas_bot_id d)
      then mkBotEntry (default "" (d_meetingbaas_bot_id d)) (d_persona_name d)
             (d_meeting_url d) [d_persona_name d] :: bots_of details'
      else bots_of details'
  end.

(** [GET /bots] *)
Definition list_bots : M world (list BotEntry) :=
  try_except
    (let! w := get in ret (bots_of (MEETING_DETAILS w)))%py
    (fail "Error listing bots" "Failed to list bots").

(** *** Transcripts *)

(** [if not transcript_data]: [None], or a JSON object without keys. *)
Definition present (doc : option TranscriptService.document) : bool :=
  match doc with
  | None => false
  | Some (TranscriptService.DTranscript _) => true
  | Some (TranscriptService.DIndex data) => negb (bool_decide (data = ∅))
  end.

(** [GET /transcripts/{meeting_id}] *)
Definition get_transcript (meeting_id : string)
    : M world TranscriptService.document :=
  try_except
    (let! transcript_data :=
       in_transcript_service (TranscriptService.get_transcript meeting_id) in
     match transcript_data with
     | Some doc =>
         if present transcript_data then ret doc
         else raise (HTTPException 404
                       ("Transcript not found for meeting ID: " +:+ meeting_id))
     | None => raise (HTTPException 404
                        ("Transcript not found for meeting ID: " +:+ meeting_id))
     end)%py
    (reraise_str "Error retrieving transcript" "Failed to retrieve transcript: ").

(** What a [StreamingResponse] carries: a JSON document, or the file at a
    path, which is opened when the response is sent. *)
Inductive payload : Type :=
| Json (doc : TranscriptService.document)
| FileAt (path : string).

Record StreamingResponse : Type := mkStreamingResponse {
  content : payload;
  media_type : string;
  content_disposition : string;
}.

(** [GET /transcripts/{meeting_id}/download] *)
Definition download_transcript (meeting_id : string) : M world StreamingResponse :=
  try_except
    (let! transcript_data :=
       in_transcript_service (TranscriptService.get_transcript meeting_id) in
     match transcript_data with
     | Some doc =>
         if present transcript_data then
           ret (mkStreamingResponse (Json doc) "application/json"
                  ("attachment; filename=transcript_" +:+ meeting_id +:+ ".json"))
         else raise (HTTPException 404
                       ("Transcript not found for meeting ID: " +:+ meeting_id))
     | None => raise (HTTPException 404
                        ("Transcript not found for meeting ID: " +:+ meeting_id))
     end)%py
    (reraise_str "Error downloading transcript" "Failed to download transcript: ").

(** [GET /transcripts/{meeting_id}/recording] *)
Definition download_recording (meeting_id : string) : M world StreamingResponse :=
  try_except
    (let! recording_path :=
       in_transcript_service (Transcript.get_recording_path meeting_id) in
     if str_truthy recording_path then
       ret (mkStreamingResponse
              (FileAt (Path.str (default "" recording_path))) "video/mp4"
              ("attachment; filename=recording_" +:+ meeting_id +:+ ".mp4"))
     else raise (HTTPException 404
                   ("Recording not found for meeting ID: " +:+ meeting_id)))%py
    (reraise_str "Error downloading recording" "Failed to download recording: ").

End Api.

(** ** [core/process.py]: [start_pipecat_process] *)

Module Launch.
Import Routes.

(** [d.get(key, default)] *)
Definition dict_get_or (a : Persona.addr) (key : string) (dflt : Persona.value)
    : M Persona.state Persona.value :=
  (let! s := get in
   match Persona.heap s !! a with
   | Some (Persona.ODict d) => ret (default dflt (d !! key))
   | _ => raise (KeyError "not a dict")
   end)%py.

(** An argument of the command: [subprocess.Popen] takes strings only
    and raises [TypeError], here [ValueError], on anything else. *)
Definition argument (v : Persona.value) : M world string :=
  match v with
  | Persona.VStr s => ret s
  | _ => raise ValueError
  end.

Section WithInterpreter.

(** [sys.executable] and the path of [scripts/meetingbaas.py] beside the
    module. *)
Variable executable : string.
Variable script_path : string.

(** [start_pipecat_process(client_id, websocket_url, meeting_url,
    persona_name, streaming_audio_frequency, enable_tools)], up to the
    call of [subprocess.Popen]: the result is the command the child is
    started with. *)
Definition start_pipecat_process (E : env)
    (client_id websocket_url meeting_url persona_name
       streaming_audio_frequency : string) (enable_tools : bool)
    : M world (list string) :=
  (log INFO ("Starting Pipecat process for client " +:+ client_id) ;;;
   let! persona :=
     in_persona_manager
       (Persona.get_persona (PERSONA_INTERACTION_INSTRUCTIONS E)
          (random_choice E) (Some persona_name)) in
   let! display_name :=
     in_persona_manager (dict_get_or persona "name" (Persona.VStr persona_name)) in
   let! speech_rate := in_persona_manager (Persona.dict_get persona "speech_rate") in
   let! w := get in
   let has_rate := Persona.truthy (Persona.heap (persona_manager w)) speech_rate in
   (if has_rate
    then log INFO ("Using custom speech rate from persona: " +:+ py_str E speech_rate)
    else ret tt) ;;;
   let details := Dict.lookup client_id (MEETING_DETAILS w) in
   let custom_entry_message := details ≫= d_entry_message in
   let initial_speech := details ≫= d_text_message in
   (if str_truthy custom_entry_message
    then log INFO ("Using custom entry message from request: "
                   +:+ default "" custom_entry_message)
    else ret tt) ;;;
   (if str_truthy initial_speech
    then log INFO ("Using custom speech message from request: "
                   +:+ default "" initial_speech)
    else ret tt) ;;;
   let! entry_message :=
     (if str_truthy custom_entry_message
      then ret (Persona.VStr (default "" custom_entry_message))
      else in_persona_manager
             (dict_get_or persona "entry_message" (Persona.VStr ""))) in
   log INFO ("Using entry message for chat: " +:+ py_str E entry_message) ;;;
   let! display_name := argument display_name in
   let! entry_message := argument entry_message in
   ret ([executable; script_path;
         "--meeting-url"; meeting_url;
         "--persona-name"; display_name;
         "--entry-message"; entry_message;
         "--websocket-url"; websocket_url;
         "--streaming-audio-frequency"; streaming_audio_frequency]
        ++ (if str_truthy initial_speech
            then ["--initial-speech"; default "" initial_speech] else [])
        ++ (if has_rate then ["--speech-rate"; py_str E speech_rate] else [])
        ++ (if enable_tools then ["--enable-tools"] else [])))%py.

End WithInterpreter.

(** *** Vocabulary *)

(** The text of a stored entry, or [dflt] where the record has none. *)
Definition text_of (d : gmap string Persona.value) (key dflt : string)
    : Persona.value :=
  default (Persona.VStr dflt) (d !! key).

(** *** Scenarios *)

(** The session of [busy], with an entry message and an initial speech
    of its own. *)
Definition greeted : world :=
  set_MEETING_DETAILS
    [("cid-1",
      mkDetails "https://meet.example/abc" "baas_onboarder" (Some "remote-1")
        true "16khz" (Some "Hi all") (Some "Hello everyone"))]
    busy.

End Launch.

(** * Facts about the child process *)

Section ProcessFacts.
Import Process.

Lemma ticks_tenth : ticks 0.1 = 1.
Proof. reflexivity. Qed.

Lemma ticks_one : ticks 1.0 = 10.
Proof. reflexivity. Qed.

Lemma reap_running (p : Popen) : running p -> reap p = p.
Proof.
  unfold running, reap. destruct p as [rc pd sd ec f1 f2 f3]; simpl.
  destruct rc as [c|]; [discriminate|].
  destruct pd as [[|d]|]; simpl; congruence.
Qed.

Lemma running_returncode (p : Popen) : running p -> returncode p = None.
Proof. intros H. rewrite <- (reap_running p H). exact H. Qed.

Lemma returncode_advance (k : nat) (p : Popen) :
  returncode (advance k p) = returncode p.
Proof. unfold advance. destruct (pending p); reflexivity. Qed.





Lemma reap_killed (q : Popen) (k : nat) :
  returncode q = None ->
  returncode (reap (advance k (with_pending q (Some 0)))) = Some (exit_code q).
Proof.
  intros H. unfold reap, advance, with_pending, with_returncode; simpl.
  rewrite H. reflexivity.
Qed.

Lemma reap_idem (p : Popen) : reap (reap p) = reap p.
Proof.
  unfold reap. destruct p as [[c|] [[|d]|] sd ec f1 f2 f3]; reflexivity.
Qed.

Lemma poll_running (p : Popen) (tr : list event) :
  running p -> poll (mkState p tr) = (Ok None, mkState p (tr ++ [EvPoll])).
Proof.
  intros H. unfold poll, bind, emit, modify, get, set_proc, ret; simpl.
  rewrite (reap_running p H). rewrite (running_returncode p H). reflexivity.
Qed.

Lemma poll_exited (p : Popen) (tr : list event) :
  exited p ->
  exists c, poll (mkState p tr) = (Ok (Some c), mkState (reap p) (tr ++ [EvPoll])).
Proof.
  intros H. unfold exited in H.
  destruct (returncode (reap p)) as [c|] eqn:E; [|congruence].
  exists c. unfold poll, bind, emit, modify, get, set_proc, ret; simpl.
  rewrite E. reflexivity.
Qed.



Lemma try_except_total {S A} (body : M S A) (handler : exn -> M S A) :
  (forall e s, exists a s', handler e s = (Ok a, s')) ->
  forall s, exists a s', try_except body handler s = (Ok a, s').
Proof.
  intros Hh s. unfold try_except.
  destruct (body s) as [[a|e] s']; eauto.
Qed.

Lemma terminate_process_gracefully_total (timeout : float) (s : state) :
  exists b s', terminate_process_gracefully timeout s = (Ok b, s').
Proof.
  unfold terminate_process_gracefully, bind at 1.
  destruct (poll s) as [[[c|]|e] s1] eqn:Hp.
  - unfold ret. eauto.
  - apply try_except_total. intros e s2.
    unfold bind, try_except, ret.
    destruct (kill s2) as [[[]|e'] s3]; eauto.
  - unfold poll, bind, emit, modify, get, set_proc, ret in Hp. simpl in Hp.
    discriminate.
Qed.

(** Claim C5.  When the child has already exited at the time of the call,
    [terminate_process_gracefully] answers [True] (graceful) at once: the
    only thing it does is the first [poll]; neither SIGTERM nor SIGKILL is
    sent. *)
Theorem terminate_already_exited (p : Popen) (tr : list event) (timeout : float) :
  exited p ->
  terminate_process_gracefully timeout (mkState p tr)
  = (Ok true, mkState (reap p) (tr ++ [EvPoll])).
Proof.
  intros H. destruct (poll_exited p tr H) as [c Hc].
  unfold terminate_process_gracefully, bind. rewrite Hc. reflexivity.
Qed.

(** Claim C5 at a child that was reaped before the call. *)
Lemma terminate_already_exited_witness :
  terminate_process_gracefully 2.0 (mkState reaped [])
  = (Ok true, mkState (reap reaped) ([] ++ [EvPoll])).
Proof.
  apply (terminate_already_exited reaped [] 2.0).
  unfold exited. simpl. discriminate.
Defined.




Lemma poll_loop_exits (d : nat) : forall (n : nat) (p : Popen) (tr : list event),
  returncode p = None -> pending p = Some d -> d < n ->
  poll_loop n (mkState p tr)
  = (Ok (Some true),
     mkState (reap (advance d p)) (tr ++ loop_events d ++ [EvPoll])).
Proof.
  induction d as [|d IH]; intros n p tr Hrc Hpd Hlt.
  - destruct n as [|n]; [lia|]. cbn [poll_loop]. unfold bind at 1.
    assert (Hex : exited p).
    { unfold exited, reap. rewrite Hrc, Hpd. simpl. discriminate. }
    destruct (poll_exited p tr Hex) as [c Hc]. rewrite Hc. unfold ret.
    f_equal. f_equal. unfold advance. rewrite Hpd. simpl.
    destruct p; simpl in *. subst. reflexivity.
  - destruct n as [|n]; [lia|]. cbn [poll_loop]. unfold bind at 1.
    assert (Hrun : running p).
    { unfold running, reap. rewrite Hrc, Hpd. simpl. exact Hrc. }
    rewrite (poll_running p tr Hrun).
    unfold bind at 1. unfold sleep, bind, emit, modify, get, set_proc; simpl.
    rewrite ticks_tenth.
    rewrite (IH n (advance 1 p)).
    + f_equal. f_equal.
      * f_equal. unfold advance. rewrite Hpd. simpl.
        destruct p; simpl in *. subst. unfold with_pending. simpl.
        do 2 f_equal. lia.
      * rewrite <- !app_assoc. reflexivity.
    + by rewrite returncode_advance.
    + unfold advance. rewrite Hpd. simpl. f_equal. lia.
    + lia.
Qed.

(** A running child that exits [d] ticks after SIGTERM, with [d] less than
    the [int(timeout * 10)] rounds of the loop: the answer is [True]
    (graceful).  After [d] rounds of poll and [time.sleep(0.1)] the next
    poll finds the child gone; SIGKILL is not sent. *)
Theorem terminate_graceful_within_timeout
    (p : Popen) (tr : list event) (timeout : float) (n d : nat) :
  running p ->
  terminate_raises p = false ->
  iterations timeout = Ok n ->
  min_delay (pending p) (sigterm_delay p) = Some d ->
  d < n ->
  exists st',
    terminate_process_gracefully timeout (mkState p tr) = (Ok true, st') /\
    log st' = tr ++ [EvPoll; EvTerminate] ++ loop_events d ++ [EvPoll] /\
    exited (proc st').
Proof.
  intros Hrun Ht Hit Hd Hlt.
  pose proof (running_returncode p Hrun) as Hrc.
  unfold terminate_process_gracefully, bind at 1.
  rewrite (poll_running p tr Hrun).
  unfold try_except at 1, bind at 1.
  unfold terminate, bind, emit, modify, get, set_proc; simpl.
  rewrite Ht, Hrc; simpl. rewrite Hit; simpl. unfold ret at 1; simpl.
  rewrite Hd.
  rewrite (poll_loop_exits d n (with_pending p (Some d))) by (simpl; auto).
  unfold ret. eexists. split; [reflexivity|]. simpl. split.
  - rewrite <- !app_assoc. reflexivity.
  - unfold exited. rewrite reap_idem.
    unfold reap, advance. simpl. rewrite Hrc, Nat.sub_diag. simpl. discriminate.
Qed.

(** A child that exits three ticks after SIGTERM, with the default timeout
    of two seconds. *)
Lemma terminate_graceful_within_timeout_witness :
  exists st',
    terminate_process_gracefully 2.0
      (mkState (mkPopen None None (Some 3) 0 false false false) [])
    = (Ok true, st') /\
    log st' = [] ++ [EvPoll; EvTerminate] ++ loop_events 3 ++ [EvPoll] /\
    exited (proc st').
Proof.
  apply (terminate_graceful_within_timeout
           (mkPopen None None (Some 3) 0 false false false) [] 2.0 20 3).
  - reflexivity.
  - reflexivity.
  - reflexivity.
  - reflexivity.
  - lia.
Defined.

End ProcessFacts.

(** * Facts about the persona manager *)

Lemma Dict_lookup_elem {A} (key : string) (d : list (string * A)) (v : A) :
  Dict.lookup key d = Some v -> (key, v) ∈ d.
Proof.
  induction d as [|[k v'] d IH]; simpl; [discriminate|].
  destruct (String.eqb k key) eqn:E.
  - apply String.eqb_eq in E. intros [= ->]. subst. left.
  - intros H. right. auto.
Qed.

Section PersonaFacts.
Import Persona.

Variable instr : string.

Lemma dict_copy_spec (a : addr) (s : state) :
  match dict_copy a s with
  | (Ok a', s') =>
      exists d, heap s !! a = Some (ODict d) ∧ a' = fresh (dom (heap s)) ∧
                s' = mkState (<[a' := ODict d]> (heap s)) (personas s) (personas_dir s)
  | (Raise _, s') => s' = s
  end.
Proof.
  unfold dict_copy, bind, get, set_heap, modify, ret, raise; simpl.
  destruct (heap s !! a) as [[d|l]|]; simpl; eauto.
Qed.

Lemma touches_refl (a' : addr) (s : state) : touches a' s s.
Proof. by unfold touches. Qed.

Lemma touches_trans (a' : addr) (s1 s2 s3 : state) :
  touches a' s1 s2 → touches a' s2 s3 → touches a' s1 s3.
Proof.
  intros (H1 & H2 & H3) (K1 & K2 & K3). repeat split; try congruence.
  intros b Hb. rewrite K3, H3; auto.
Qed.

Lemma select_persona_spec (rnd : nat) (name : option string) (s : state) :
  match select_persona rnd name s with
  | (Ok a', s') =>
      exists key a d, (key, a) ∈ personas s ∧ heap s !! a = Some (ODict d) ∧
        a' = fresh (dom (heap s)) ∧
        s' = mkState (<[a' := ODict d]> (heap s)) (personas s) (personas_dir s)
  | (Raise _, s') => touches (fresh (dom (heap s))) s s'
  end.
Proof.
  unfold select_persona, bind at 1, get; simpl.
  assert (Hcopy : forall key a, (key, a) ∈ personas s ->
    match dict_copy a s with
    | (Ok a', s') =>
        exists key a d, (key, a) ∈ personas s ∧ heap s !! a = Some (ODict d) ∧
          a' = fresh (dom (heap s)) ∧
          s' = mkState (<[a' := ODict d]> (heap s)) (personas s) (personas_dir s)
    | (Raise _, s') => touches (fresh (dom (heap s))) s s'
    end).
  { intros key a Hin. pose proof (dict_copy_spec a s) as H.
    destruct (dict_copy a s) as [[a'|e] s'].
    - destruct H as (d & H1 & H2 & H3). exists key, a, d. auto.
    - subst s'. apply touches_refl. }
  destruct (str_truthy name).
  - destruct (Dict.lookup _ (personas s)) as [a|] eqn:E.
    + eapply Hcopy. eapply Dict_lookup_elem; eauto.
    + destruct (closest _ _ None 0) as [cm mo].
      destruct (str_truthy cm && _); [|apply touches_refl].
      destruct (Dict.lookup (default "" cm) (personas s)) as [a|] eqn:E2;
        [|apply touches_refl].
      eapply Hcopy. eapply Dict_lookup_elem; eauto.
  - destruct (personas s !! _) as [[k a]|] eqn:E; [|apply touches_refl].
    assert (Hin : (k, a) ∈ personas s) by (eapply list_elem_of_lookup_2; eauto).
    pose proof (Hcopy k a Hin) as H. unfold bind at 1.
    destruct (dict_copy a s) as [[a'|e] s']; [|exact H].
    destruct H as (key & a0 & d & Hin0 & Ha0 & -> & ->).
    unfold dict_getitem, bind, get, ret, raise. simpl.
    rewrite lookup_insert_eq.
    destruct (d !! "name"); simpl.
    + exists key, a0, d. auto.
    + repeat split; simpl. intros b Hb. by rewrite lookup_insert_ne.
Qed.

Lemma touches_setitem (a' : addr) (key : string) (v : value) (s : state)
    (r : result unit) (s' : state) :
  dict_setitem a' key v s = (r, s') → touches a' s s'.
Proof.
  unfold dict_setitem, bind, get, set_heap, modify, raise; simpl.
  destruct (heap s !! a') as [[d|l]|]; intros [= <- <-];
    try apply touches_refl.
  repeat split; simpl. intros b Hb. by rewrite lookup_insert_ne.
Qed.

Lemma default_image_spec (a' : addr) (d : gmap string value) (s : state) :
  heap s !! a' = Some (ODict d) →
  ∃ s', default_image a' s = (Ok tt, s') ∧ touches a' s s' ∧
        heap s' !! a' = Some (ODict (fix_image (heap s) d)).
Proof.
  intros H. unfold default_image, dict_get, dict_setitem, bind, get, set_heap,
    modify, ret; simpl.
  rewrite H; simpl. unfold fix_image.
  destruct (truthy (heap s) (default VNone (d !! "image"))); simpl.
  - eexists; repeat split; eauto.
  - rewrite H; simpl. eexists; repeat split; simpl.
    + intros b Hb. by rewrite lookup_insert_ne.
    + by rewrite lookup_insert_eq.
Qed.

Lemma append_instructions_spec (a' : addr) (d : gmap string value) (s : state)
    (r : result unit) (s' : state) :
  heap s !! a' = Some (ODict d) →
  append_instructions instr a' s = (r, s') →
  touches a' s s' ∧
  match r with
  | Ok _ => ∃ prompt, d !! "prompt" = Some (VStr prompt) ∧
      heap s' !! a' = Some (ODict (<["prompt" := VStr (prompt +:+ instr)]> d))
  | Raise _ => True
  end.
Proof.
  intros H. unfold append_instructions, dict_getitem, dict_setitem, as_str,
    bind, get, set_heap, modify, ret, raise; simpl.
  rewrite H; simpl.
  destruct (d !! "prompt") as [[| | | |prompt|]|]; simpl;
    try (intros [= <- <-]; split; [apply touches_refl|exact I]).
  rewrite H; simpl. intros [= <- <-]. split.
  - repeat split; simpl. intros b Hb. by rewrite lookup_insert_ne.
  - exists prompt. simpl. by rewrite lookup_insert_eq.
Qed.

Lemma set_path_spec (name : option string) (a' : addr)
    (d : gmap string value) (s : state) (r : result unit) (s' : state) :
  heap s !! a' = Some (ODict d) →
  set_path name a' s = (r, s') →
  touches a' s s' ∧
  match r with
  | Ok _ => ∃ path,
      heap s' !! a' = Some (ODict (<["path" := VStr path]> d))
  | Raise _ => True
  end.
Proof.
  intros H. unfold set_path, dict_getitem, dict_setitem, as_str,
    bind, get, set_heap, modify, ret, raise; simpl.
  destruct (str_truthy name); simpl; rewrite H; simpl.
  - intros [= <- <-]. split.
    + repeat split; simpl. intros b Hb. by rewrite lookup_insert_ne.
    + eexists. simpl. by rewrite lookup_insert_eq.
  - destruct (d !! "name") as [[| | | |nm|]|]; simpl;
      try (intros [= <- <-]; split; [apply touches_refl|exact I]).
    rewrite H; simpl. intros [= <- <-]. split.
    + repeat split; simpl. intros b Hb. by rewrite lookup_insert_ne.
    + eexists. simpl. by rewrite lookup_insert_eq.
Qed.

Lemma get_persona_spec (rnd : nat) (name : option string) (s : state)
    (r : result addr) (s' : state) :
  get_persona instr rnd name s = (r, s') → returns_copy instr s r s'.
Proof.
  unfold get_persona, bind at 1.
  pose proof (select_persona_spec rnd name s) as Hsel.
  destruct (select_persona rnd name s) as [[a'|e] s1].
  2:{ intros [= <- <-]. destruct Hsel as (? & ? & Hb). repeat split; auto.
      apply map_subseteq_spec. intros b o Hbo. rewrite Hb; [done|].
      intros ->. pose proof (is_fresh (dom (heap s))) as Hf.
      apply not_elem_of_dom in Hf. congruence. }
  destruct Hsel as (key & a & d & Hin & Ha & Hfresh & Hs1).
  assert (Hnew : a' ∉ dom (heap s)) by (subst a'; apply is_fresh).
  assert (Hnone : heap s !! a' = None) by (by apply not_elem_of_dom).
  assert (Hne : a ≠ a') by congruence.
  assert (H1 : heap s1 !! a' = Some (ODict d))
    by (subst s1; simpl; by rewrite lookup_insert_eq).
  assert (T1 : touches a' s s1).
  { subst s1. repeat split; simpl. intros b Hb. by rewrite lookup_insert_ne. }
  assert (Hframe : ∀ s2, touches a' s s2 → heap s ⊆ heap s2).
  { intros s2 (_ & _ & Hb). apply map_subseteq_spec. intros b o Hbo.
    rewrite Hb; [done|]. congruence. }
  assert (Hraise : ∀ s2, touches a' s s2 → ∀ e, returns_copy instr s (Raise e) s2).
  { intros s2 T e. pose proof (Hframe s2 T). destruct T as (? & ? & ?).
    by repeat split. }
  destruct (default_image_spec a' d s1 H1) as (s2 & E2 & T2 & H2).
  unfold bind at 1. rewrite E2.
  unfold bind at 1.
  destruct (append_instructions instr a' s2) as [[[]|e] s3] eqn:E3.
  2:{ intros [= <- <-]. apply Hraise.
      destruct (append_instructions_spec a' _ s2 _ _ H2 E3) as [T3 _].
      eauto using touches_trans. }
  destruct (append_instructions_spec a' _ s2 _ _ H2 E3) as (T3 & prompt & Hp & H3).
  unfold bind at 1.
  destruct (set_path name a' s3) as [[[]|e] s4] eqn:E4.
  2:{ intros [= <- <-]. apply Hraise.
      destruct (set_path_spec name a' _ s3 _ _ H3 E4) as [T4 _].
      eauto using touches_trans. }
  destruct (set_path_spec name a' _ s3 _ _ H3 E4) as (T4 & path & H4).
  unfold ret. intros [= <- <-].
  assert (T : touches a' s s4) by eauto using touches_trans.
  pose proof (Hframe s4 T) as Hsub.
  destruct T as (P1 & P2 & P3).
  repeat split; auto.
  exists key, a, d, prompt, path. repeat split; auto.
  - rewrite P3; auto.
  - unfold fix_image in Hp. destruct (truthy _ _); [done|].
    by rewrite lookup_insert_ne in Hp.
  - rewrite H4. subst s1. done.
Qed.

Lemma get_persona_returns_copy (rnd : nat) (name : option string) (s : state) :
  returns_copy instr s (get_persona instr rnd name s).1
    (get_persona instr rnd name s).2.
Proof.
  apply (get_persona_spec rnd name s).
  by destruct (get_persona instr rnd name s).
Qed.

Lemma get_personas_frame (calls : list (nat * option string)) : ∀ s : state,
  personas (get_personas instr calls s).2 = personas s ∧
  personas_dir (get_personas instr calls s).2 = personas_dir s ∧
  heap s ⊆ heap (get_personas instr calls s).2.
Proof.
  induction calls as [|[rnd name] calls IH]; intros s; simpl.
  - done.
  - destruct (get_persona instr rnd name s) as [r s1] eqn:E.
    destruct (get_persona_spec rnd name s r s1 E) as (Q1 & Q2 & Q3 & _).
    destruct (IH s1) as (R1 & R2 & R3).
    destruct (get_personas instr calls s1) as [rs s2]; simpl in *.
    repeat split; try congruence. by etrans.
Qed.

(** Claim C10.  [get_persona] leaves the manager's table of personas as
    it is, whatever the name and whether it returns or raises: the table and
    every object that was on the heap, the stored records among them, are
    unchanged.  What it returns is a new dict: the matched record with the
    image defaulted, [PERSONA_INTERACTION_INSTRUCTIONS] appended to the
    prompt and a path added.  The same holds after any number of calls. *)
Theorem get_persona_leaves_personas_unchanged :
  (∀ (rnd : nat) (name : option string) (s : state),
     returns_copy instr s (get_persona instr rnd name s).1
       (get_persona instr rnd name s).2) ∧
  (∀ (calls : list (nat * option string)) (s : state),
     personas (get_personas instr calls s).2 = personas s ∧
     personas_dir (get_personas instr calls s).2 = personas_dir s ∧
     heap s ⊆ heap (get_personas instr calls s).2).
Proof.
  split.
  - apply get_persona_returns_copy.
  - intros calls s. apply get_personas_frame.
Qed.

End PersonaFacts.

(** * Facts about paths *)

Section PathFacts.
Import Path.

Lemma split_by_clean (s : string) :
  Forall (fun p => clean p = true) (Str.split_by is_slash s).
Proof.
  induction s as [|c s IH]; simpl.
  - by repeat constructor.
  - destruct (is_slash c) eqn:E.
    + by constructor.
    + destruct (Str.split_by is_slash s) as [|w ws]; simpl.
      * repeat constructor. simpl. by rewrite E.
      * inversion IH; subst. constructor; [|done]. simpl. by rewrite E.
Qed.

Lemma split_by_one (p : string) :
  clean p = true -> Str.split_by is_slash p = [p].
Proof.
  induction p as [|c p IH]; simpl; [done|].
  intros [Hc Hp]%andb_prop. apply negb_true_iff in Hc. rewrite Hc, IH; done.
Qed.

Lemma split_by_app (p r : string) :
  clean p = true ->
  Str.split_by is_slash (p +:+ String "/" r) = p :: Str.split_by is_slash r.
Proof.
  induction p as [|c p IH]; simpl; [done|].
  intros [Hc Hp]%andb_prop. apply negb_true_iff in Hc. rewrite Hc, IH; done.
Qed.

Lemma split_by_join (ps : list string) :
  Forall (fun p => clean p = true) ps ->
  Str.split_by is_slash (Str.join "/" ps)
  = match ps with [] => [""] | _ => ps end.
Proof.
  induction ps as [|p ps IH]; [done|].
  intros H. inversion H as [|? ? Hp Hps]; subst.
  destruct ps as [|q ps].
  - simpl. by apply split_by_one.
  - change (Str.join "/" (p :: q :: ps))
      with (p +:+ String "/" (Str.join "/" (q :: ps))).
    rewrite split_by_app by done. rewrite IH by done. done.
Qed.

Lemma parts_kept (s : string) :
  Forall (fun p => clean p = true /\ keep_part p = true) (parts s).
Proof.
  unfold parts. pose proof (split_by_clean s) as H.
  induction H as [|p ps Hp Hps IH]; simpl; [constructor|].
  destruct (keep_part p) eqn:E; [constructor|]; auto.
Qed.

Lemma filter_kept (ps : list string) :
  Forall (fun p => clean p = true /\ keep_part p = true) ps ->
  List.filter keep_part ps = ps.
Proof.
  induction 1 as [|p ps [_ Hp] _ IH]; simpl; [done|]. by rewrite Hp, IH.
Qed.

Lemma parts_join (ps : list string) :
  Forall (fun p => clean p = true /\ keep_part p = true) ps ->
  parts (Str.join "/" ps) = ps.
Proof.
  intros H. unfold parts. rewrite split_by_join.
  - destruct ps; [done|]. by apply filter_kept.
  - eapply Forall_impl; [exact H|]. by intros p [? _].
Qed.

Lemma parts_slash (s : string) : parts (String "/" s) = parts s.
Proof. reflexivity. Qed.

Lemma join_no_leading_slash (ps : list string) :
  Forall (fun p => clean p = true /\ keep_part p = true) ps ->
  no_leading_slash (Str.join "/" ps).
Proof.
  destruct 1 as [|p ps [Hc Hk] Hps]; simpl; [done|].
  destruct p as [|c p]; [done|].
  simpl in Hc. apply andb_prop in Hc as [Hc _]. apply negb_true_iff in Hc.
  destruct ps; simpl; done.
Qed.

Lemma root_cases (s : string) : root s = "" \/ root s = "/" \/ root s = "//".
Proof.
  unfold root. destruct s as [|c1 [|c2 [|c3 s]]]; auto;
    repeat (destruct (is_slash _)); auto.
Qed.

Lemma root_app (r x : string) :
  (r = "" \/ r = "/" \/ r = "//") -> no_leading_slash x -> root (r +:+ x) = r.
Proof.
  intros [-> | [-> | ->]] Hx; simpl.
  - destruct x as [|c1 [|c2 [|c3 x]]]; simpl in *; try done; by rewrite Hx.
  - destruct x as [|c1 [|c2 x]]; simpl in *; try done; by rewrite Hx.
  - destruct x as [|c1 x]; simpl in *; try done; by rewrite Hx.
Qed.

Lemma parts_root_app (r x : string) :
  (r = "" \/ r = "/" \/ r = "//") -> parts (r +:+ x) = parts x.
Proof. by intros [-> | [-> | ->]]. Qed.

Lemma str_idempotent (s : string) : str (str s) = str s.
Proof.
  unfold str at 2 3.
  pose proof (parts_kept s) as Hk.
  pose proof (root_cases s) as Hr.
  pose proof (join_no_leading_slash _ Hk) as Hj.
  destruct (Str.nonempty (root s +:+ Str.join "/" (parts s))) eqn:E; [|reflexivity].
  unfold str.
  rewrite (root_app _ _ Hr Hj), (parts_root_app _ _ Hr), (parts_join _ Hk).
  by rewrite E.
Qed.

Lemma str_nonempty (s : string) : Str.nonempty (str s) = true.
Proof.
  unfold str. by destruct (Str.nonempty (root s +:+ Str.join "/" (parts s))) eqn:E.
Qed.

Lemma str_div (a b : string) : str (div a b) = div a b.
Proof. unfold div. destruct (Str.startswith "/" b); apply str_idempotent. Qed.

Lemma div_nonempty (a b : string) : Str.nonempty (div a b) = true.
Proof. unfold div. destruct (Str.startswith "/" b); apply str_nonempty. Qed.

End PathFacts.

(** * Facts about the transcript service *)

Section TranscriptFacts.
Import Transcript.

Lemma save_meeting_transcript_run (bot : string) (d : MeetingCompletedData)
    (s : state) :
  save_meeting_transcript bot d s =
  if bool_decide (transcript_file (next_meeting_id bot s) ∈ unwritable s)
  then (Raise (HTTPExceptionStr 500 "Failed to save transcript: " OSError),
        mkState (objects s) (_metadata_cache s) (files s) (unwritable s)
          (http s) (clock s) (S (clock_reads s)) (tasks s))
  else (Ok (next_meeting_id bot s), saved bot d s).
Proof.
  unfold save_meeting_transcript, saved, _save_metadata, write_file, now,
    try_except, set_objects, set_tasks, set_cache, set_files, modify, get,
    ret, raise, bind.
  simpl. fold (next_meeting_id bot s).
  fold (transcript_file (next_meeting_id bot s)). fold index_file.
  destruct (bool_decide (transcript_file (next_meeting_id bot s) ∈ unwritable s));
    simpl; [reflexivity|].
  destruct (bool_decide (index_file ∈ unwritable s)); reflexivity.
Qed.

Lemma saved_metadata (bot : string) (d : MeetingCompletedData) (s : state) :
  metadata_of (next_meeting_id bot s) (saved bot d s)
  = Some (mkTranscriptMetadata bot (next_meeting_id bot s)
            (clock s (S (clock_reads s)))
            (compute_duration (transcript d)) (length (speakers d)) None
            (transcript_file (next_meeting_id bot s))).
Proof.
  unfold metadata_of, saved.
  destruct (bool_decide (index_file ∈ unwritable s)); simpl;
    rewrite lookup_insert_eq; simpl; by rewrite lookup_insert_eq.
Qed.

Lemma head_all_words (t : list TranscriptSegment) (seg : TranscriptSegment) :
  head t = Some seg → words seg ≠ [] → head (all_words t) = head (words seg).
Proof.
  destruct t as [|x t]; [done|]. intros [= ->] Hw.
  unfold all_words. simpl. by destruct (words seg).
Qed.

Lemma last_all_words (t : list TranscriptSegment) (seg : TranscriptSegment) :
  last t = Some seg → words seg ≠ [] → last (all_words t) = last (words seg).
Proof.
  intros [t' ->]%last_Some Hw. unfold all_words.
  rewrite map_app, concat_app. simpl. rewrite app_nil_r, last_app.
  destruct (last (words seg)) eqn:E; [done|].
  apply last_None in E. done.
Qed.

Lemma compute_duration_unfold (t : list TranscriptSegment)
    (first_segment last_segment : TranscriptSegment) :
  head t = Some first_segment → last t = Some last_segment →
  compute_duration t =
    match head (words first_segment), last (words last_segment) with
    | Some w0, Some wn => Some (end_ wn - start w0)%float
    | _, _ => None
    end.
Proof. intros H1 H2. unfold compute_duration. by rewrite H1, H2. Qed.

Lemma compute_duration_span (t : list TranscriptSegment)
    (first_segment last_segment : TranscriptSegment) :
  head t = Some first_segment → last t = Some last_segment →
  words first_segment ≠ [] → words last_segment ≠ [] →
  compute_duration t = span_across_segments t.
Proof.
  intros H1 H2 W1 W2. rewrite (compute_duration_unfold t _ _ H1 H2).
  unfold span_across_segments.
  by rewrite (head_all_words t _ H1 W1), (last_all_words t _ H2 W2).
Qed.

(** Claim C3, amended.  For a [complete] payload with a transcript that is
    not empty, the stored duration is the end of the last word of the last
    segment minus the start of the first word of the first segment, and it
    is unset when the first or the last segment has no words.  Whenever
    both have words, this is the span from the first to the last word across
    all segments.  Two segments whose first word starts at 0.0 and whose
    last word ends at 9.0 give 9.0. *)
Theorem stored_duration_first_to_last_segment
    (bot : string) (d : MeetingCompletedData) (s : state) :
  transcript d ≠ [] →
  transcript_file (next_meeting_id bot s) ∉ unwritable s →
  ∃ first_segment last_segment,
    head (transcript d) = Some first_segment ∧
    last (transcript d) = Some last_segment ∧
    stored_duration bot d s =
      Some (match head (words first_segment), last (words last_segment) with
            | Some w0, Some wn => Some (end_ wn - start w0)%float
            | _, _ => None
            end) ∧
    (words first_segment ≠ [] → words last_segment ≠ [] →
     stored_duration bot d s = Some (span_across_segments (transcript d))) ∧
    (∀ seg1 seg2 w0 wn,
       transcript d = [seg1; seg2] →
       head (words seg1) = Some w0 → last (words seg2) = Some wn →
       start w0 = 0.0%float → end_ wn = 9.0%float →
       stored_duration bot d s = Some (Some 9.0%float)).
Proof.
  intros Hne Hw.
  assert (Hd : stored_duration bot d s = Some (compute_duration (transcript d))).
  { unfold stored_duration. rewrite save_meeting_transcript_run.
    rewrite bool_decide_eq_false_2 by done. simpl.
    by rewrite saved_metadata. }
  destruct (transcript d) as [|seg0 t] eqn:Et; [done|].
  destruct (last (seg0 :: t)) as [segn|] eqn:El.
  2:{ apply last_None in El. done. }
  exists seg0, segn. repeat split; try done.
  - rewrite Hd. f_equal. by apply compute_duration_unfold.
  - intros W1 W2. rewrite Hd. f_equal.
    by apply (compute_duration_span _ seg0 segn).
  - intros seg1 seg2 w0 wn [= -> ->] H0 Hn S0 E9. rewrite Hd. f_equal.
    unfold compute_duration. simpl. rewrite H0, Hn, S0, E9. reflexivity.
Qed.

Lemma get_recording_path_run (mid : string) (s : state) :
  get_recording_path mid s =
  (Ok match metadata_of mid s with
      | Some m =>
          match recording_path m with
          | Some rp =>
              if Str.nonempty rp && bool_decide (is_Some (files s !! Path.str rp))
              then Some (Path.str rp) else None
          | None => None
          end
      | None => None
      end, s).
Proof.
  unfold get_recording_path, exists_, metadata_of, bind, get, ret. simpl.
  destruct (_metadata_cache s !! mid ≫= (fun a => objects s !! a)) as [m|];
    [|done].
  destruct (recording_path m) as [rp|]; [|done].
  destruct (Str.nonempty rp); simpl; [|done].
  by destruct (bool_decide _).
Qed.

Lemma downloading_not_found (i : nat) (mid : string) (a : addr) (s : state) :
  downloading i mid a s → get_recording_path mid s = (Ok None, s).
Proof.
  intros (_ & Hc & m & Hm & Hr). rewrite get_recording_path_run.
  unfold metadata_of. rewrite Hc. simpl. by rewrite Hm, Hr.
Qed.

Lemma download_step_ok (i : nat) (s : state) : (download_step i s).1 = Ok tt.
Proof.
  unfold download_step, _save_metadata, write_file, append_chunk, set_phase,
    try_except, set_objects, set_tasks, set_cache, set_files, modify, get,
    ret, raise, bind. simpl.
  destruct (tasks s !! i) as [t|]; [|done].
  destruct (t_phase t) as [|[|data rest|]|]; simpl; try done.
  - destruct (http s (t_mp4_url t)) as [st body|]; simpl; [|done].
    destruct (st =? 200)%Z; simpl; [|done].
    by destruct (bool_decide _).
  - destruct (objects s !! t_metadata t); simpl; by destruct (bool_decide _).
  - destruct (Str.nonempty data); simpl; [|done].
    by destruct (files s !! _) as [[]|].
Qed.

Lemma download_steps_ok (i n : nat) : ∀ s, (download_steps i n s).1 = Ok tt.
Proof.
  induction n as [|n IH]; intros s; simpl; [done|].
  unfold bind. pose proof (download_step_ok i s) as H.
  destruct (download_step i s) as [r s1]. simpl in H. subst r. apply IH.
Qed.

Lemma download_step_finished (i : nat) (s : state) :
  phase_of i s = Some Finished → download_step i s = (Ok tt, s).
Proof.
  unfold phase_of, download_step, bind, get, ret. simpl.
  destruct (tasks s !! i) as [t|]; simpl; [|done].
  intros [= ->]. done.
Qed.

Lemma download_steps_finished (i n : nat) (s : state) :
  phase_of i s = Some Finished → download_steps i n s = (Ok tt, s).
Proof.
  intros H. induction n as [|n IH]; simpl; [done|].
  unfold bind. by rewrite download_step_finished.
Qed.

Lemma download_step_keeps (i : nat) (mid : string) (a : addr) (s : state) :
  downloading i mid a s →
  phase_of i (download_step i s).2 ≠ Some Finished →
  downloading i mid a (download_step i s).2.
Proof.
  intros ((t & Ht & Hmid & Ha) & Hc & m & Hm & Hr).
  unfold phase_of, download_step, _save_metadata, write_file, append_chunk,
    set_phase, try_except, set_objects, set_tasks, set_cache, set_files,
    modify, get, ret, raise, bind. simpl.
  rewrite Ht.
  assert (Halter : ∀ p, alter (fun t => mkTask (t_meeting_id t) (t_mp4_url t)
                            (t_metadata t) p) i (tasks s) !! i
                        = Some (mkTask mid (t_mp4_url t) a p)).
  { intros p. rewrite list_lookup_alter_eq, Ht. simpl. by rewrite Hmid, Ha. }
  assert (Hgoal : ∀ p f, downloading i mid a
            (mkState (objects s) (_metadata_cache s) f (unwritable s)
               (http s) (clock s) (clock_reads s)
               (alter (fun t => mkTask (t_meeting_id t) (t_mp4_url t)
                                  (t_metadata t) p) i (tasks s)))).
  { intros p f. repeat split; simpl; eauto. }
  destruct (t_phase t) as [|[|data rest|]|] eqn:Hph; simpl.
  - destruct (http s (t_mp4_url t)) as [st body|]; simpl.
    + destruct (st =? 200)%Z; simpl.
      * destruct (bool_decide _); simpl; rewrite Halter; simpl; [done|].
        intros _. apply Hgoal.
      * rewrite Halter. done.
    + rewrite Halter. done.
  - destruct (objects s !! t_metadata t); simpl;
      destruct (bool_decide _); simpl; rewrite Halter; done.
  - destruct (Str.nonempty data); simpl.
    + destruct (files s !! _) as [[]|]; simpl; rewrite Halter; simpl;
        intros _; apply Hgoal.
    + rewrite Halter. simpl. intros _. apply Hgoal.
  - rewrite Halter. done.
  - rewrite Ht. simpl. rewrite Hph. done.
Qed.

Lemma download_steps_keep (i : nat) (mid : string) (a : addr) (n : nat) :
  ∀ s, downloading i mid a s →
       phase_of i (download_steps i n s).2 ≠ Some Finished →
       downloading i mid a (download_steps i n s).2.
Proof.
  induction n as [|n IH]; intros s Hd Hp; simpl in *; [done|].
  unfold bind in *. pose proof (download_step_ok i s) as Hok.
  pose proof (download_step_keeps i mid a s Hd) as Hk.
  destruct (download_step i s) as [r s1]. simpl in *. subst r.
  assert (Hf : phase_of i s1 ≠ Some Finished).
  { intros Hf. by rewrite (download_steps_finished i n s1 Hf) in Hp. }
  apply IH; auto.
Qed.

Lemma saved_downloading (bot : string) (d : MeetingCompletedData) (s : state) :
  downloading (length (tasks s)) (next_meeting_id bot s)
    (fresh (dom (objects s))) (saved bot d s).
Proof.
  unfold downloading, saved.
  destruct (bool_decide (index_file ∈ unwritable s)); simpl;
    (repeat split;
     [ eexists; split; [by rewrite lookup_app_r, Nat.sub_diag|done]
     | by rewrite lookup_insert_eq
     | eexists; split; [by rewrite lookup_insert_eq|done] ]).
Qed.

Local Ltac unfold_step :=
  unfold download_step, _save_metadata, write_file, append_chunk,
    set_phase, try_except, set_objects, set_tasks, set_cache, set_files,
    modify, get, ret, raise, bind; simpl.

Lemma download_step_start (i : nat) (mid : string) (a : addr) (s : state)
    (t : task) (body : stream) :
  downloading i mid a s →
  tasks s !! i = Some t → t_phase t = Scheduled →
  http s (t_mp4_url t) = Response 200 body →
  recording_file mid ∉ unwritable s →
  streaming i mid a body (download_step i s).2.
Proof.
  intros Hd Ht Hph Hhttp Hw.
  assert (Hnf : phase_of i (download_step i s).2 ≠ Some Finished ∧
                phase_of i (download_step i s).2 = Some (Streaming body) ∧
                is_Some (files (download_step i s).2 !! recording_file mid)).
  { destruct Hd as ((t' & Ht' & Hmid & Ha) & _).
    assert (t' = t) by congruence. subst t'.
    unfold phase_of. unfold_step. rewrite Ht, Hph, Hhttp. simpl.
    fold (recording_file (t_meeting_id t)). rewrite Hmid.
    rewrite bool_decide_eq_false_2 by done. simpl.
    rewrite list_lookup_alter_eq, Ht. simpl.
    repeat split; try done. by rewrite lookup_insert_eq. }
  destruct Hnf as (H1 & H2 & H3).
  split; [by apply download_step_keeps|by split].
Qed.

Lemma download_step_chunk (i : nat) (mid : string) (a : addr) (s : state)
    (data : string) (rest : stream) :
  streaming i mid a (Chunk data rest) s →
  streaming i mid a (if Str.nonempty data then rest else Eof)
    (download_step i s).2.
Proof.
  intros (Hd & Hph & Hf).
  assert (Hnf : phase_of i (download_step i s).2
                = Some (Streaming (if Str.nonempty data then rest else Eof)) ∧
                is_Some (files (download_step i s).2 !! recording_file mid)).
  { destruct Hd as ((t & Ht & Hmid & Ha) & _).
    unfold phase_of in *. rewrite Ht in Hph. simpl in Hph.
    injection Hph as Hph.
    unfold_step. rewrite Ht, Hph. simpl.
    fold (recording_file (t_meeting_id t)). rewrite Hmid.
    destruct (Str.nonempty data); simpl.
    - destruct (files s !! recording_file mid) as [[]|]; simpl;
        rewrite list_lookup_alter_eq, Ht; simpl;
        (split; [done|]); by rewrite lookup_insert_eq.
    - rewrite list_lookup_alter_eq, Ht. simpl. done. }
  destruct Hnf as (H1 & H2).
  split; [|by split]. apply download_step_keeps; [done|].
  rewrite H1. by destruct (Str.nonempty data).
Qed.

Lemma download_steps_read (i : nat) (mid : string) (a : addr) (body : stream) :
  ∀ s, streaming i mid a body s → is_Some (delivered body) →
       streaming i mid a Eof (download_steps i (reads body) s).2.
Proof.
  induction body as [|data rest IH|]; intros s Hs Hdel; simpl in *.
  - done.
  - pose proof (download_step_chunk i mid a s data rest Hs) as H1.
    pose proof (download_step_ok i s) as Hok.
    destruct (Str.nonempty data); simpl; unfold bind;
      destruct (download_step i s) as [r s1]; simpl in *; subst r.
    + apply IH; [done|]. by destruct (delivered rest).
    + done.
  - by destruct Hdel.
Qed.

Lemma download_step_finish (i : nat) (mid : string) (a : addr) (s : state) :
  streaming i mid a Eof s →
  phase_of i (download_step i s).2 = Some Finished ∧
  get_recording_path mid (download_step i s).2
  = (Ok (Some (recording_file mid)), (download_step i s).2).
Proof.
  intros (((t & Ht & Hmid & Ha) & Hc & m & Hm & Hr) & Hph & Hf).
  unfold phase_of in Hph. rewrite Ht in Hph. simpl in Hph.
  injection Hph as Hph.
  rewrite get_recording_path_run.
  unfold phase_of, metadata_of. unfold_step. rewrite Ht, Hph. simpl.
  fold (recording_file (t_meeting_id t)). rewrite Hmid, Ha, Hm. simpl.
  fold index_file.
  assert (Hrec : Path.str (recording_file mid) = recording_file mid)
    by apply str_div.
  assert (Hne : Str.nonempty (recording_file mid) = true)
    by apply div_nonempty.
  destruct (bool_decide (index_file ∈ unwritable s)); simpl;
    rewrite list_lookup_alter_eq, Ht; simpl; (split; [done|]);
    rewrite lookup_insert_eq; simpl; rewrite lookup_insert_eq; simpl;
    rewrite Hne, Hrec; simpl.
  - by rewrite bool_decide_eq_true_2.
  - rewrite bool_decide_eq_true_2; [done|].
    destruct (decide (index_file = recording_file mid)) as [->|Hneq].
    + by rewrite lookup_insert_eq.
    + by rewrite lookup_insert_ne.
Qed.

Lemma download_steps_add (i n k : nat) : ∀ s,
  (download_steps i (n + k) s).2
  = (download_steps i k (download_steps i n s).2).2.
Proof.
  induction n as [|n IH]; intros s; simpl; [done|].
  unfold bind. pose proof (download_step_ok i s) as Hok.
  destruct (download_step i s) as [r s1]. simpl in *. subst r. apply IH.
Qed.

Lemma nonempty_iff (x : string) : Str.nonempty x = true ↔ x ≠ "".
Proof. by destruct x. Qed.

Lemma get_recording_path_iff (mid : string) (s : state) :
  ∃ r, get_recording_path mid s = (Ok r, s) ∧
       ∀ p, r = Some p ↔
            ∃ m rp, metadata_of mid s = Some m ∧
                    recording_path m = Some rp ∧ rp ≠ "" ∧
                    is_Some (files s !! Path.str rp) ∧ p = Path.str rp.
Proof.
  eexists. split; [apply get_recording_path_run|].
  intros p. split.
  - destruct (metadata_of mid s) as [m|]; [|done].
    destruct (recording_path m) as [rp|] eqn:Hrp; [|done].
    destruct (Str.nonempty rp) eqn:Hne; [|done].
    destruct (bool_decide (is_Some (files s !! Path.str rp))) eqn:Hex; [|done].
    simpl. intros [= <-]. exists m, rp.
    apply nonempty_iff in Hne. apply bool_decide_eq_true_1 in Hex. done.
  - intros (m & rp & -> & -> & Hne & Hex & ->).
    apply nonempty_iff in Hne. rewrite Hne. simpl.
    by rewrite bool_decide_eq_true_2.
Qed.

(** Claim C8.  [get_recording_path] answers a path exactly when the
    record of the meeting holds a recording path and the file at that path
    exists, and answers [None] otherwise; it changes nothing.  Right after
    the [complete] webhook is processed it answers [None], and so it does
    at every point of the background download short of its end; once a
    download that succeeds has come to its end it answers the path of the
    recording, from then on. *)
Theorem recording_path_after_complete
    (bot : string) (d : MeetingCompletedData) (s : state) :
  transcript_file (next_meeting_id bot s) ∉ unwritable s →
  let mid := next_meeting_id bot s in
  let i := length (tasks s) in
  (∀ mid' s', ∃ r, get_recording_path mid' s' = (Ok r, s') ∧
       ∀ p, r = Some p ↔
            ∃ m rp, metadata_of mid' s' = Some m ∧
                    recording_path m = Some rp ∧ rp ≠ "" ∧
                    is_Some (files s' !! Path.str rp) ∧ p = Path.str rp) ∧
  ∃ s1, save_meeting_transcript bot d s = (Ok mid, s1) ∧
    get_recording_path mid s1 = (Ok None, s1) ∧
    (∀ k, phase_of i (download_steps i k s1).2 ≠ Some Finished →
          get_recording_path mid (download_steps i k s1).2
          = (Ok None, (download_steps i k s1).2)) ∧
    (∀ body, http s (mp4 d) = Response 200 body →
             is_Some (delivered body) →
             recording_file mid ∉ unwritable s →
             ∀ k, 2 + reads body ≤ k →
                  get_recording_path mid (download_steps i k s1).2
                  = (Ok (Some (recording_file mid)), (download_steps i k s1).2)).
Proof.
  intros Hw mid i. split; [intros; apply get_recording_path_iff|].
  exists (saved bot d s).
  pose proof (saved_downloading bot d s) as Hd. fold mid i in Hd.
  split; [|split; [|split]].
  - rewrite save_meeting_transcript_run. by rewrite bool_decide_eq_false_2.
  - by eapply downloading_not_found.
  - intros k Hk. eapply downloading_not_found.
    by apply download_steps_keep.
  - intros body Hhttp Hdel Hwr k Hk.
    set (s1 := saved bot d s) in *.
    assert (Ht : tasks s1 !! i = Some (mkTask mid (mp4 d) (fresh (dom (objects s))) Scheduled)).
    { subst s1 i. unfold saved.
      destruct (bool_decide _); simpl; by rewrite lookup_app_r, Nat.sub_diag. }
    assert (Hh : http s1 = http s ∧ unwritable s1 = unwritable s).
    { subst s1. unfold saved. by destruct (bool_decide _). }
    destruct Hh as [Hh Hu].
    assert (S1 : streaming i mid (fresh (dom (objects s))) body
                   (download_step i s1).2).
    { eapply download_step_start; eauto; simpl.
      - by rewrite Hh.
      - by rewrite Hu. }
    pose proof (download_steps_read i mid _ body _ S1 Hdel) as S2.
    destruct (download_step_finish i mid _ _ S2) as [F1 F2].
    replace k with (1 + (reads body + (1 + (k - (2 + reads body))))) by lia.
    rewrite (download_steps_add i 1), (download_steps_add i (reads body)),
      (download_steps_add i 1).
    assert (E1 : ∀ x, (download_steps i 1 x).2 = (download_step i x).2).
    { intros x. simpl. unfold bind, ret.
      pose proof (download_step_ok i x) as Hok.
      destruct (download_step i x) as [r x1]. simpl in *. by subst r. }
    rewrite !E1.
    rewrite (download_steps_finished i _ _ F1). simpl. exact F2.
Qed.

(** Claim C8 at the sample webhook, with a recording that downloads in two
    chunks: four steps of the task bring the download to its end. *)
Lemma recording_path_after_complete_witness :
  ∃ s1, save_meeting_transcript "bot1" sample_complete served
        = (Ok (next_meeting_id "bot1" served), s1) ∧
    get_recording_path (next_meeting_id "bot1" served) s1 = (Ok None, s1) ∧
    get_recording_path (next_meeting_id "bot1" served) (download_steps 0 4 s1).2
    = (Ok (Some (recording_file (next_meeting_id "bot1" served))),
       (download_steps 0 4 s1).2).
Proof.
  destruct (recording_path_after_complete "bot1" sample_complete served)
    as (_ & s1 & H1 & H2 & _ & H4).
  - apply not_elem_of_empty.
  - exists s1. split; [exact H1|]. split; [exact H2|].
    apply (H4 (Chunk "ab" (Chunk "cd" Eof))).
    + reflexivity.
    + simpl. eauto.
    + apply not_elem_of_empty.
    + simpl. lia.
Defined.

(** Claim C3 at the sample webhook: nine seconds. *)
Lemma stored_duration_first_to_last_segment_witness :
  ∃ first_segment last_segment,
    head sample_transcript = Some first_segment ∧
    last sample_transcript = Some last_segment ∧
    stored_duration "bot1" sample_complete served = Some (Some 9.0%float).
Proof.
  destruct (stored_duration_first_to_last_segment "bot1" sample_complete served)
    as (f & l & H1 & H2 & H3 & _).
  - discriminate.
  - apply not_elem_of_empty.
  - exists f, l. split; [exact H1|]. split; [exact H2|].
    rewrite H3. simpl in H1, H2. injection H1 as <-. injection H2 as <-.
    reflexivity.
Defined.

(** Claim C3 as stated fails where the first segment has no words: the
    first word across all segments starts at 1.0 and the last ends at 2.0,
    a span of 1.0, and no duration is stored. *)
Lemma stored_duration_unset_after_silent_start :
  transcript silent_start ≠ [] ∧
  span_across_segments (transcript silent_start) = Some 1.0%float ∧
  stored_duration "bot1" silent_start fresh_service = Some None.
Proof. split; [discriminate|]. split; vm_compute; reflexivity. Qed.

Lemma saved_same_second (bot : string) (d1 d2 : MeetingCompletedData)
    (s : state) :
  strftime (clock s (S (S (clock_reads s)))) = strftime (clock s (clock_reads s)) →
  next_meeting_id bot (saved bot d1 s) = next_meeting_id bot s ∧
  dom (_metadata_cache (saved bot d2 (saved bot d1 s)))
  = dom (_metadata_cache (saved bot d1 s)).
Proof.
  intros H.
  assert (Hid : next_meeting_id bot (saved bot d1 s) = next_meeting_id bot s).
  { unfold next_meeting_id, saved. destruct (bool_decide _); simpl; by rewrite H. }
  split; [done|].
  unfold saved at 1. rewrite Hid.
  assert (Hin : is_Some (_metadata_cache (saved bot d1 s) !! next_meeting_id bot s)).
  { unfold saved. destruct (bool_decide _); simpl; rewrite lookup_insert_eq; eauto. }
  destruct (bool_decide _); simpl; by apply dom_insert_lookup_L.
Qed.

Lemma saved_frame (bot : string) (d : MeetingCompletedData) (s : state) :
  unwritable (saved bot d s) = unwritable s ∧
  clock (saved bot d s) = clock s ∧
  clock_reads (saved bot d s) = S (S (clock_reads s)).
Proof. unfold saved. by destruct (bool_decide _). Qed.

(** Two calls of [save_meeting_transcript] for the same bot, the second
    within the second of the first and the transcript file writable: both
    return, with the same meeting id; the second call adds no key to the
    cache, and the record under the id is then the one of the second
    call. *)
Theorem same_second_same_meeting_id (bot : string)
    (d1 d2 : MeetingCompletedData) (s : state) :
  strftime (clock s (S (S (clock_reads s)))) = strftime (clock s (clock_reads s)) →
  transcript_file (next_meeting_id bot s) ∉ unwritable s →
  ∃ mid s1 s2,
    save_meeting_transcript bot d1 s = (Ok mid, s1) ∧
    save_meeting_transcript bot d2 s1 = (Ok mid, s2) ∧
    dom (_metadata_cache s2) = dom (_metadata_cache s1) ∧
    metadata_of mid s2
    = Some (mkTranscriptMetadata bot mid (clock s (S (S (S (clock_reads s)))))
              (compute_duration (transcript d2)) (length (speakers d2)) None
              (transcript_file mid)).
Proof.
  intros Hsec Hw.
  destruct (saved_same_second bot d1 d2 s Hsec) as [Hid Hdom].
  destruct (saved_frame bot d1 s) as (Hu & Hc & Hr).
  exists (next_meeting_id bot s), (saved bot d1 s),
    (saved bot d2 (saved bot d1 s)).
  split.
  { rewrite save_meeting_transcript_run. by rewrite bool_decide_eq_false_2. }
  split.
  { rewrite save_meeting_transcript_run, Hid, Hu.
    by rewrite bool_decide_eq_false_2. }
  split; [exact Hdom|].
  rewrite <- Hid at 1. rewrite saved_metadata. by rewrite Hid, Hc, Hr.
Qed.

(** The sample webhook, saved twice while the clock stands still. *)
Lemma same_second_same_meeting_id_witness :
  ∃ mid s1 s2,
    save_meeting_transcript "bot1" sample_complete served = (Ok mid, s1) ∧
    save_meeting_transcript "bot1" sample_complete s1 = (Ok mid, s2) ∧
    dom (_metadata_cache s2) = dom (_metadata_cache s1) ∧
    metadata_of mid s2
    = Some (mkTranscriptMetadata "bot1" mid
              (clock served (S (S (S (clock_reads served)))))
              (compute_duration (transcript sample_complete))
              (length (speakers sample_complete)) None (transcript_file mid)).
Proof.
  apply (same_second_same_meeting_id "bot1" sample_complete sample_complete served).
  - reflexivity.
  - apply not_elem_of_empty.
Defined.

(** Claim C4 fails on the code: the [complete] webhook of
    [scripts/test_webhook.py], received twice within one second, gets the
    same meeting id both times, and the index holds one record, not two. *)
Theorem complete_twice_within_a_second :
  let first := save_meeting_transcript "bot1" sample_complete served in
  let second := save_meeting_transcript "bot1" sample_complete first.2 in
  first.1 = Ok "bot1_20240105_120007" ∧
  second.1 = Ok "bot1_20240105_120007" ∧
  size (_metadata_cache second.2) = 1 ∧
  length (list_transcripts second.2) = 1.
Proof. vm_compute. done. Qed.

End TranscriptFacts.

(** * Facts about dictionaries *)

Section DictFacts.
Context {A : Type}.

Lemma dict_lookup_set (k : string) (v : A) (d : list (string * A)) :
  Dict.lookup k (Dict.set k v d) = Some v.
Proof.
  induction d as [|[k' v'] d IH]; simpl.
  - by rewrite String.eqb_refl.
  - destruct (String.eqb k' k) eqn:E; simpl; rewrite ?E; [done|exact IH].
Qed.
End DictFacts.

(** * Facts about the routes *)

Section RoutesFacts.
Import Routes.

(** Claim C9.  A request whose [meeting_url] is empty is answered with
    status 400 and the whole state of the service is as before: no entry
    is added to [MEETING_DETAILS], no call goes to the provider or to any
    other collaborator, and no process is touched. *)
Theorem join_meeting_rejects_empty_url
    (E : env) (request : BotRequest) (api_key : string) (w : world) :
  meeting_url request = "" →
  join_meeting E request api_key w =
  (Ok (mkResponse 400
         [("message", "Meeting URL is required"); ("status", "error")]), w).
Proof. intros H. unfold join_meeting. rewrite H. reflexivity. Qed.

(** Claim C7, amended.  An event whose kind is none of [complete],
    [failed] and [bot.status_change] is accepted: the handler raises
    nothing and answers with code 200.  The body of the answer has status
    ["error"], as for a failed meeting; the warning is what the handler
    logs.  Nothing is stored: but for the two log lines the state is as
    before. *)
Theorem unknown_event_answered_with_error_status
    (ev : MeetingWebhookEvent) (w : world) :
  unknown_kind ev →
  meetingbaas_webhook ev w =
  (Ok (mkResponse 200
         [("status", "error");
          ("message", "Unknown webhook event: " +:+ event_kind ev)]),
   set_logs (logs w ++
             [(INFO, "Received MeetingBaas webhook event: " +:+ event_kind ev);
              (WARNING, "Unknown webhook event: " +:+ event_kind ev)]) w).
Proof.
  intros (H1 & H2 & H3).
  apply String.eqb_neq in H1, H2, H3.
  unfold meetingbaas_webhook, try_except, bind, log, modify, ret.
  rewrite H1, H2, H3. simpl.
  unfold set_logs. simpl. rewrite <- app_assoc. reflexivity.
Qed.

Lemma leave_remote_spec (E : env) (b key : string) (w : world) :
  Str.nonempty b = true →
  ∃ ok w', leave_remote E b key w = (Ok ok, w') ∧
    trace w' = trace w ++ [EvLeaveMeetingBot b key] ∧
    same_session_tables w w' ∧
    pipecat_connections w' = pipecat_connections w ∧
    active_connections w' = active_connections w.
Proof.
  intros Hb. unfold leave_remote, bind, log, emit, modify, ret. rewrite Hb.
  simpl. destruct (leave_meeting_bot E b key); simpl;
    eexists _, _; (split; [reflexivity|]); by repeat split.
Qed.

Lemma close_sockets_spec (cid : string) (success : bool) (w : world)
    (sp sc : socket) :
  pipecat_connections w !! cid = Some sp →
  active_connections w !! cid = Some sc →
  ∃ ok w', close_sockets cid success w = (Ok ok, w') ∧
    trace w' = trace w ++ [EvMarkClosing cid; EvDisconnect cid true;
                            EvDisconnect cid false; EvSleep 0.5] ∧
    same_session_tables (elapse 0.5 w) w'.
Proof.
  intros Hp Hc.
  unfold close_sockets, mark_closing, disconnect, sleep, try_except, bind,
    log, emit, modify, get, ret, raise, elapse, set_pipecat_connections,
    set_active_connections, set_closing_clients, set_trace, set_logs,
    set_processes. simpl.
  rewrite Hp. rewrite bool_decide_eq_true_2 by eauto. simpl. rewrite Hp.
  destruct (close_raises sp); simpl; rewrite Hc;
    (rewrite bool_decide_eq_true_2 by eauto); simpl; rewrite Hc;
    destruct (close_raises sc); simpl;
    eexists _, _; (split; [reflexivity|]); simpl;
    rewrite <- !app_assoc; by repeat split.
Qed.

Lemma on_process_poll (p : pid) (ps : Process.state) (w : world) :
  processes w !! p = Some ps →
  on_process p Process.poll w =
  (Ok (Process.returncode (Process.reap (Process.proc ps))),
   set_processes (<[p := Process.mkState (Process.reap (Process.proc ps))
                          (Process.log ps ++ [Process.EvPoll])]> (processes w)) w).
Proof. intros H. unfold on_process. rewrite H. reflexivity. Qed.

Lemma stop_process_spec (E : env) (cid : string) (success : bool) (w : world) :
  (∀ p, PIPECAT_PROCESSES w !! cid = Some p → is_Some (processes w !! p)) →
  ∃ ok w', stop_process E cid success w = (Ok ok, w') ∧
    trace w' = trace w ++ stop_steps E cid w.
Proof.
  intros Hwf. unfold stop_process, stop_steps, bind at 1, get.
  destruct (PIPECAT_PROCESSES w !! cid) as [p|] eqn:Hp; simpl.
  2:{ unfold bind, log, modify, ret. simpl. eexists _, _.
      split; [reflexivity|]. simpl. by rewrite app_nil_r. }
  destruct (Hwf p eq_refl) as [ps Hps]. rewrite Hps.
  unfold bind at 1. rewrite (on_process_poll p ps w Hps).
  set (w1 := set_processes _ w).
  assert (Hm : MEETING_DETAILS w1 = MEETING_DETAILS w) by reflexivity.
  assert (Ht : trace w1 = trace w) by reflexivity.
  clearbody w1.
  assert (Htail : ∀ (ok : bool) (w2 : world), MEETING_DETAILS w2 = MEETING_DETAILS w →
    ∃ ok' w',
      ((emit (EvPopProcess cid) ;;;
        modify (fun w => set_PIPECAT_PROCESSES (delete cid (PIPECAT_PROCESSES w)) w) ;;;
        let! w := get in
        (if Dict.mem cid (MEETING_DETAILS w) then
           emit (EvPopDetails cid) ;;;
           modify (fun w => set_MEETING_DETAILS (Dict.pop cid (MEETING_DETAILS w)) w)
         else ret tt) ;;;
        (if LOCAL_DEV_MODE E then
           emit (EvReleaseNgrokUrl cid) ;;; emit EvLogNgrokStatus
         else ret tt) ;;;
        (ret ok : M world bool))%py w2) = (Ok ok', w') ∧
      trace w' = trace w2 ++ [EvPopProcess cid] ++
        (if Dict.mem cid (MEETING_DETAILS w) then [EvPopDetails cid] else []) ++
        (if LOCAL_DEV_MODE E then [EvReleaseNgrokUrl cid; EvLogNgrokStatus] else [])).
  { intros ok w2 Hm2. unfold bind, emit, modify, get, ret. simpl.
    rewrite Hm2.
    destruct (Dict.mem cid (MEETING_DETAILS w)); simpl;
      destruct (LOCAL_DEV_MODE E); simpl;
      eexists _, _; (split; [reflexivity|]); simpl;
      by rewrite <- ?app_assoc. }
  destruct (Process.returncode (Process.reap (Process.proc ps))) as [c|]; simpl.
  - unfold bind at 1, ret at 1.
    destruct (Htail success w1 Hm) as (ok' & w' & Hrun & Htr).
    exists ok', w'. split; [exact Hrun|]. by rewrite Htr, Ht.
  - unfold bind at 1.
    assert (Hterm : ∃ ok1 w2,
      try_except
        (emit (EvTerminateProcess cid 3.0) ;;;
         let! graceful := on_process p (Process.terminate_process_gracefully 3.0) in
         (if graceful : bool
          then log INFO ("Gracefully terminated Pipecat process for client " +:+ cid)
          else log WARNING ("Had to forcefully kill Pipecat process for client " +:+ cid)) ;;;
         ret success)%py
        (fun _ => log ERROR "Error terminating Pipecat process" ;;; ret false)%py w1
      = (Ok ok1, w2) ∧ trace w2 = trace w1 ++ [EvTerminateProcess cid 3.0] ∧
        MEETING_DETAILS w2 = MEETING_DETAILS w1).
    { unfold try_except, bind, emit, modify, on_process, log, ret. simpl.
      destruct (processes w1 !! p) as [ps1|]; simpl.
      - destruct (terminate_process_gracefully_total 3.0 ps1) as (g & ps2 & Hg).
        rewrite Hg. destruct g; simpl; eexists _, _; by repeat split.
      - eexists _, _; by repeat split. }
    destruct Hterm as (ok1 & w2 & Hrun1 & Htr1 & Hm1).
    rewrite Hrun1.
    destruct (Htail ok1 w2) as (ok' & w' & Hrun & Htr); [congruence|].
    exists ok', w'. split; [exact Hrun|].
    rewrite Htr, Htr1, Ht. by rewrite <- !app_assoc.
Qed.

Lemma find_client_id_mem (b cid : string) (details : list (string * Details)) :
  find_client_id b details = Some cid → Dict.mem cid details = true.
Proof.
  unfold Dict.mem. induction details as [|[k d] details IH]; simpl; [done|].
  destruct (bool_decide _).
  - intros [= ->]. by rewrite String.eqb_refl.
  - intros H. destruct (String.eqb k cid); [done|]. auto.
Qed.

Lemma stop_steps_final (E : env) (cid : string) (w : world) :
  Dict.mem cid (MEETING_DETAILS w) = true →
  stop_steps E cid w = final_steps E cid w.
Proof. intros H. unfold stop_steps, final_steps. by rewrite H. Qed.

Lemma stop_steps_same (E : env) (cid : string) (w w' : world) :
  same_session_tables w w' → stop_steps E cid w' = stop_steps E cid w.
Proof. intros (H1 & H2 & H3). unfold stop_steps. by rewrite H1, H2, H3. Qed.

(** Claim C1, amended.  When the remote bot id resolves to a session with
    both sockets registered, the steps of the leave flow are, in this
    order: the call to the provider, mark closing, disconnect the
    subprocess socket, disconnect the client socket straight after it, the
    pause of half a second, then, if a process is registered for the
    session, its termination (when it still runs) and the removal of the
    process and session entries.  The one pause follows both
    disconnections, and whether the process still runs is looked at after
    the pause: a child that has exited meanwhile is not terminated. *)
Theorem leave_bot_step_order
    (E : env) (bot : string) (request : LeaveBotRequest) (key : string)
    (w : world) (cid : string) (sp sc : socket) :
  Str.nonempty bot = true →
  find_client_id bot (MEETING_DETAILS w) = Some cid →
  Str.nonempty cid = true →
  pipecat_connections w !! cid = Some sp →
  active_connections w !! cid = Some sc →
  (∀ p, PIPECAT_PROCESSES w !! cid = Some p → is_Some (processes w !! p)) →
  ∃ r w',
    leave_bot E bot request key w = (Ok r, w') ∧
    trace w' =
      trace w ++
      [EvLeaveMeetingBot bot key; EvMarkClosing cid; EvDisconnect cid true;
       EvDisconnect cid false; EvSleep 0.5] ++
      final_steps E cid (elapse 0.5 w).
Proof.
  intros Hbot Hfind Hcid Hsp Hsc Hwf.
  unfold leave_bot. rewrite Hbot. simpl.
  unfold bind at 1, log at 1, modify at 1.
  unfold bind at 1, get at 1. simpl. rewrite Hfind. simpl. rewrite Hcid.
  unfold bind at 1, log at 1, modify at 1.
  unfold bind at 1, ret at 1.
  set (w0 := set_logs _ _).
  assert (T0 : trace w0 = trace w) by reflexivity.
  assert (S0 : same_session_tables w w0) by done.
  assert (P0 : pipecat_connections w0 !! cid = Some sp) by exact Hsp.
  assert (A0 : active_connections w0 !! cid = Some sc) by exact Hsc.
  clearbody w0.
  destruct (leave_remote_spec E bot key w0 Hbot)
    as (ok1 & w1 & R1 & T1 & S1 & P1 & A1).
  unfold bind at 1. rewrite R1.
  rewrite <- P1 in P0. rewrite <- A1 in A0.
  destruct (close_sockets_spec cid ok1 w1 sp sc P0 A0)
    as (ok2 & w2 & R2 & T2 & S2).
  unfold bind at 1. rewrite R2.
  assert (S : same_session_tables (elapse 0.5 w) w2).
  { destruct S0 as (M0 & Q0 & X0), S1 as (M1 & Q1 & X1), S2 as (M2 & Q2 & X2).
    unfold same_session_tables. rewrite M2, Q2, X2. unfold elapse. simpl.
    by rewrite M1, M0, Q1, Q0, X1, X0. }
  assert (Hwf2 : ∀ p, PIPECAT_PROCESSES w2 !! cid = Some p →
                      is_Some (processes w2 !! p)).
  { destruct S as (_ & -> & ->). simpl. intros p Hp.
    rewrite lookup_fmap. destruct (Hwf p Hp) as [ps ->]. by eexists. }
  destruct (stop_process_spec E cid ok2 w2 Hwf2) as (ok3 & w3 & R3 & T3).
  unfold bind at 1. rewrite R3. unfold ret.
  eexists _, w3. split; [reflexivity|].
  rewrite T3, T2, T1, T0, (stop_steps_same E cid (elapse 0.5 w) w2 S).
  rewrite stop_steps_final by (by eapply find_client_id_mem).
  by rewrite <- !app_assoc.
Qed.

(** Claim C1 at a session whose child exits during the pause: the child
    is found gone and is not terminated. *)
Lemma leave_bot_step_order_witness :
  (∃ r w',
     leave_bot quiet_env "remote-1" (mkLeaveBotRequest None) "key" winding_down
     = (Ok r, w') ∧
     trace w' =
       trace winding_down ++
       [EvLeaveMeetingBot "remote-1" "key"; EvMarkClosing "cid-1";
        EvDisconnect "cid-1" true; EvDisconnect "cid-1" false; EvSleep 0.5] ++
       final_steps quiet_env "cid-1" (elapse 0.5 winding_down)) ∧
  final_steps quiet_env "cid-1" (elapse 0.5 winding_down)
  = [EvPopProcess "cid-1"; EvPopDetails "cid-1"].
Proof.
  split; [|vm_compute; reflexivity].
  apply (leave_bot_step_order quiet_env "remote-1" (mkLeaveBotRequest None)
           "key" winding_down "cid-1" (mkSocket false) (mkSocket false)).
  - reflexivity.
  - reflexivity.
  - reflexivity.
  - reflexivity.
  - reflexivity.
  - intros p H. vm_compute in H. injection H as <-. vm_compute. eauto.
Defined.

(** Claim C1 as stated fails: with both sockets registered, the client
    socket is disconnected straight after the subprocess socket and the
    pause comes after both; no pause lies between the two. *)
Lemma leave_bot_pauses_after_both_disconnections :
  pipecat_connections busy !! "cid-1" = Some (mkSocket false) ∧
  active_connections busy !! "cid-1" = Some (mkSocket false) ∧
  trace (leave_bot quiet_env "remote-1" (mkLeaveBotRequest None) "key" busy).2
  = [EvLeaveMeetingBot "remote-1" "key"; EvMarkClosing "cid-1";
     EvDisconnect "cid-1" true; EvDisconnect "cid-1" false; EvSleep 0.5;
     EvTerminateProcess "cid-1" 3.0; EvPopProcess "cid-1";
     EvPopDetails "cid-1"] ∧
  pause_between_disconnections "cid-1"
    (trace (leave_bot quiet_env "remote-1" (mkLeaveBotRequest None) "key" busy).2)
  = false.
Proof. repeat split; vm_compute; reflexivity. Qed.

(** Claim C2 fails on the code: a bot is created and, before its process
    has been started, removed again.  The leave flow answers ["success"],
    and the session is still in [MEETING_DETAILS]: the remote bot id
    resolves as before. *)
Theorem leave_bot_keeps_session_without_process :
  let joined := join_meeting quiet_env join_request "key" started in
  let left := leave_bot quiet_env "remote-1" (mkLeaveBotRequest None) "key" joined.2 in
  joined.1 = Ok (mkResponse 201 [("bot_id", "remote-1")]) ∧
  PIPECAT_PROCESSES joined.2 !! "uuid-0" = None ∧
  find_client_id "remote-1" (MEETING_DETAILS joined.2) = Some "uuid-0" ∧
  left.1 = Ok (mkResponse 200
                 [("message", "Bot removal request processed");
                  ("status", "success"); ("bot_id", "remote-1")]) ∧
  MEETING_DETAILS left.2 = MEETING_DETAILS joined.2 ∧
  find_client_id "remote-1" (MEETING_DETAILS left.2) = Some "uuid-0".
Proof. repeat split; vm_compute; reflexivity. Qed.

(** Claim C7 at an event of a kind the handler does not know. *)
Lemma unknown_event_answered_with_error_status_witness :
  meetingbaas_webhook unknown_event started =
  (Ok (mkResponse 200
         [("status", "error");
          ("message", "Unknown webhook event: " +:+ event_kind unknown_event)]),
   set_logs (logs started ++
             [(INFO, "Received MeetingBaas webhook event: " +:+ event_kind unknown_event);
              (WARNING, "Unknown webhook event: " +:+ event_kind unknown_event)])
     started).
Proof.
  apply (unknown_event_answered_with_error_status unknown_event started).
  repeat split; discriminate.
Defined.

(** Claim C7 as stated fails: the answer to an event of unknown kind is
    classified as an error, not as a warning. *)
Lemma unknown_event_status_is_error :
  unknown_kind unknown_event ∧
  ∃ r w', meetingbaas_webhook unknown_event started = (Ok r, w') ∧
          field "status" r = Some "error".
Proof.
  split; [repeat split; discriminate|].
  eexists _, _. split; [vm_compute; reflexivity|reflexivity].
Qed.

(** Claim C9 at a request without a URL. *)
Lemma join_meeting_rejects_empty_url_witness :
  join_meeting quiet_env no_url_request "key" started =
  (Ok (mkResponse 400
         [("message", "Meeting URL is required"); ("status", "error")]),
   started).
Proof.
  apply (join_meeting_rejects_empty_url quiet_env no_url_request "key" started).
  reflexivity.
Defined.

(** One step of a run: the first computation of a sequence returned. *)
Local Ltac run_step H :=
  lazymatch type of H with
  | bind ?m ?k ?w = _ =>
      let E := fresh "E" in
      unfold bind at 1 in H;
      destruct (m w) as [[?|?] ?] eqn:E; [|discriminate H];
      cbv beta zeta in H;
      first [ unfold emit, modify in E; injection E as <- <-
            | unfold modify in E; injection E as <- <-
            | unfold get in E; injection E as <- <-
            | unfold in_persona_manager, lift in E;
              match type of E with
              | (let '(_, _) := ?c in _) = _ =>
                  let Ec := fresh "Ec" in
                  destruct c as [? ?] eqn:Ec; injection E as -> <-
              end
            | idtac ]
  end.

Lemma choose_persona_frame (E : env) (request : BotRequest) (w w' : world)
    (r : result string) :
  choose_persona E request w = (r, w') → w' = w.
Proof.
  unfold choose_persona, bind, get, ret. intros H.
  repeat case_match; by simplify_eq.
Qed.

(** A join request with a meeting URL that is answered at all leaves the
    new session in [MEETING_DETAILS] under its fresh client id.  With code
    201 the entry holds the remote bot id that the answer reports; with
    code 500 (the provider created no bot) the entry stays, without a
    remote bot id. *)
Theorem join_meeting_registers_session
    (E : env) (request : BotRequest) (key : string) (w w' : world) (r : response) :
  Str.nonempty (meeting_url request) = true →
  join_meeting E request key w = (Ok r, w') →
  ∃ d, Dict.lookup (uuid4 E (uuid_count w)) (MEETING_DETAILS w') = Some d ∧
       d_meeting_url d = meeting_url request ∧
       ((status_code r = 201%Z ∧
         str_truthy (d_meetingbaas_bot_id d) = true ∧
         field "bot_id" r = d_meetingbaas_bot_id d) ∨
        (status_code r = 500%Z ∧ d_meetingbaas_bot_id d = None)).
Proof.
  intros Hurl Hrun. unfold join_meeting in Hrun. rewrite Hurl in Hrun.
  simpl in Hrun.
  destruct (determine_websocket_url E) as [ws tmp].
  set (cid := uuid4 E (uuid_count w)) in *.
  run_step Hrun. run_step Hrun. run_step Hrun. run_step Hrun.
  run_step Hrun.
  assert (Hw0 : MEETING_DETAILS w0 = MEETING_DETAILS w).
  { destruct (LOCAL_DEV_MODE E && str_truthy tmp);
      unfold bind, emit, modify, ret in E0; by injection E0 as _ <-. }
  clear E0.
  run_step Hrun. apply choose_persona_frame in E0 as ->.
  run_step Hrun. run_step Hrun. run_step Hrun. run_step Hrun. run_step Hrun.
  run_step Hrun.
  clear Ec Ec0 Ec1.
  match type of Hrun with
  | context [create_meeting_bot E ?c] =>
      set (bid := create_meeting_bot E c) in Hrun; clearbody bid
  end.
  destruct (str_truthy bid) eqn:Hbid.
  - unfold bind, modify, ret in Hrun. injection Hrun as <- <-.
    eexists. split; [simpl; apply dict_lookup_set|]. simpl.
    split; [done|]. left. repeat split; [done|].
    destruct bid; [done|discriminate].
  - unfold ret in Hrun. injection Hrun as <- <-.
    eexists. split; [simpl; apply dict_lookup_set|]. simpl.
    split; [done|]. by right.
Qed.

(** The service just started, asked to join a meeting. *)
Lemma join_meeting_registers_session_witness :
  ∃ d, Dict.lookup (uuid4 quiet_env (uuid_count started))
         (MEETING_DETAILS (join_meeting quiet_env join_request "key" started).2)
       = Some d ∧
       d_meeting_url d = meeting_url join_request ∧
       ((status_code (mkResponse 201 [("bot_id", "remote-1")]) = 201%Z ∧
         str_truthy (d_meetingbaas_bot_id d) = true ∧
         field "bot_id" (mkResponse 201 [("bot_id", "remote-1")])
         = d_meetingbaas_bot_id d) ∨
        (status_code (mkResponse 201 [("bot_id", "remote-1")]) = 500%Z ∧
         d_meetingbaas_bot_id d = None)).
Proof.
  apply (join_meeting_registers_session quiet_env join_request "key" started
           (join_meeting quiet_env join_request "key" started).2
           (mkResponse 201 [("bot_id", "remote-1")])).
  - reflexivity.
  - vm_compute. reflexivity.
Defined.
(** A remote bot id that no session holds: the provider is still asked to
    remove the bot, nothing is raised, and the answer has code 200 with
    status ["success"] when the provider accepted the call and
    ["partial"] when it did not.  No socket, process or table is
    touched. *)
Theorem leave_bot_unknown_bot_id
    (E : env) (bot : string) (request : LeaveBotRequest) (key : string)
    (w : world) :
  Str.nonempty bot = true →
  find_client_id bot (MEETING_DETAILS w) = None →
  ∃ w',
    leave_bot E bot request key w =
    (Ok (mkResponse 200
           [("message", "Bot removal request processed");
            ("status", if leave_meeting_bot E bot key then "success" else "partial");
            ("bot_id", bot)]), w') ∧
    trace w' = trace w ++ [EvLeaveMeetingBot bot key] ∧
    same_session_tables w w' ∧
    pipecat_connections w' = pipecat_connections w ∧
    active_connections w' = active_connections w ∧
    closing_clients w' = closing_clients w.
Proof.
  intros Hbot Hfind.
  unfold leave_bot, leave_remote. rewrite Hbot. simpl.
  unfold bind, log, emit, modify, get, ret. simpl. rewrite Hfind. simpl.
  rewrite Hbot.
  destruct (leave_meeting_bot E bot key); simpl;
    eexists; (split; [reflexivity|]); by repeat split.
Qed.

(** A remote bot id unknown to a service with one session. *)
Lemma leave_bot_unknown_bot_id_witness :
  ∃ w',
    leave_bot quiet_env "remote-9" (mkLeaveBotRequest None) "key" busy =
    (Ok (mkResponse 200
           [("message", "Bot removal request processed");
            ("status", if leave_meeting_bot quiet_env "remote-9" "key"
                       then "success" else "partial");
            ("bot_id", "remote-9")]), w') ∧
    trace w' = trace busy ++ [EvLeaveMeetingBot "remote-9" "key"] ∧
    same_session_tables busy w' ∧
    pipecat_connections w' = pipecat_connections busy ∧
    active_connections w' = active_connections busy ∧
    closing_clients w' = closing_clients busy.
Proof.
  apply (leave_bot_unknown_bot_id quiet_env "remote-9" (mkLeaveBotRequest None)
           "key" busy).
  - reflexivity.
  - reflexivity.
Defined.
End RoutesFacts.

(** * More facts about the child process *)

Section ProcessEdgeFacts.
Import Process.

(** A timeout whose [int(timeout * 10)] raises (NaN, or an infinity): the
    exception is caught.  For a running child the function sends SIGTERM,
    then SIGKILL straight away, with no poll in between and no wait after,
    and answers [False]; the child is gone unless SIGKILL fails. *)
Theorem terminate_timeout_without_rounds
    (p : Popen) (tr : list event) (timeout : float) (e : exn) :
  running p ->
  terminate_raises p = false ->
  iterations timeout = Raise e ->
  exists st',
    terminate_process_gracefully timeout (mkState p tr) = (Ok false, st') /\
    log st' = tr ++ [EvPoll; EvTerminate; EvKill] /\
    (kill_raises p = false -> ignores_sigkill p = false -> exited (proc st')).
Proof.
  intros Hrun Ht Hit.
  pose proof (running_returncode p Hrun) as Hrc.
  unfold terminate_process_gracefully, bind at 1.
  rewrite (poll_running p tr Hrun).
  unfold try_except at 1, bind at 1.
  unfold terminate, bind, emit, modify, get, set_proc; simpl.
  rewrite Ht, Hrc; simpl. rewrite Hit; simpl.
  unfold raise, try_except, kill, bind, emit, modify, get, set_proc, ret; simpl.
  rewrite Hrc.
  destruct (kill_raises p) eqn:Hk; simpl.
  - eexists. split; [reflexivity|]. simpl. rewrite <- !app_assoc.
    split; [reflexivity|discriminate].
  - destruct (ignores_sigkill p) eqn:Hi; simpl;
      (eexists; split; [reflexivity|]); simpl; rewrite <- !app_assoc;
      (split; [reflexivity|]); intros; try discriminate.
    unfold exited, reap. simpl. rewrite Hrc. simpl. discriminate.
Qed.

(** A child that ignores SIGTERM, with a timeout that is not a number. *)
Lemma terminate_timeout_without_rounds_witness :
  exists st',
    terminate_process_gracefully nan (mkState stubborn []) = (Ok false, st') /\
    log st' = [] ++ [EvPoll; EvTerminate; EvKill] /\
    exited (proc st').
Proof.
  destruct (terminate_timeout_without_rounds stubborn [] nan ValueError)
    as (st' & H1 & H2 & H3).
  - reflexivity.
  - reflexivity.
  - reflexivity.
  - exists st'. repeat split; auto.
Defined.

End ProcessEdgeFacts.

Section ProcessEndFacts.
Import Process.

Lemma reap_flags (p : Popen) :
  kill_raises (reap p) = kill_raises p ∧
  ignores_sigkill (reap p) = ignores_sigkill p ∧
  terminate_raises (reap p) = terminate_raises p.
Proof.
  unfold reap. destruct (returncode p); [done|].
  by destruct (pending p) as [[|d]|].
Qed.

Lemma advance_flags (k : nat) (p : Popen) :
  kill_raises (advance k p) = kill_raises p ∧
  ignores_sigkill (advance k p) = ignores_sigkill p ∧
  returncode (advance k p) = returncode p.
Proof. unfold advance. by destruct (pending p). Qed.

Lemma exited_reap (p : Popen) : exited (reap p) ↔ exited p.
Proof. unfold exited. by rewrite reap_idem. Qed.

Lemma poll_cases (p : Popen) (tr : list event) :
  (running p ∧ poll (mkState p tr) = (Ok None, mkState p (tr ++ [EvPoll]))) ∨
  (exited p ∧ ∃ c, poll (mkState p tr)
                   = (Ok (Some c), mkState (reap p) (tr ++ [EvPoll]))).
Proof.
  destruct (returncode (reap p)) as [c|] eqn:E.
  - right. assert (H : exited p) by (unfold exited; congruence).
    split; [done|]. by apply poll_exited.
  - left. split; [done|]. by apply poll_running.
Qed.

(** What the polling loop adds to the log is polls and sleeps, and it
    ends either at a child that has exited, with [True], or at one that
    still runs. *)
Lemma poll_loop_ends (n : nat) : ∀ (p : Popen) (tr : list event),
  ∃ r p' added,
    poll_loop n (mkState p tr) = (Ok r, mkState p' (tr ++ added)) ∧
    Forall (fun e => e = EvPoll ∨ e = EvSleep 0.1) added ∧
    kill_raises p' = kill_raises p ∧
    ignores_sigkill p' = ignores_sigkill p ∧
    match r with
    | Some b => b = true ∧ exited p'
    | None => returncode p' = returncode p
    end.
Proof.
  induction n as [|n IH]; intros p tr.
  - exists None, p, []. simpl. rewrite app_nil_r. unfold ret.
    repeat split; auto.
  - cbn [poll_loop]. unfold bind at 1.
    destruct (poll_cases p tr) as [[Hrun ->] | [Hex (c & ->)]].
    + unfold bind at 1. unfold sleep, bind, emit, modify, get, set_proc; simpl.
      destruct (IH (advance (ticks 0.1) p) ((tr ++ [EvPoll]) ++ [EvSleep 0.1]))
        as (r & p' & added & Hrun' & Hadd & Hk & Hi & Hr).
      rewrite Hrun'. exists r, p', ([EvPoll; EvSleep 0.1] ++ added).
      destruct (advance_flags (ticks 0.1) p) as (A1 & A2 & A3).
      split; [by rewrite <- !app_assoc|].
      split; [simpl; constructor; [by left|]; constructor; [by right|done]|].
      split; [congruence|]. split; [congruence|].
      destruct r as [b|]; [done|]. congruence.
    + unfold ret. exists (Some true), (reap p), [EvPoll].
      destruct (reap_flags p) as (R1 & R2 & _).
      repeat split; auto. by apply exited_reap.
Qed.


Lemma last_kill (q : Popen) (tr : list event) :
  returncode q = None →
  ∃ q', (try_except kill (fun _ => ret tt) ;;; ret false)%py (mkState q tr)
        = (Ok false, mkState q' (tr ++ [EvKill])) ∧
        (kill_raises q = false → ignores_sigkill q = false → exited q').
Proof.
  intros Hq.
  unfold try_except, kill, bind, emit, modify, get, set_proc, ret, raise.
  simpl. rewrite Hq.
  destruct (kill_raises q); simpl; [eexists; split; [done|done]|].
  destruct (ignores_sigkill q); simpl; eexists; (split; [done|]); [done|].
  intros _ _. unfold exited, reap. simpl. by rewrite Hq.
Qed.

Lemma kill_and_wait (q : Popen) (tr : list event) :
  returncode q = None →
  ∃ r q' added,
    (kill ;;; wait 1.0 ;;; ret false)%py (mkState q tr)
    = (r, mkState q' (tr ++ EvKill :: added)) ∧
    kill_raises q' = kill_raises q ∧ ignores_sigkill q' = ignores_sigkill q ∧
    match r with
    | Ok b => b = false ∧
              (kill_raises q = false → ignores_sigkill q = false → exited q')
    | Raise _ => returncode q' = None ∧
                 (kill_raises q = true ∨ ignores_sigkill q = true)
    end.
Proof.
  intros Hq.
  unfold kill, wait, bind, emit, set_proc, modify, get, ret, raise.
  simpl. rewrite Hq, ticks_one.
  destruct (kill_raises q) eqn:K; simpl.
  { exists (Raise OSError), q, []. repeat split; auto. }
  destruct (ignores_sigkill q) eqn:I; simpl.
  - destruct (reap_flags (advance 10 q)) as (R1 & R2 & _).
    destruct (advance_flags 10 q) as (A1 & A2 & _).
    destruct (returncode (reap (advance 10 q))) eqn:Hw; simpl;
      eexists _, _, [EvWait 1]; (split; [by rewrite <- !app_assoc|]);
      repeat split; auto; congruence.
  - rewrite (reap_killed q 10 Hq). simpl.
    eexists _, _, [EvWait 1]. split; [by rewrite <- !app_assoc|].
    destruct (reap_flags (advance 10 (with_pending q (Some 0))))
      as (R1 & R2 & _).
    destruct (advance_flags 10 (with_pending q (Some 0))) as (A1 & A2 & _).
    split; [by rewrite R1, A1|]. split; [by rewrite R2, A2|].
    split; [done|]. intros _ _. unfold exited.
    by rewrite reap_idem, (reap_killed q 10 Hq).
Qed.

Local Ltac kill_sent :=
  intros _; repeat (rewrite elem_of_app || rewrite elem_of_cons); auto 10.

(** Whatever the child does and whatever the timeout:
    [terminate_process_gracefully] raises nothing, and when it has
    returned the child has exited, provided the operating system carries
    out SIGKILL.  The answer says whether SIGKILL was sent. *)
Lemma terminate_ends (p : Popen) (tr : list event) (timeout : float) :
  ∃ b p' added,
    terminate_process_gracefully timeout (mkState p tr)
    = (Ok b, mkState p' (tr ++ added)) ∧
    (kill_raises p = false → ignores_sigkill p = false → exited p') ∧
    (b = true → (EvKill ∉ added) ∧ exited p') ∧
    (b = false → EvKill ∈ added).
Proof.
  unfold terminate_process_gracefully, bind at 1.
  destruct (poll_cases p tr) as [[Hrun ->] | [Hex (c & ->)]].
  2:{ unfold ret. exists true, (reap p), [EvPoll].
      split; [done|]. apply exited_reap in Hex. split; [done|].
      split; [|done]. intros _. split; [|done].
      by intros ?%list_elem_of_singleton. }
  pose proof (running_returncode p Hrun) as Hrc.
  unfold try_except at 1, bind at 1.
  unfold terminate at 1, bind at 1, emit at 1, modify at 1.
  unfold bind at 1, get at 1. cbn [proc log].
  destruct (terminate_raises p) eqn:Ht.
  - unfold raise at 1.
    destruct (last_kill p ((tr ++ [EvPoll]) ++ [EvTerminate]) Hrc) as (q' & -> & Hq').
    exists false, q', [EvPoll; EvTerminate; EvKill].
    split; [by rewrite <- !app_assoc|]. split; [done|]. split; [done|kill_sent].
  - rewrite Hrc. unfold set_proc at 1, modify at 1. cbn [proc log].
    set (p1 := with_pending p (min_delay (pending p) (sigterm_delay p))).
    assert (F1 : kill_raises p1 = kill_raises p ∧
                 ignores_sigkill p1 = ignores_sigkill p ∧
                 returncode p1 = None) by done.
    destruct F1 as (K1 & I1 & C1).
    unfold bind at 1.
    destruct (iterations timeout) as [n|e]; cbn [lift_result].
    2:{ unfold raise at 1.
        destruct (last_kill p1 ((tr ++ [EvPoll]) ++ [EvTerminate]) C1) as (q' & -> & Hq').
        exists false, q', [EvPoll; EvTerminate; EvKill].
        split; [by rewrite <- !app_assoc|]. split; [|split; [done|kill_sent]].
        rewrite <- K1, <- I1. exact Hq'. }
    unfold ret at 1. unfold bind at 1.
    destruct (poll_loop_ends n p1 ((tr ++ [EvPoll]) ++ [EvTerminate]))
      as (r & p2 & added & -> & Hadd & K2 & I2 & Hr).
    destruct r as [b|].
    + destruct Hr as [-> Hex]. unfold ret.
      exists true, p2, ([EvPoll; EvTerminate] ++ added).
      split; [by rewrite <- !app_assoc|]. split; [done|].
      split; [|done]. intros _. split; [|done].
      intros [?|[?|Hin]%elem_of_cons]%elem_of_cons; try done.
      rewrite Forall_forall in Hadd. by destruct (Hadd _ Hin).
    + assert (C2 : returncode p2 = None) by congruence.
      destruct (kill_and_wait p2 (((tr ++ [EvPoll]) ++ [EvTerminate]) ++ added) C2)
        as (r & q & more & -> & K3 & I3 & Hr3).
      destruct r as [b|e].
      * destruct Hr3 as [-> Hgood]. unfold ret.
        exists false, q, ([EvPoll; EvTerminate] ++ added ++ EvKill :: more).
        split; [by rewrite <- !app_assoc|]. split; [|split; [done|kill_sent]].
        intros Hk Hi. apply Hgood; congruence.
      * destruct Hr3 as [C3 Hflag].
        destruct (last_kill q ((((tr ++ [EvPoll]) ++ [EvTerminate]) ++ added)
                                ++ EvKill :: more) C3) as (q' & -> & Hq').
        exists false, q', ([EvPoll; EvTerminate] ++ added ++ (EvKill :: more) ++ [EvKill]).
        split; [by rewrite <- !app_assoc|]. split; [|split; [done|kill_sent]].
        intros Hk Hi. apply Hq'; congruence.
Qed.

(** [terminate_process_gracefully] never raises: for every child and
    every timeout it returns a boolean.  It returns [True] exactly when it
    never sent SIGKILL, and then the child has exited; when it returns
    [False] the child has exited as well, provided the operating system
    carries out SIGKILL (the call does not raise and the child cannot
    survive it). *)
Theorem terminate_leaves_no_child
    (p : Popen) (tr : list event) (timeout : float) :
  ∃ b p' added,
    terminate_process_gracefully timeout (mkState p tr)
    = (Ok b, mkState p' (tr ++ added)) ∧
    (b = true ↔ EvKill ∉ added) ∧
    (b = true → exited p') ∧
    (kill_raises p = false → ignores_sigkill p = false → exited p').
Proof.
  destruct (terminate_ends p tr timeout)
    as (b & p' & added & H1 & H2 & H3 & H4).
  exists b, p', added. split; [exact H1|]. split; [|split; [|exact H2]].
  - split; [by intros Hb; destruct (H3 Hb)|].
    intros Hno. destruct b; [done|]. by destruct Hno; apply H4.
  - intros Hb. by destruct (H3 Hb).
Qed.

End ProcessEndFacts.

(** * More facts about the persona manager *)

Section PersonaLookupFacts.
Import Persona.

Variable instr : string.

Lemma closest_no_overlap (words : gset string) (keys : list string)
    (cm : option string) :
  (∀ key, key ∈ keys → words ∩ word_set (Str.split_on "_" key) = ∅) →
  closest words keys cm 0 = (cm, 0).
Proof.
  induction keys as [|k keys IH]; intros H; simpl; [done|].
  rewrite (H k) by apply list_elem_of_here.
  rewrite size_empty. simpl. apply IH.
  intros key Hk. apply H. by apply list_elem_of_further.
Qed.

(** A name that is the folder of no persona and shares no word with any
    folder name: [get_persona] raises [KeyError] with the message that
    names the request and lists the folders, and the manager and the heap
    are as before (no copy has been made). *)
Theorem get_persona_unknown_name (rnd : nat) (n : string) (s : state) :
  Str.nonempty n = true →
  Dict.lookup (folder_name_of n) (personas s) = None →
  (∀ key, key ∈ Dict.keys (personas s) →
     word_set (Str.split (Str.lower n)) ∩ word_set (Str.split_on "_" key) = ∅) →
  get_persona instr rnd (Some n) s =
  (Raise (KeyError ("Persona '" +:+ n +:+ "' not found. Valid options: "
                    +:+ Str.join ", " (Dict.keys (personas s)))), s).
Proof.
  intros Hn Hl Hw.
  unfold get_persona, select_persona, bind, get. simpl.
  rewrite Hn, Hl. rewrite (closest_no_overlap _ _ None Hw). reflexivity.
Qed.

Lemma set_path_named (n : string) (a' : addr) (d : gmap string value)
    (s : state) :
  Str.nonempty n = true →
  heap s !! a' = Some (ODict d) →
  ∃ s', set_path (Some n) a' s = (Ok tt, s') ∧
        heap s' !! a' =
          Some (ODict (<["path" := VStr (Str.os_path_join (personas_dir s)
                                           (folder_name_of n))]> d)).
Proof.
  intros Hn H. unfold set_path, dict_setitem, bind, get, set_heap, modify, ret.
  simpl. rewrite Hn. simpl. rewrite H. simpl.
  eexists. split; [reflexivity|]. simpl. by rewrite lookup_insert_eq.
Qed.

(** The [path] of the dict that [get_persona] returns for a name is built
    from the name as it was asked for, lower-cased (accented capitals
    included) and with [_] for each blank, under the personas directory:
    also when the record was found under another folder name, as the
    closest match. *)
Theorem get_persona_path_from_requested_name
    (rnd : nat) (n : string) (s s' : state) (a : addr) :
  Str.nonempty n = true →
  get_persona instr rnd (Some n) s = (Ok a, s') →
  ∃ d, heap s' !! a = Some (ODict d) ∧
       d !! "path" = Some (VStr (Str.os_path_join (personas_dir s)
                                   (folder_name_of n))).
Proof.
  intros Hn. unfold get_persona, bind at 1.
  pose proof (select_persona_spec rnd (Some n) s) as Hsel.
  destruct (select_persona rnd (Some n) s) as [[a'|e] s1]; [|done].
  destruct Hsel as (key & a0 & d & Hin & Ha & Hfresh & Hs1).
  assert (H1 : heap s1 !! a' = Some (ODict d))
    by (subst s1; simpl; by rewrite lookup_insert_eq).
  assert (D1 : personas_dir s1 = personas_dir s) by (by subst s1).
  destruct (default_image_spec a' d s1 H1) as (s2 & E2 & T2 & H2).
  unfold bind at 1. rewrite E2.
  unfold bind at 1.
  destruct (append_instructions instr a' s2) as [[[]|e] s3] eqn:E3; [|done].
  destruct (append_instructions_spec instr a' _ s2 _ _ H2 E3)
    as (T3 & prompt & Hp & H3).
  destruct (set_path_named n a' _ s3 Hn H3) as (s4 & E4 & H4).
  unfold bind at 1. rewrite E4. unfold ret. intros [= <- <-].
  eexists. split; [exact H4|]. rewrite lookup_insert_eq.
  destruct T2 as (_ & D2 & _), T3 as (_ & D3 & _). by rewrite D3, D2, D1.
Qed.

End PersonaLookupFacts.

Section PersonaLookupWitnesses.
Import Persona.

(** Nobody is called Zed. *)
Lemma get_persona_unknown_name_witness :
  get_persona " Speak briefly." 0 (Some "Zed") Routes.one_persona
  = (Raise (KeyError ("Persona '" +:+ "Zed" +:+ "' not found. Valid options: "
                      +:+ Str.join ", " (Dict.keys (personas Routes.one_persona)))),
     Routes.one_persona).
Proof.
  apply (get_persona_unknown_name " Speak briefly." 0 "Zed" Routes.one_persona).
  - reflexivity.
  - reflexivity.
  - intros key Hk. vm_compute in Hk.
    apply list_elem_of_singleton in Hk. subst key.
    apply (bool_decide_unpack _). by vm_compute.
Defined.

(** The request for [Élan Baas] finds the record of the folder
    [baas_onboarder] by the word [baas]; the path names the folder
    [élan_baas], with the small U+00E9. *)
Lemma get_persona_path_from_requested_name_witness :
  (∃ d, heap (get_persona " Speak briefly." 0 (Some Routes.elan_baas)
                Routes.one_persona).2
          !! 1%nat = Some (ODict d) ∧
        d !! "path" = Some (VStr (Str.os_path_join "/app/config/personas"
                                    (folder_name_of Routes.elan_baas)))) ∧
  Str.os_path_join "/app/config/personas" (folder_name_of Routes.elan_baas)
  = "/app/config/personas/" +:+ String (Str.chr 233) "lan_baas".
Proof.
  split; [|reflexivity].
  apply (get_persona_path_from_requested_name " Speak briefly." 0
           Routes.elan_baas Routes.one_persona).
  - reflexivity.
  - vm_compute. reflexivity.
Defined.
End PersonaLookupWitnesses.

(** * Facts about [get_persona_by_name] *)

Section ByNameFacts.
Import Persona PersonaManager.

Lemma first_named_skip (name : string) (before rest : list (string * addr))
    (s : state) :
  Forall (fun r => named_otherwise s name r.2) before →
  first_named name (before ++ rest) s = first_named name rest s.
Proof.
  induction 1 as [|[k b] before (d & v & Hb & Hn & Hv) _ IH]; [done|].
  simpl in Hb. simpl. unfold bind at 1, dict_getitem, bind, get, ret. simpl.
  rewrite Hb, Hn. simpl.
  destruct v as [| | | |n|]; try exact IH.
  destruct (String.eqb n name) eqn:E; [|exact IH].
  apply String.eqb_eq in E. congruence.
Qed.

(** [get_persona_by_name] answers a copy of the first record, in the
    order of the table, whose name is the one asked for: a new dict with
    the entries of the record as they are stored (no instructions are
    added to the prompt, and no path), and the table and the records stay
    as they were. *)
Theorem get_persona_by_name_first_match
    (name : string) (s : state) (before after : list (string * addr))
    (key : string) (a : addr) (d : gmap string value) :
  personas s = before ++ (key, a) :: after →
  Forall (fun r => named_otherwise s name r.2) before →
  heap s !! a = Some (ODict d) →
  d !! "name" = Some (VStr name) →
  get_persona_by_name name s =
  (Ok (fresh (dom (heap s))),
   mkState (<[fresh (dom (heap s)) := ODict d]> (heap s)) (personas s)
     (personas_dir s)).
Proof.
  intros Hps Hb Ha Hn.
  unfold get_persona_by_name, bind at 1, get. rewrite Hps.
  unfold bind at 1.
  rewrite (first_named_skip name before _ s Hb). simpl.
  unfold bind at 1, dict_getitem, dict_copy, set_heap, bind, get, modify, ret.
  simpl. rewrite Ha, Hn. simpl. rewrite String.eqb_refl. simpl.
  by rewrite Ha, <- Hps.
Qed.

End ByNameFacts.

Section ByNameWitnesses.
Import Persona PersonaManager.

Lemma get_persona_by_name_first_match_witness :
  get_persona_by_name "Baas Onboarder" Routes.one_persona =
  (Ok (fresh (dom (heap Routes.one_persona))),
   mkState (<[fresh (dom (heap Routes.one_persona)) :=
              ODict (<["name" := VStr "Baas Onboarder"]>
                       (<["prompt" := VStr "You welcome new users."]> ∅))]>
              (heap Routes.one_persona)) (personas Routes.one_persona)
     (personas_dir Routes.one_persona)).
Proof.
  apply (get_persona_by_name_first_match "Baas Onboarder" Routes.one_persona
           [] [] "baas_onboarder" 0%nat).
  - reflexivity.
  - constructor.
  - reflexivity.
  - reflexivity.
Defined.
End ByNameWitnesses.

(** * Facts about the names of the files *)

Section FileNameFacts.
Import Path Transcript TranscriptService.

Lemma append_assoc (a b c : string) : (a +:+ b) +:+ c = a +:+ (b +:+ c).
Proof.
  induction a as [|x a IH]; [done|].
  change (String x ((a +:+ b) +:+ c) = String x (a +:+ (b +:+ c))).
  by f_equal.
Qed.

Lemma append_nil (s : string) : "" +:+ s = s.
Proof. reflexivity. Qed.

Lemma append_cons (c : ascii) (s t : string) :
  String c s +:+ t = String c (s +:+ t).
Proof. reflexivity. Qed.

Lemma endswith_app (t sfx : string) : endswith sfx (t +:+ sfx) = true.
Proof.
  induction t as [|c t IH].
  - rewrite append_nil. destruct sfx; cbn [endswith]; by rewrite String.eqb_refl.
  - rewrite append_cons. cbn [endswith]. rewrite IH. by rewrite orb_true_r.
Qed.

Lemma split_by_suffix (sfx t : string) :
  clean sfx = true →
  ∃ init l, Str.split_by is_slash t = init ++ [l] ∧
            Str.split_by is_slash (t +:+ sfx) = init ++ [l +:+ sfx].
Proof.
  intros Hc. induction t as [|c t (init & l & H1 & H2)].
  - exists [], "". split; [done|]. rewrite !append_nil. by apply split_by_one.
  - rewrite append_cons. simpl. destruct (is_slash c).
    + exists ("" :: init), l. rewrite H1, H2. done.
    + rewrite H1, H2. destruct init as [|w ws]; simpl.
      * exists [], (String c l). done.
      * exists (String c w :: ws), l. done.
Qed.

Lemma join_snoc (ps : list string) (p : string) :
  ∃ t, Str.join "/" (ps ++ [p]) = t +:+ p.
Proof.
  induction ps as [|q ps (t & IH)]; simpl.
  - by exists "".
  - rewrite IH. destruct (ps ++ [p]) eqn:E.
    + by destruct ps.
    + exists (q +:+ "/" +:+ t). by rewrite !append_assoc.
Qed.

(** A path whose last component ends with [sfx] prints with [sfx] at its
    end. *)
Lemma str_suffix (sfx t : string) :
  clean sfx = true →
  (∀ l, keep_part (l +:+ sfx) = true) →
  endswith sfx (str (t +:+ sfx)) = true.
Proof.
  intros Hc Hk. unfold str, parts.
  destruct (split_by_suffix sfx t Hc) as (init & l & _ & ->).
  rewrite List.filter_app. simpl. rewrite Hk.
  destruct (join_snoc (List.filter keep_part init) (l +:+ sfx)) as (u & ->).
  rewrite <- !append_assoc.
  set (x := (root (t +:+ sfx) +:+ u) +:+ l).
  assert (Hne : Str.nonempty (x +:+ sfx) = true).
  { specialize (Hk ""). simpl in Hk. destruct sfx; [done|]. by destruct x. }
  rewrite Hne. apply endswith_app.
Qed.

Lemma div_suffix (sfx a x : string) :
  clean sfx = true →
  (∀ l, keep_part (l +:+ sfx) = true) →
  endswith sfx (div a (x +:+ sfx)) = true.
Proof.
  intros Hc Hk. unfold div. destruct (Str.startswith "/" (x +:+ sfx)).
  - by apply str_suffix.
  - rewrite <- !append_assoc. by apply str_suffix.
Qed.

Lemma keep_two (c1 c2 : ascii) (r l : string) :
  keep_part (l +:+ String c1 (String c2 r)) = true.
Proof.
  unfold keep_part. destruct l as [|x [|y l]]; simpl; try done.
  - destruct (Ascii.eqb c1 "."); done.
  - destruct (Ascii.eqb x "."); done.
  - destruct (Ascii.eqb x "."); done.
Qed.

Lemma transcript_file_suffix (mid : string) :
  endswith "_transcript.json" (transcript_file mid) = true.
Proof. apply div_suffix; [done|]. apply keep_two. Qed.

Lemma recording_file_suffix (mid : string) :
  endswith ".mp4" (recording_file mid) = true.
Proof. apply div_suffix; [done|]. apply keep_two. Qed.

Lemma endswith_last (c : ascii) (sfx s : string) :
  endswith (sfx +:+ String c "") s = true → Str.endswith_char c s = true.
Proof.
  induction s as [|x s IH]; cbn [endswith].
  - rewrite orb_false_r. intros H%String.eqb_eq. by destruct sfx.
  - intros [H%String.eqb_eq | H]%orb_prop.
    + rewrite H. clear. induction sfx as [|y sfx IH].
      * simpl. by rewrite Ascii.eqb_refl.
      * rewrite append_cons. cbn [Str.endswith_char].
        destruct (sfx +:+ String c "") eqn:E; [by destruct sfx|]. exact IH.
    + specialize (IH H). cbn [Str.endswith_char]. destruct s; [done|]. exact IH.
Qed.

Lemma endswith_char_unique (c c' : ascii) (s : string) :
  Str.endswith_char c s = true → Str.endswith_char c' s = true → c = c'.
Proof.
  induction s as [|x s IH]; simpl; [done|].
  destruct s; [|exact IH].
  intros H1%Ascii.eqb_eq H2%Ascii.eqb_eq. congruence.
Qed.

Lemma transcript_file_not_index (mid : string) : transcript_file mid ≠ index_file.
Proof.
  intros H. pose proof (transcript_file_suffix mid) as Hs.
  rewrite H in Hs. by vm_compute in Hs.
Qed.

Lemma recording_file_not_index (mid : string) : recording_file mid ≠ index_file.
Proof.
  intros H. pose proof (recording_file_suffix mid) as Hs.
  rewrite H in Hs. by vm_compute in Hs.
Qed.

Lemma recording_file_not_transcript (mid mid' : string) :
  recording_file mid ≠ transcript_file mid'.
Proof.
  intros H.
  pose proof (endswith_last "4" ".mp" _ (recording_file_suffix mid)) as H1.
  pose proof (endswith_last "n" "_transcript.jso" _ (transcript_file_suffix mid')) as H2.
  rewrite H in H1. by pose proof (endswith_char_unique _ _ _ H1 H2).
Qed.

End FileNameFacts.

(** * Facts about the index of the transcript service *)

Section IndexFacts.
Import Transcript TranscriptService.

Local Ltac run_step_of :=
  unfold download_step, _save_metadata, write_file, append_chunk,
    set_phase, try_except, set_objects, set_tasks, set_cache, set_files,
    modify, get, ret, raise, bind; simpl.

(** The records on disk. *)
Lemma snapshot_insert (k : string) (a : addr) (v : TranscriptMetadata)
    (o : gmap addr TranscriptMetadata) (c : gmap string addr) :
  a ∉ dom o → (∀ k' a', c !! k' = Some a' → a' ∈ dom o) →
  omap (fun b => <[a := v]> o !! b) (<[k := a]> c)
  = <[k := v]> (omap (fun b => o !! b) c).
Proof.
  intros Ha Hc. apply map_eq. intros k'. rewrite lookup_omap.
  destruct (decide (k' = k)) as [->|Hne].
  - rewrite !lookup_insert_eq. simpl. by rewrite lookup_insert_eq.
  - rewrite !lookup_insert_ne by done. rewrite lookup_omap.
    destruct (c !! k') as [a'|] eqn:E; simpl; [|done].
    rewrite lookup_insert_ne; [done|]. intros Heq. subst a'. apply Ha. by eapply Hc.
Qed.

Lemma load_records_run (data : list (string * TranscriptMetadata)) :
  NoDup data.*1 →
  ∀ s, (∀ k a, _metadata_cache s !! k = Some a → a ∈ dom (objects s)) →
       (load_records data s).1 = Ok tt ∧
       snapshot (load_records data s).2 = list_to_map data ∪ snapshot s ∧
       files (load_records data s).2 = files s ∧
       unwritable (load_records data s).2 = unwritable s.
Proof.
  induction data as [|[k v] data IH]; intros Hnd s Hs; simpl.
  - by rewrite (left_id_L ∅ (∪)).
  - inversion Hnd as [|? ? Hk Hnd']; subst.
    unfold bind, get, set_objects, set_cache, modify. simpl.
    set (a := fresh (dom (objects s))).
    set (s1 := mkState _ _ _ _ _ _ _ _).
    assert (Ha : a ∉ dom (objects s)) by apply is_fresh.
    assert (Hs1 : ∀ k' a', _metadata_cache s1 !! k' = Some a' → a' ∈ dom (objects s1)).
    { subst s1. simpl. intros k' a' H. rewrite dom_insert_L.
      destruct (decide (k' = k)) as [->|Hne].
      - rewrite lookup_insert_eq in H. injection H as <-.
        apply elem_of_union. left. by apply elem_of_singleton.
      - rewrite lookup_insert_ne in H by done. apply Hs in H.
        apply elem_of_union. by right. }
    destruct (IH Hnd' s1 Hs1) as (R1 & R2 & R3 & R4).
    split; [exact R1|]. split; [|by split].
    rewrite R2. unfold snapshot at 1. subst s1. simpl.
    rewrite snapshot_insert by done. fold (snapshot s).
    rewrite <- insert_union_r by (by apply not_elem_of_list_to_map_1).
    by rewrite insert_union_l.
Qed.

Lemma index_file_str : Path.str index_file = index_file.
Proof. reflexivity. Qed.

Lemma init_run (disk : state) :
  snapshot (__init__ disk) = on_disk disk ∧
  files (__init__ disk) = files disk ∧
  unwritable (__init__ disk) = unwritable disk.
Proof.
  unfold __init__, _load_existing_transcripts, on_disk, try_except, exists_,
    bind, get, ret, raise. simpl.
  fold index_file. rewrite index_file_str.
  destruct (files disk !! index_file) as [[d|data|chunks]|] eqn:E; simpl;
    rewrite ?bool_decide_eq_true_2 by eauto; simpl; rewrite ?E; simpl;
    try done.
  set (s0 := mkState _ _ _ _ _ _ _ _).
  destruct (load_records_run (map_to_list data) (NoDup_fst_map_to_list data) s0)
    as (R1 & R2 & R3 & R4); [done|].
  destruct (load_records (map_to_list data) s0) as [r s1]. simpl in *.
  subst r. simpl. rewrite R2, list_to_map_to_list.
  split; [|done]. unfold snapshot. subst s0. simpl. rewrite omap_empty.
  by rewrite (right_id_L ∅ (∪)).
Qed.

Lemma snapshot_ext (s s' : state) :
  objects s' = objects s → _metadata_cache s' = _metadata_cache s →
  snapshot s' = snapshot s.
Proof. unfold snapshot. by intros -> ->. Qed.

Lemma save_kept (bot : string) (d : MeetingCompletedData) (s : state) :
  kept s → kept (save_meeting_transcript bot d s).2.
Proof.
  intros [Hw Hk]. rewrite save_meeting_transcript_run.
  destruct (bool_decide (transcript_file _ ∈ unwritable s)); simpl.
  - split; [done|]. exact Hk.
  - unfold saved. rewrite bool_decide_eq_false_2 by done.
    split; [done|]. unfold on_disk. simpl. by rewrite lookup_insert_eq.
Qed.

Lemma step_kept (i : nat) (s : state) : kept s → kept (download_step i s).2.
Proof.
  intros [Hw Hk]. unfold kept, on_disk in *. run_step_of.
  destruct (tasks s !! i) as [t|]; simpl; [|done].
  fold (recording_file (t_meeting_id t)). fold index_file.
  pose proof (recording_file_not_index (t_meeting_id t)) as Hne.
  destruct (t_phase t) as [|[|data rest|]|]; simpl; try done.
  - destruct (http s (t_mp4_url t)) as [st body|]; simpl; [|done].
    destruct (st =? 200)%Z; simpl; [|done].
    destruct (bool_decide _); simpl; [done|].
    split; [done|]. by rewrite lookup_insert_ne.
  - destruct (objects s !! t_metadata t); simpl;
      rewrite bool_decide_eq_false_2 by done; simpl;
      (split; [done|]); by rewrite lookup_insert_eq.
  - destruct (Str.nonempty data); simpl; [|done].
    destruct (files s !! recording_file (t_meeting_id t)) as [[]|]; simpl;
      (split; [done|]); by rewrite lookup_insert_ne.
Qed.

Lemma acts_kept (l : list action) : ∀ s, kept s → kept (acts l s).
Proof.
  induction l as [|a l IH]; intros s Hs; [done|].
  apply IH. destruct a; [by apply save_kept|by apply step_kept].
Qed.

(** Whatever a service does after it was started on a disk whose index can
    be written (it saves completed meetings, its downloads go on and end,
    in any order): a service started anew on what is then on disk has the
    very records the first one had in its cache, recording paths
    included, and lists the same transcripts. *)
Theorem records_survive_restart (disk : state) (l : list action) :
  index_file ∉ unwritable disk →
  snapshot (__init__ (acts l (__init__ disk)))
  = snapshot (acts l (__init__ disk)) ∧
  list_transcripts (__init__ (acts l (__init__ disk)))
  = list_transcripts (acts l (__init__ disk)).
Proof.
  intros Hw.
  destruct (init_run disk) as (I1 & I2 & I3).
  assert (Hk : kept (__init__ disk)).
  { split; [by rewrite I3|]. rewrite I1. unfold on_disk. by rewrite I2. }
  destruct (acts_kept l _ Hk) as [_ Hk'].
  destruct (init_run (acts l (__init__ disk))) as (J1 & _).
  assert (Hs : snapshot (__init__ (acts l (__init__ disk)))
               = snapshot (acts l (__init__ disk))) by (by rewrite J1).
  split; [exact Hs|]. unfold list_transcripts. by rewrite Hs.
Qed.

(** A meeting is saved and its recording is downloaded in two chunks. *)
Lemma records_survive_restart_witness :
  snapshot (__init__ (acts [Save "bot1" sample_complete; Step 0; Step 0;
                            Step 0; Step 0] (__init__ served)))
  = snapshot (acts [Save "bot1" sample_complete; Step 0; Step 0;
                    Step 0; Step 0] (__init__ served)) ∧
  list_transcripts (__init__ (acts [Save "bot1" sample_complete; Step 0;
                                    Step 0; Step 0; Step 0] (__init__ served)))
  = list_transcripts (acts [Save "bot1" sample_complete; Step 0; Step 0;
                            Step 0; Step 0] (__init__ served)).
Proof.
  apply (records_survive_restart served
           [Save "bot1" sample_complete; Step 0; Step 0; Step 0; Step 0]).
  apply not_elem_of_empty.
Defined.

End IndexFacts.

(** * Facts about transcripts and recordings *)

Section RecordingFacts.
Import Transcript TranscriptService.

Local Ltac run_step_of :=
  unfold download_step, _save_metadata, write_file, append_chunk,
    set_phase, try_except, set_objects, set_tasks, set_cache, set_files,
    modify, get, ret, raise, bind; simpl.

Lemma saved_task (bot : string) (d : MeetingCompletedData) (s : state) :
  tasks (saved bot d s) !! length (tasks s)
  = Some (mkTask (next_meeting_id bot s) (mp4 d) (fresh (dom (objects s)))
            Scheduled) ∧
  http (saved bot d s) = http s ∧ unwritable (saved bot d s) = unwritable s.
Proof.
  unfold saved. destruct (bool_decide _); simpl;
    by rewrite lookup_app_r, Nat.sub_diag.
Qed.

Lemma download_steps_S (i k : nat) (s : state) :
  (download_steps i (S k) s).2 = (download_steps i k (download_step i s).2).2.
Proof.
  simpl. unfold bind. pose proof (download_step_ok i s) as H.
  destruct (download_step i s) as [r s1]. simpl in *. by subst r.
Qed.

(** *** The transcript that was saved can be read back *)

Lemma saved_readable (bot : string) (d : MeetingCompletedData) (s : state) :
  readable (length (tasks s)) (next_meeting_id bot s) d (saved bot d s).
Proof.
  destruct (saved_task bot d s) as (Ht & _).
  eexists _, _. split; [exact Ht|]. simpl. split; [done|].
  unfold saved. destruct (bool_decide _); simpl;
    (split; [apply lookup_insert_eq|]);
    (split; [apply lookup_insert_eq|]); (split; [done|]).
  - apply lookup_insert_eq.
  - rewrite lookup_insert_ne by (apply not_eq_sym, transcript_file_not_index).
    apply lookup_insert_eq.
Qed.

Lemma step_readable (i : nat) (mid : string) (d : MeetingCompletedData)
    (s : state) :
  readable i mid d s → readable i mid d (download_step i s).2.
Proof.
  intros (t & m & Ht & Hmid & Hc & Hm & Hp & Hf).
  pose proof (recording_file_not_transcript mid mid) as N1.
  pose proof (transcript_file_not_index mid) as N2.
  assert (Halter : ∀ p, alter (fun t => mkTask (t_meeting_id t) (t_mp4_url t)
                            (t_metadata t) p) i (tasks s) !! i
                        = Some (mkTask mid (t_mp4_url t) (t_metadata t) p)).
  { intros p. rewrite list_lookup_alter_eq, Ht. simpl. by rewrite Hmid. }
  unfold readable. run_step_of. rewrite Ht.
  fold (recording_file (t_meeting_id t)). fold index_file. rewrite Hmid.
  destruct (t_phase t) as [|[|data rest|]|] eqn:Hph; simpl.
  - destruct (http s (t_mp4_url t)) as [st body|]; simpl.
    + destruct (st =? 200)%Z; simpl.
      * destruct (bool_decide _); simpl; rewrite Halter;
          eexists _, m; repeat split; simpl; eauto.
        by rewrite lookup_insert_ne.
      * rewrite Halter. eexists _, m; repeat split; simpl; eauto.
    + rewrite Halter. eexists _, m; repeat split; simpl; eauto.
  - rewrite Hm. simpl.
    destruct (bool_decide _); simpl; rewrite Halter;
      eexists _, _; (split; [reflexivity|]); simpl;
      rewrite !lookup_insert_eq; repeat split; try done.
    by rewrite lookup_insert_ne by done.
  - destruct (Str.nonempty data); simpl.
    + destruct (files s !! recording_file mid) as [[]|]; simpl; rewrite Halter;
        eexists _, m; repeat split; simpl; eauto;
        by rewrite lookup_insert_ne.
    + rewrite Halter. eexists _, m; repeat split; simpl; eauto.
  - rewrite Halter. eexists _, m; repeat split; simpl; eauto.
  - eexists t, m; repeat split; eauto.
Qed.

Lemma steps_readable (i : nat) (mid : string) (d : MeetingCompletedData)
    (k : nat) :
  ∀ s, readable i mid d s → readable i mid d (download_steps i k s).2.
Proof.
  induction k as [|k IH]; intros s H; [done|].
  rewrite download_steps_S. by apply IH, step_readable.
Qed.

Lemma get_transcript_readable (i : nat) (mid : string)
    (d : MeetingCompletedData) (s : state) :
  readable i mid d s → get_transcript mid s = (Ok (Some (DTranscript d)), s).
Proof.
  intros (t & m & Ht & Hmid & Hc & Hm & Hp & Hf).
  unfold get_transcript, try_except, exists_, bind, get, ret. simpl.
  rewrite Hc. simpl. rewrite Hm, Hp.
  assert (Hs : Path.str (transcript_file mid) = transcript_file mid)
    by apply str_div.
  rewrite Hs, Hf. rewrite bool_decide_eq_true_2 by eauto. done.
Qed.

(** Once [save_meeting_transcript] has returned the id of a meeting,
    [get_transcript] answers for that id the very document that was
    saved: straight away, and at every point of the download of the
    recording that follows. *)
Theorem get_transcript_returns_saved
    (bot : string) (d : MeetingCompletedData) (s : state) :
  transcript_file (next_meeting_id bot s) ∉ unwritable s →
  let mid := next_meeting_id bot s in
  let i := length (tasks s) in
  ∃ s1, save_meeting_transcript bot d s = (Ok mid, s1) ∧
    ∀ k, get_transcript mid (download_steps i k s1).2
         = (Ok (Some (DTranscript d)), (download_steps i k s1).2).
Proof.
  intros Hw mid i. exists (saved bot d s). split.
  - rewrite save_meeting_transcript_run. by rewrite bool_decide_eq_false_2.
  - intros k. eapply get_transcript_readable, steps_readable, saved_readable.
Qed.

(** *** The recording holds what the provider served *)

Lemma alter_phase (i : nat) (t : task) (p : phase) (l : list task) :
  l !! i = Some t →
  alter (fun t => mkTask (t_meeting_id t) (t_mp4_url t) (t_metadata t) p) i l !! i
  = Some (mkTask (t_meeting_id t) (t_mp4_url t) (t_metadata t) p).
Proof. intros H. by rewrite list_lookup_alter_eq, H. Qed.

Lemma step_start_recorded (i : nat) (mid url : string) (body : stream)
    (s : state) :
  in_phase i mid url Scheduled s →
  http s url = Response 200 body →
  recording_file mid ∉ unwritable s →
  in_phase i mid url (Streaming body) (download_step i s).2 ∧
  recorded mid (download_step i s).2 = Some [].
Proof.
  intros (t & Ht & Hmid & Hurl & Hph) Hhttp Hw.
  unfold in_phase, recorded. run_step_of. rewrite Ht, Hph, Hurl, Hhttp. simpl.
  fold (recording_file (t_meeting_id t)). rewrite Hmid.
  rewrite bool_decide_eq_false_2 by done. simpl.
  rewrite (alter_phase i t _ _ Ht), lookup_insert_eq.
  split; [|done]. eexists. split; [reflexivity|]. by simpl.
Qed.

Lemma step_chunk_recorded (i : nat) (mid url : string) (data : string)
    (rest : stream) (w : list string) (s : state) :
  in_phase i mid url (Streaming (Chunk data rest)) s →
  recorded mid s = Some w →
  in_phase i mid url (Streaming (if Str.nonempty data then rest else Eof))
    (download_step i s).2 ∧
  recorded mid (download_step i s).2
  = Some (if Str.nonempty data then w ++ [data] else w).
Proof.
  intros (t & Ht & Hmid & Hurl & Hph) Hrec.
  unfold in_phase, recorded in *. run_step_of. rewrite Ht, Hph. simpl.
  fold (recording_file (t_meeting_id t)). rewrite Hmid.
  destruct (files s !! recording_file mid) as [[| |chunks]|] eqn:E; try done.
  injection Hrec as ->.
  destruct (Str.nonempty data); simpl; rewrite ?E; simpl;
    rewrite (alter_phase i t _ _ Ht); rewrite ?lookup_insert_eq, ?E;
    (split; [|done]); eexists; (split; [reflexivity|]); by simpl.
Qed.

Lemma step_eof_recorded (i : nat) (mid url : string) (w : list string)
    (s : state) :
  in_phase i mid url (Streaming Eof) s →
  recorded mid s = Some w →
  in_phase i mid url Finished (download_step i s).2 ∧
  recorded mid (download_step i s).2 = Some w.
Proof.
  intros (t & Ht & Hmid & Hurl & Hph) Hrec.
  pose proof (recording_file_not_index mid) as Hne.
  unfold in_phase, recorded in *. run_step_of. rewrite Ht, Hph. simpl.
  fold index_file.
  destruct (objects s !! t_metadata t); simpl;
    destruct (bool_decide _); simpl; rewrite (alter_phase i t _ _ Ht);
    rewrite ?lookup_insert_ne by done;
    (split; [|done]); eexists; (split; [reflexivity|]); by simpl.
Qed.

Lemma steps_read_recorded (i : nat) (mid url : string) (body : stream) :
  ∀ (s : state) (w c : list string),
    in_phase i mid url (Streaming body) s →
    recorded mid s = Some w →
    delivered body = Some c →
    in_phase i mid url (Streaming Eof) (download_steps i (reads body) s).2 ∧
    recorded mid (download_steps i (reads body) s).2 = Some (w ++ c).
Proof.
  induction body as [|data rest IH|]; intros s w c Hph Hrec Hdel;
    cbn [reads delivered] in *.
  - injection Hdel as <-. by rewrite app_nil_r.
  - destruct (step_chunk_recorded i mid url data rest w s Hph Hrec) as [P R].
    destruct (Str.nonempty data).
    + rewrite download_steps_S.
      destruct (delivered rest) as [c'|] eqn:E; [|done].
      injection Hdel as <-.
      destruct (IH _ _ c' P R eq_refl) as [P' R'].
      split; [exact P'|]. by rewrite R', <- app_assoc.
    + injection Hdel as <-. rewrite download_steps_S. simpl.
      by rewrite app_nil_r.
  - done.
Qed.

Lemma in_phase_finished (i : nat) (mid url : string) (s : state) :
  in_phase i mid url Finished s → phase_of i s = Some Finished.
Proof. intros (t & Ht & _ & _ & Hph). unfold phase_of. by rewrite Ht, <- Hph. Qed.

(** When the provider answers 200 and the body can be read to its end,
    the recording file of the meeting holds, once the download has come to
    its end and from then on, exactly the chunks that were served, in the
    order they came. *)
Theorem recording_holds_what_was_served
    (bot : string) (d : MeetingCompletedData) (s : state)
    (body : stream) (chunks : list string) :
  transcript_file (next_meeting_id bot s) ∉ unwritable s →
  recording_file (next_meeting_id bot s) ∉ unwritable s →
  http s (mp4 d) = Response 200 body →
  delivered body = Some chunks →
  let mid := next_meeting_id bot s in
  let i := length (tasks s) in
  ∃ s1, save_meeting_transcript bot d s = (Ok mid, s1) ∧
    ∀ k, 2 + reads body ≤ k →
         recorded mid (download_steps i k s1).2 = Some chunks.
Proof.
  intros Hw Hr Hhttp Hdel mid i. exists (saved bot d s). split.
  { rewrite save_meeting_transcript_run. by rewrite bool_decide_eq_false_2. }
  intros k Hk.
  destruct (saved_task bot d s) as (Ht & Hh & Hu). fold mid i in Ht.
  assert (P0 : in_phase i mid (mp4 d) Scheduled (saved bot d s))
    by (eexists; split; [exact Ht|done]).
  destruct (step_start_recorded i mid (mp4 d) body _ P0) as [P1 R1];
    [by rewrite Hh|by rewrite Hu|].
  destruct (steps_read_recorded i mid (mp4 d) body _ [] chunks P1 R1 Hdel)
    as [P2 R2].
  destruct (step_eof_recorded i mid (mp4 d) _ _ P2 R2) as [P3 R3].
  replace k with (S (reads body + S (k - (2 + reads body)))) by lia.
  rewrite download_steps_S, download_steps_add, download_steps_S.
  rewrite download_steps_finished by (by eapply in_phase_finished).
  exact R3.
Qed.

(** *** A download that fails *)

Lemma step_failing (i : nat) (mid url : string) (a : addr) (ph : phase)
    (s : state) :
  downloading i mid a s → in_phase i mid url ph s → failing s mid url ph →
  downloading i mid a (download_step i s).2 ∧
  ∃ ph', in_phase i mid url ph' (download_step i s).2 ∧
         failing (download_step i s).2 mid url ph'.
Proof.
  intros ((t & Ht & Hmid & Ha) & Hc & m & Hm & Hr) (t' & Ht' & _ & Hurl & Hph) Hf.
  assert (t' = t) by congruence. subst t'.
  assert (Hgoal : ∀ p f,
    let s' := mkState (objects s) (_metadata_cache s) f (unwritable s)
                (http s) (clock s) (clock_reads s)
                (alter (fun t => mkTask (t_meeting_id t) (t_mp4_url t)
                                   (t_metadata t) p) i (tasks s)) in
    failing s' mid url p →
    downloading i mid a s' ∧
    ∃ ph', in_phase i mid url ph' s' ∧ failing s' mid url ph').
  { intros p f s' Hp. split.
    - repeat split; simpl; eauto.
      eexists. split; [by apply alter_phase|]. by simpl.
    - exists p. split; [|exact Hp].
      eexists. split; [by apply alter_phase|]. by simpl. }
  run_step_of. rewrite Ht, Hph. 
  fold (recording_file (t_meeting_id t)). rewrite Hmid, Hurl.
  destruct ph as [|[|data rest|]|]; simpl in *.
  - destruct (http s url) as [st body|]; simpl; [|by apply Hgoal].
    destruct (st =? 200)%Z eqn:Est; simpl; [|by apply Hgoal].
    apply Z.eqb_eq in Est. subst st.
    destruct (bool_decide (recording_file mid ∈ unwritable s)) eqn:Ew; simpl;
      [by apply Hgoal|].
    apply Hgoal. simpl. apply bool_decide_eq_false_1 in Ew.
    destruct Hf as [?|[?|?]]; done.
  - done.
  - destruct (Str.nonempty data); simpl; [|done].
    destruct (delivered rest) eqn:Ed; [done|].
    destruct (files s !! recording_file mid) as [[]|]; simpl;
      apply Hgoal; simpl; done.
  - by apply Hgoal.
  - split; [repeat split; eauto|]. exists Finished. split; [|done].
    by exists t.
Qed.

Lemma steps_failing (i : nat) (mid url : string) (a : addr) (k : nat) :
  ∀ (s : state) (ph : phase),
    downloading i mid a s → in_phase i mid url ph s → failing s mid url ph →
    downloading i mid a (download_steps i k s).2.
Proof.
  induction k as [|k IH]; intros s ph Hd Hp Hf; [done|].
  rewrite download_steps_S.
  destruct (step_failing i mid url a ph s Hd Hp Hf) as (Hd' & ph' & Hp' & Hf').
  by eapply IH.
Qed.

(** A download that fails, because the recording file cannot be created,
    the provider cannot be reached or answers another code than 200, or
    the body breaks off, is not tried again: the record of the meeting
    never gets a recording path, and [get_recording_path] answers [None]
    at every point from the [complete] webhook on. *)
Theorem failed_download_leaves_no_recording
    (bot : string) (d : MeetingCompletedData) (s : state) :
  transcript_file (next_meeting_id bot s) ∉ unwritable s →
  failing s (next_meeting_id bot s) (mp4 d) Scheduled →
  let mid := next_meeting_id bot s in
  let i := length (tasks s) in
  ∃ s1, save_meeting_transcript bot d s = (Ok mid, s1) ∧
    ∀ k, get_recording_path mid (download_steps i k s1).2
         = (Ok None, (download_steps i k s1).2).
Proof.
  intros Hw Hf mid i. exists (saved bot d s). split.
  { rewrite save_meeting_transcript_run. by rewrite bool_decide_eq_false_2. }
  intros k. eapply downloading_not_found.
  destruct (saved_task bot d s) as (Ht & Hh & Hu). fold mid i in Ht.
  eapply (steps_failing i mid (mp4 d) _ k _ Scheduled).
  - apply saved_downloading.
  - eexists. split; [exact Ht|done].
  - simpl. rewrite Hh, Hu. exact Hf.
Qed.

End RecordingFacts.

Section RecordingWitnesses.
Import Transcript TranscriptService.

(** The sample webhook, on a service that has just started. *)
Lemma get_transcript_returns_saved_witness :
  ∃ s1, save_meeting_transcript "bot1" sample_complete served
        = (Ok (next_meeting_id "bot1" served), s1) ∧
    ∀ k, get_transcript (next_meeting_id "bot1" served)
           (download_steps (length (tasks served)) k s1).2
         = (Ok (Some (DTranscript sample_complete)),
            (download_steps (length (tasks served)) k s1).2).
Proof.
  apply (get_transcript_returns_saved "bot1" sample_complete served).
  apply not_elem_of_empty.
Defined.

(** The recording of the sample webhook, served in two chunks. *)
Lemma recording_holds_what_was_served_witness :
  ∃ s1, save_meeting_transcript "bot1" sample_complete served
        = (Ok (next_meeting_id "bot1" served), s1) ∧
    ∀ k, 2 + reads (Chunk "ab" (Chunk "cd" Eof)) ≤ k →
         recorded (next_meeting_id "bot1" served)
           (download_steps (length (tasks served)) k s1).2
         = Some ["ab"; "cd"].
Proof.
  apply (recording_holds_what_was_served "bot1" sample_complete served
           (Chunk "ab" (Chunk "cd" Eof)) ["ab"; "cd"]).
  - apply not_elem_of_empty.
  - apply not_elem_of_empty.
  - reflexivity.
  - reflexivity.
Defined.

(** The provider of the recording cannot be reached. *)
Lemma failed_download_leaves_no_recording_witness :
  ∃ s1, save_meeting_transcript "bot1" sample_complete fresh_service
        = (Ok (next_meeting_id "bot1" fresh_service), s1) ∧
    ∀ k, get_recording_path (next_meeting_id "bot1" fresh_service)
           (download_steps (length (tasks fresh_service)) k s1).2
         = (Ok None, (download_steps (length (tasks fresh_service)) k s1).2).
Proof.
  apply (failed_download_leaves_no_recording "bot1" sample_complete fresh_service).
  - apply not_elem_of_empty.
  - right. exact I.
Defined.

End RecordingWitnesses.

(** * Facts about dictionaries in insertion order *)

Section DictLaws.
Context {A : Type}.

Lemma dict_lookup_set_ne (k k' : string) (v : A) (d : list (string * A)) :
  k ≠ k' → Dict.lookup k' (Dict.set k v d) = Dict.lookup k' d.
Proof.
  intros Hne. induction d as [|[q v'] d IH]; simpl.
  - destruct (String.eqb k k') eqn:E; [|done]. by apply String.eqb_eq in E.
  - destruct (String.eqb q k) eqn:E; simpl.
    + apply String.eqb_eq in E. subst q.
      destruct (String.eqb k k') eqn:E'; [|done]. by apply String.eqb_eq in E'.
    + by rewrite IH.
Qed.

Lemma dict_lookup_pop_eq (k : string) (d : list (string * A)) :
  NoDup (Dict.keys d) → Dict.lookup k (Dict.pop k d) = None.
Proof.
  induction d as [|[q v] d IH]; simpl; [done|].
  intros Hnd. inversion Hnd as [|? ? Hq Hd]; subst.
  destruct (String.eqb q k) eqn:E; simpl.
  - apply String.eqb_eq in E. subst q.
    destruct (Dict.lookup k d) eqn:El; [|done]. exfalso. apply Hq.
    clear -El. induction d as [|[q' v'] d IH]; simpl in *; [done|].
    destruct (String.eqb q' k) eqn:E.
    + apply String.eqb_eq in E. subst. apply list_elem_of_here.
    + apply list_elem_of_further. auto.
  - rewrite E. auto.
Qed.

Lemma dict_lookup_pop_ne (k k' : string) (d : list (string * A)) :
  k ≠ k' → Dict.lookup k' (Dict.pop k d) = Dict.lookup k' d.
Proof.
  intros Hne. induction d as [|[q v] d IH]; simpl; [done|].
  destruct (String.eqb q k) eqn:E; simpl.
  - apply String.eqb_eq in E. subst q.
    destruct (String.eqb k k') eqn:E'; [|done]. by apply String.eqb_eq in E'.
  - by rewrite IH.
Qed.

End DictLaws.

(** * Facts about the persona routes *)

Section PersonaRouteFacts.
Import Routes Api.

Lemma to_dict_fields (p : PersonaBase) :
  to_dict p !! "name" = Some (Persona.VStr (name p)) ∧
  to_dict p !! "description" = Some (opt_value (description p)) ∧
  to_dict p !! "personality" = Some (opt_value (personality p)) ∧
  to_dict p !! "knowledge_base" = Some (opt_value (knowledge_base p)) ∧
  to_dict p !! "image" = Some (opt_value (image p)).
Proof. unfold to_dict. repeat split; by simplify_map_eq. Qed.

Lemma opt_field_value (o : option string) (w : world) :
  opt_field (opt_value o) w = (Ok o, w).
Proof. by destruct o. Qed.

Lemma persona_of_shows (pid : string) (a : Persona.addr)
    (data : gmap string Persona.value) (p : PersonaBase) (w : world) :
  Persona.heap (persona_manager w) !! a = Some (Persona.ODict data) →
  shows data p →
  persona_of pid a w = (Ok (mkPersona pid p), w).
Proof.
  intros Ha (H1 & H2 & H3 & H4 & H5).
  unfold persona_of, bind, get. simpl. rewrite Ha, H1, H2, H3, H4, H5. simpl.
  rewrite !opt_field_value. unfold ret. by destruct p.
Qed.

Lemma get_persona_shows (pid : string) (a : Persona.addr)
    (data : gmap string Persona.value) (p : PersonaBase) (w : world) :
  Dict.lookup pid (Persona.personas (persona_manager w)) = Some a →
  Persona.heap (persona_manager w) !! a = Some (Persona.ODict data) →
  shows data p →
  get_persona pid w = (Ok (mkPersona pid p), w).
Proof.
  intros Hl Ha Hs. unfold get_persona, try_except, bind, get. simpl.
  rewrite Hl. by rewrite (persona_of_shows pid a data p w Ha Hs).
Qed.

Lemma str_field_pure (v : Persona.value) :
  ∃ x, ∀ w, str_field v w = (x, w).
Proof. destruct v; eexists; intros w; reflexivity. Qed.

Lemma opt_field_pure (v : Persona.value) :
  ∃ x, ∀ w, opt_field v w = (x, w).
Proof. destruct v; eexists; intros w; reflexivity. Qed.

(** What [persona_of] answers depends on the record at the address only,
    and it changes nothing. *)
Lemma persona_of_pure (pid : string) (a : Persona.addr) (o : option Persona.obj) :
  ∃ x, ∀ w, Persona.heap (persona_manager w) !! a = o →
            persona_of pid a w = (x, w).
Proof.
  unfold persona_of, bind at 1, get.
  destruct o as [[data|l]|]; try (eexists; intros w ->; reflexivity).
  destruct (str_field_pure (default (Persona.VStr pid) (data !! "name"))) as [x1 H1].
  destruct (opt_field_pure (default (Persona.VStr "") (data !! "description"))) as [x2 H2].
  destruct (opt_field_pure (default (Persona.VStr "") (data !! "personality"))) as [x3 H3].
  destruct (opt_field_pure (default (Persona.VStr "") (data !! "knowledge_base"))) as [x4 H4].
  destruct (opt_field_pure (default (Persona.VStr "") (data !! "image"))) as [x5 H5].
  destruct x1 as [n|e]; [|exists (Raise e); intros w ->; unfold bind; by rewrite H1].
  destruct x2 as [d|e]; [|exists (Raise e); intros w ->; unfold bind; by rewrite H1, H2].
  destruct x3 as [p|e]; [|exists (Raise e); intros w ->; unfold bind; by rewrite H1, H2, H3].
  destruct x4 as [k|e]; [|exists (Raise e); intros w ->; unfold bind; by rewrite H1, H2, H3, H4].
  destruct x5 as [i|e]; [|exists (Raise e); intros w ->; unfold bind; by rewrite H1, H2, H3, H4, H5].
  eexists. intros w ->. unfold bind. rewrite H1, H2, H3, H4, H5. reflexivity.
Qed.

Lemma get_persona_served (q : string) (w w' w1 : world) (r : PersonaOut) :
  Dict.lookup q (Persona.personas (persona_manager w'))
  = Dict.lookup q (Persona.personas (persona_manager w)) →
  (∀ b o, Persona.heap (persona_manager w) !! b = Some o →
          Persona.heap (persona_manager w') !! b = Some o) →
  get_persona q w = (Ok r, w1) →
  get_persona q w' = (Ok r, w').
Proof.
  intros Hl Hh. unfold get_persona, try_except, bind, get. rewrite Hl.
  destruct (Dict.lookup q (Persona.personas (persona_manager w))) as [a|];
    [|by unfold raise, reraise].
  destruct (Persona.heap (persona_manager w) !! a) as [o|] eqn:Ho.
  - destruct (persona_of_pure q a (Some o)) as [x Hx].
    rewrite (Hx w Ho), (Hx w' (Hh _ _ Ho)).
    destruct x as [r'|e]; [by intros [= -> _]|].
    destruct e; unfold reraise, raise, bind, log, modify; simpl; discriminate.
  - unfold persona_of, bind, get. rewrite Ho. unfold raise, reraise, bind, log, modify.
    simpl. discriminate.
Qed.

(** A persona that [POST /personas] has created is served by
    [GET /personas/{id}] under the id of the answer, with the five fields
    as they were sent.  The other personas are where they were: every
    other id maps to what it mapped to, every record that was stored is
    unchanged, and what [GET /personas/{id}] served for another id it
    serves as before. *)
Theorem create_persona_then_get (E : env) (p : PersonaBase) (w : world) :
  let pid := uuid4 E (uuid_count w) in
  ∃ w', create_persona E p w = (Ok (mkPersona pid p), w') ∧
        get_persona pid w' = (Ok (mkPersona pid p), w') ∧
        (∀ q, q ≠ pid →
              Dict.lookup q (Persona.personas (persona_manager w'))
              = Dict.lookup q (Persona.personas (persona_manager w))) ∧
        (∀ b o, Persona.heap (persona_manager w) !! b = Some o →
                Persona.heap (persona_manager w') !! b = Some o) ∧
        (∀ q r w1, q ≠ pid → get_persona q w = (Ok r, w1) →
                   get_persona q w' = (Ok r, w')).
Proof.
  intros pid.
  assert (Hnew : Persona.heap (persona_manager w)
                   !! fresh (dom (Persona.heap (persona_manager w))) = None).
  { apply not_elem_of_dom, is_fresh. }
  unfold create_persona, try_except, in_persona_manager, lift,
    bind, get, modify, ret. simpl. fold pid.
  eexists. split; [reflexivity|].
  assert (Hl : ∀ q, q ≠ pid →
    Dict.lookup q (Dict.set pid (fresh (dom (Persona.heap (persona_manager w))))
                     (Persona.personas (persona_manager w)))
    = Dict.lookup q (Persona.personas (persona_manager w))).
  { intros q Hq. by apply dict_lookup_set_ne. }
  assert (Hh : ∀ b o, Persona.heap (persona_manager w) !! b = Some o →
    <[fresh (dom (Persona.heap (persona_manager w))) := Persona.ODict (to_dict p)]>
      (Persona.heap (persona_manager w)) !! b = Some o).
  { intros b o Hb. rewrite lookup_insert_ne; [done|]. congruence. }
  split; [|split; [exact Hl|split; [exact Hh|]]].
  - eapply get_persona_shows; simpl.
    + apply dict_lookup_set.
    + apply lookup_insert_eq.
    + apply to_dict_fields.
  - intros q r w1 Hq Hget. eapply get_persona_served; [| |exact Hget]; simpl; auto.
Qed.
Lemma to_dict_other (p : PersonaBase) (key : string) :
  key ∉ model_keys → to_dict p !! key = None.
Proof.
  intros H. unfold to_dict, model_keys in *.
  rewrite !lookup_insert_ne; [done|..]; intros <-; apply H;
    repeat (first [apply list_elem_of_here | apply list_elem_of_further]).
Qed.

Lemma union_shows (p : PersonaBase) (data : gmap string Persona.value) :
  shows (to_dict p ∪ data) p.
Proof.
  destruct (to_dict_fields p) as (H1 & H2 & H3 & H4 & H5).
  repeat split; by apply lookup_union_Some_l.
Qed.

(** [PUT /personas/{id}] on a stored record overwrites the five fields of
    the model, those the request left out included (they become [None]),
    and keeps every other entry of the record, the prompt among them.
    [GET /personas/{id}] then answers what was sent. *)
Theorem update_persona_overwrites_model_fields
    (pid : string) (p : PersonaBase) (w : world) (a : Persona.addr)
    (data : gmap string Persona.value) :
  Dict.lookup pid (Persona.personas (persona_manager w)) = Some a →
  Persona.heap (persona_manager w) !! a = Some (Persona.ODict data) →
  ∃ w' data',
    update_persona pid p w = (Ok (mkPersona pid p), w') ∧
    Persona.personas (persona_manager w') = Persona.personas (persona_manager w) ∧
    Persona.heap (persona_manager w') !! a = Some (Persona.ODict data') ∧
    shows data' p ∧
    (∀ key, key ∉ model_keys → data' !! key = data !! key) ∧
    get_persona pid w' = (Ok (mkPersona pid p), w').
Proof.
  intros Hl Ha. unfold update_persona, try_except, in_persona_manager, lift,
    bind, get, modify, ret. simpl. rewrite Hl, Ha. simpl.
  eexists _, (to_dict p ∪ data). split; [reflexivity|]. simpl.
  split; [done|]. split; [apply lookup_insert_eq|].
  split; [apply union_shows|]. split.
  - intros key Hk. rewrite lookup_union_r; [done|]. by apply to_dict_other.
  - eapply get_persona_shows; simpl; eauto using union_shows.
    apply lookup_insert_eq.
Qed.

(** An id that is not in the table: [GET], [PUT] and [DELETE] on
    [/personas/{id}] raise the 404 as it is (it is not turned into a
    500), and nothing changes. *)
Theorem persona_not_found (pid : string) (p : PersonaBase) (w : world) :
  Dict.lookup pid (Persona.personas (persona_manager w)) = None →
  get_persona pid w = (Raise (HTTPException 404 "Persona not found"), w) ∧
  update_persona pid p w = (Raise (HTTPException 404 "Persona not found"), w) ∧
  delete_persona pid w = (Raise (HTTPException 404 "Persona not found"), w).
Proof.
  intros Hl. unfold get_persona, update_persona, delete_persona, try_except,
    bind, get, raise. simpl. by rewrite Hl.
Qed.

(** [DELETE /personas/{id}] removes the persona: [GET /personas/{id}]
    answers 404 from then on, and the other personas are where they
    were. *)
Theorem delete_persona_then_get (pid : string) (w : world) (a : Persona.addr) :
  NoDup (Dict.keys (Persona.personas (persona_manager w))) →
  Dict.lookup pid (Persona.personas (persona_manager w)) = Some a →
  ∃ w', delete_persona pid w = (Ok tt, w') ∧
        get_persona pid w' = (Raise (HTTPException 404 "Persona not found"), w') ∧
        Persona.heap (persona_manager w') = Persona.heap (persona_manager w) ∧
        ∀ q, q ≠ pid →
             Dict.lookup q (Persona.personas (persona_manager w'))
             = Dict.lookup q (Persona.personas (persona_manager w)).
Proof.
  intros Hnd Hl. unfold delete_persona, try_except, in_persona_manager, lift,
    bind, get, modify. simpl. rewrite Hl. simpl.
  eexists. split; [reflexivity|]. split; [|split; [done|]].
  - unfold get_persona, try_except, bind, get, raise. simpl.
    by rewrite dict_lookup_pop_eq.
  - intros q Hq. simpl. by apply dict_lookup_pop_ne.
Qed.

End PersonaRouteFacts.

Section PersonaRouteWitnesses.
Import Routes Api.

(** The one persona of the service gets a new name. *)
Lemma update_persona_overwrites_model_fields_witness :
  ∃ w' data',
    update_persona "baas_onboarder"
      (mkPersonaBase "Onboarder" None None None None) started
    = (Ok (mkPersona "baas_onboarder"
             (mkPersonaBase "Onboarder" None None None None)), w') ∧
    Persona.personas (persona_manager w')
    = Persona.personas (persona_manager started) ∧
    Persona.heap (persona_manager w') !! 0%nat = Some (Persona.ODict data') ∧
    shows data' (mkPersonaBase "Onboarder" None None None None) ∧
    (∀ key, key ∉ model_keys →
       data' !! key
       = (<["name" := Persona.VStr "Baas Onboarder"]>
            (<["prompt" := Persona.VStr "You welcome new users."]>
               (∅ : gmap string Persona.value))) !! key) ∧
    get_persona "baas_onboarder" w'
    = (Ok (mkPersona "baas_onboarder"
             (mkPersonaBase "Onboarder" None None None None)), w').
Proof.
  apply (update_persona_overwrites_model_fields "baas_onboarder"
           (mkPersonaBase "Onboarder" None None None None) started 0%nat).
  - reflexivity.
  - reflexivity.
Defined.

Lemma persona_not_found_witness :
  get_persona "nobody" started
  = (Raise (HTTPException 404 "Persona not found"), started) ∧
  update_persona "nobody" (mkPersonaBase "Nobody" None None None None) started
  = (Raise (HTTPException 404 "Persona not found"), started) ∧
  delete_persona "nobody" started
  = (Raise (HTTPException 404 "Persona not found"), started).
Proof.
  apply (persona_not_found "nobody"
           (mkPersonaBase "Nobody" None None None None) started).
  reflexivity.
Defined.

Lemma delete_persona_then_get_witness :
  ∃ w', delete_persona "baas_onboarder" started = (Ok tt, w') ∧
        get_persona "baas_onboarder" w'
        = (Raise (HTTPException 404 "Persona not found"), w') ∧
        Persona.heap (persona_manager w') = Persona.heap (persona_manager started) ∧
        ∀ q, q ≠ "baas_onboarder" →
             Dict.lookup q (Persona.personas (persona_manager w'))
             = Dict.lookup q (Persona.personas (persona_manager started)).
Proof.
  apply (delete_persona_then_get "baas_onboarder" started 0%nat).
  - simpl. apply NoDup_singleton.
  - reflexivity.
Defined.

End PersonaRouteWitnesses.

Section PromptFacts.
Import Routes Api.

(** A record without a prompt cannot be used: [get_persona] raises
    [KeyError] at [persona["prompt"]]. *)
Lemma get_persona_without_prompt (instr : string) (rnd : nat) (pid : string)
    (a : Persona.addr) (d : gmap string Persona.value) (s : Persona.state) :
  Str.nonempty pid = true →
  Persona.folder_name_of pid = pid →
  Dict.lookup pid (Persona.personas s) = Some a →
  Persona.heap s !! a = Some (Persona.ODict d) →
  d !! "prompt" = None →
  ∃ s', Persona.get_persona instr rnd (Some pid) s = (Raise (KeyError "prompt"), s').
Proof.
  intros Hn Hf Hl Ha Hp.
  unfold Persona.get_persona, Persona.select_persona, Persona.dict_copy,
    bind at 1 2 3, get. simpl.
  rewrite Hn, Hf, Hl. simpl. rewrite Ha. simpl.
  unfold Persona.set_heap, modify, ret, bind at 1 2. simpl.
  set (a' := fresh (dom (Persona.heap s))).
  unfold Persona.default_image, Persona.dict_get, Persona.dict_setitem,
    Persona.set_heap, bind, get, modify, ret. simpl.
  rewrite lookup_insert_eq. simpl.
  destruct (Persona.truthy _ _); simpl.
  - unfold Persona.append_instructions, Persona.dict_getitem, bind, get, raise.
    simpl. rewrite lookup_insert_eq, Hp. eauto.
  - rewrite lookup_insert_eq. simpl.
    unfold Persona.append_instructions, Persona.dict_getitem, bind, get, raise.
    simpl. rewrite lookup_insert_eq. rewrite lookup_insert_ne by done.
    rewrite Hp. eauto.
Qed.

Local Ltac step_in H :=
  lazymatch type of H with
  | bind ?m ?k ?w = _ =>
      let E := fresh "E" in
      unfold bind at 1 in H;
      destruct (m w) as [[?|?] ?] eqn:E;
      cbv beta zeta in H;
      try (unfold emit, modify, get in E; discriminate E);
      first [ unfold emit, modify in E; injection E as <- <-
            | unfold modify in E; injection E as <- <-
            | unfold get in E; injection E as <- <-
            | idtac ]
  end.

(** A persona made by [POST /personas] has no prompt.  Asking a bot to
    join a meeting as that persona raises [KeyError] at
    [persona["prompt"]], before the session is registered. *)
Theorem created_persona_cannot_join
    (E : env) (p : PersonaBase) (request : BotRequest) (key : string)
    (w : world) (others : list string) :
  let pid := uuid4 E (uuid_count w) in
  Str.nonempty pid = true →
  Persona.folder_name_of pid = pid →
  Str.nonempty (meeting_url request) = true →
  personas request = Some (pid :: others) →
  ∃ w1 w2,
    create_persona E p w = (Ok (mkPersona pid p), w1) ∧
    join_meeting E request key w1 = (Raise (KeyError "prompt"), w2) ∧
    MEETING_DETAILS w2 = MEETING_DETAILS w1.
Proof.
  intros pid Hn Hf Hurl Hps.
  set (w1 := (create_persona E p w).2).
  assert (Hc : create_persona E p w = (Ok (mkPersona pid p), w1)) by reflexivity.
  assert (Hget : ∀ s rnd, s = persona_manager w1 →
    ∃ s', Persona.get_persona (PERSONA_INTERACTION_INSTRUCTIONS E) rnd (Some pid) s
          = (Raise (KeyError "prompt"), s')).
  { intros s rnd ->. eapply get_persona_without_prompt; eauto.
    - subst w1. simpl. apply dict_lookup_set.
    - subst w1. simpl. apply lookup_insert_eq.
    - by apply to_dict_other; unfold model_keys;
        repeat (apply not_elem_of_cons; split; [done|]);
        apply not_elem_of_nil. }
  clearbody w1.
  exists w1, (join_meeting E request key w1).2. split; [exact Hc|].
  destruct (join_meeting E request key w1) as [r w2] eqn:Hrun. simpl.
  unfold join_meeting in Hrun. rewrite Hurl in Hrun. simpl in Hrun.
  destruct (determine_websocket_url E) as [ws tmp].
  step_in Hrun. step_in Hrun. step_in Hrun. step_in Hrun.
  step_in Hrun.
  2:{ destruct (LOCAL_DEV_MODE E && str_truthy tmp);
        unfold bind, emit, modify, ret in E0; discriminate. }
  assert (Hw0 : MEETING_DETAILS w0 = MEETING_DETAILS w1 ∧
                persona_manager w0 = persona_manager w1).
  { destruct (LOCAL_DEV_MODE E && str_truthy tmp);
      unfold bind, emit, modify, ret in E0; by injection E0 as _ <-. }
  destruct Hw0 as [M0 P0]. clear E0.
  step_in Hrun;
    unfold choose_persona, bind, get, ret in E0; rewrite Hps in E0;
    [injection E0 as <- <-|discriminate].
  destruct (Hget (persona_manager w0) (random_choice E) P0) as (s' & Hs').
  step_in Hrun; unfold in_persona_manager, lift in E0; rewrite Hs' in E0;
    [discriminate|].
  injection E0 as <- <-. injection Hrun as <- <-.
  split; [reflexivity|]. exact M0.
Qed.

End PromptFacts.

Section PromptWitnesses.
Import Routes Api.

Lemma created_persona_cannot_join_witness :
  ∃ w1 w2,
    create_persona quiet_env (mkPersonaBase "Guide" None None None None) started
    = (Ok (mkPersona "uuid-0" (mkPersonaBase "Guide" None None None None)), w1) ∧
    join_meeting quiet_env
      (mkBotRequest "https://meet.example/abc" "" (Some ["uuid-0"]) None None
         None None None true None) "key" w1
    = (Raise (KeyError "prompt"), w2) ∧
    MEETING_DETAILS w2 = MEETING_DETAILS w1.
Proof.
  apply (created_persona_cannot_join quiet_env
           (mkPersonaBase "Guide" None None None None)
           (mkBotRequest "https://meet.example/abc" "" (Some ["uuid-0"]) None
              None None None None true None) "key" started []).
  - reflexivity.
  - reflexivity.
  - reflexivity.
  - reflexivity.
Defined.
End PromptWitnesses.

(** * Facts about the webhook and the transcript routes *)

Section WebhookFacts.
Import Routes.

Lemma in_transcript_service_run {A} (m : M Transcript.state A) (w : world)
    (r : result A) (s : Transcript.state) :
  m (transcript_service w) = (r, s) →
  in_transcript_service m w = (r, set_transcript_service s w).
Proof. intros H. unfold in_transcript_service, lift. by rewrite H. Qed.

(** A [complete] event whose payload is well formed and whose transcript
    can be written is answered with the id of the meeting;
    [GET /transcripts/{id}] then serves the payload as it came, and
    [GET /transcripts/{id}/recording] answers 404 as long as the download
    has not taken a step. *)
Theorem webhook_complete_then_get_transcript
    (ev : MeetingWebhookEvent) (d : Transcript.MeetingCompletedData)
    (w : world) :
  event_kind ev = "complete" →
  as_completed (data ev) = Some d →
  Transcript.transcript_file
    (Transcript.next_meeting_id (Transcript.bot_id d) (transcript_service w))
    ∉ Transcript.unwritable (transcript_service w) →
  let mid := Transcript.next_meeting_id (Transcript.bot_id d)
               (transcript_service w) in
  ∃ w1,
    meetingbaas_webhook ev w
    = (Ok (mkResponse 200 [("status", "success");
                           ("message", "Meeting transcript saved");
                           ("meeting_id", mid)]), w1) ∧
    Api.get_transcript mid w1 = (Ok (TranscriptService.DTranscript d), w1) ∧
    Api.download_recording mid w1
    = (Raise (HTTPException 404 ("Recording not found for meeting ID: " +:+ mid)),
       w1).
Proof.
  intros Hk Hd Hw mid.
  assert (Hsave : Transcript.save_meeting_transcript (Transcript.bot_id d) d
                    (transcript_service w)
                  = (Ok mid, Transcript.saved (Transcript.bot_id d) d
                               (transcript_service w))).
  { rewrite save_meeting_transcript_run. by rewrite bool_decide_eq_false_2. }
  unfold meetingbaas_webhook, try_except, parse.
  unfold bind at 1, log at 1, modify at 1. rewrite Hk, Hd. simpl.
  unfold bind at 1, ret at 1. unfold bind at 1.
  erewrite in_transcript_service_run by exact Hsave.
  unfold bind, log, modify, ret. simpl.
  eexists. split; [reflexivity|]. split.
  - unfold Api.get_transcript, try_except, bind.
    erewrite in_transcript_service_run.
    2:{ simpl. eapply get_transcript_readable, saved_readable. }
    simpl. unfold ret. by destruct w.
  - unfold Api.download_recording, try_except, bind.
    erewrite in_transcript_service_run.
    2:{ simpl. eapply downloading_not_found, saved_downloading. }
    simpl. unfold raise. by destruct w.
Qed.

(** An event of a known kind whose payload does not fit the model of
    that kind, and a [complete] event whose transcript cannot be written,
    raise a 500 whose detail is ["Failed to process webhook: "] followed by
    the text of what was caught: the validation error, or the 500 of the
    service, itself made from the [OSError] of the write.  No record, no
    file and no download is added. *)
Theorem webhook_failure_is_500 (ev : MeetingWebhookEvent) (w : world) :
  (event_kind ev = "complete" ∧
   match as_completed (data ev) with
   | None => True
   | Some d =>
       Transcript.transcript_file
         (Transcript.next_meeting_id (Transcript.bot_id d) (transcript_service w))
       ∈ Transcript.unwritable (transcript_service w)
   end) ∨
  (event_kind ev = "failed" ∧ as_failed (data ev) = None) ∨
  (event_kind ev = "bot.status_change" ∧ as_status (data ev) = None) →
  let e :=
    if String.eqb (event_kind ev) "complete"
       && bool_decide (is_Some (as_completed (data ev)))
    then HTTPExceptionStr 500 "Failed to save transcript: " OSError
    else ValidationError in
  ∃ w1,
    meetingbaas_webhook ev w
    = (Raise (HTTPExceptionStr 500 "Failed to process webhook: " e), w1) ∧
    Transcript._metadata_cache (transcript_service w1)
    = Transcript._metadata_cache (transcript_service w) ∧
    Transcript.objects (transcript_service w1)
    = Transcript.objects (transcript_service w) ∧
    Transcript.files (transcript_service w1)
    = Transcript.files (transcript_service w) ∧
    Transcript.tasks (transcript_service w1)
    = Transcript.tasks (transcript_service w).
Proof.
  intros [[Hk Hd] | [[Hk Hd] | [Hk Hd]]]; cbv zeta;
    unfold meetingbaas_webhook, try_except, parse;
    unfold bind at 1, log at 1, modify at 1; rewrite Hk; simpl.
  - destruct (as_completed (data ev)) as [d|]; simpl.
    + unfold bind at 1, ret at 1. unfold bind at 1.
      erewrite in_transcript_service_run.
      2:{ rewrite save_meeting_transcript_run.
          rewrite bool_decide_eq_true_2 by exact Hd. reflexivity. }
      unfold bind, log, modify, raise. simpl. eexists. by split.
    + unfold bind, raise, log, modify. simpl. eexists. by split.
  - rewrite Hd. unfold bind, raise, log, modify. simpl. eexists. by split.
  - rewrite Hd. unfold bind, raise, log, modify. simpl. eexists. by split.
Qed.

End WebhookFacts.

Section WebhookWitnesses.
Import Routes.

Lemma webhook_complete_then_get_transcript_witness :
  ∃ w1,
    meetingbaas_webhook
      (mkMeetingWebhookEvent "complete"
         (mkWebhookData (Some Transcript.sample_complete) None None)) started
    = (Ok (mkResponse 200 [("status", "success");
                           ("message", "Meeting transcript saved");
                           ("meeting_id",
                            Transcript.next_meeting_id "bot1"
                              (transcript_service started))]), w1) ∧
    Api.get_transcript
      (Transcript.next_meeting_id "bot1" (transcript_service started)) w1
    = (Ok (TranscriptService.DTranscript Transcript.sample_complete), w1) ∧
    Api.download_recording
      (Transcript.next_meeting_id "bot1" (transcript_service started)) w1
    = (Raise (HTTPException 404
                ("Recording not found for meeting ID: "
                 +:+ Transcript.next_meeting_id "bot1"
                       (transcript_service started))), w1).
Proof.
  apply (webhook_complete_then_get_transcript
           (mkMeetingWebhookEvent "complete"
              (mkWebhookData (Some Transcript.sample_complete) None None))
           Transcript.sample_complete started).
  - reflexivity.
  - reflexivity.
  - apply not_elem_of_empty.
Defined.

(** A [complete] event whose transcript file cannot be written. *)
Lemma webhook_failure_is_500_witness :
  ∃ w1,
    meetingbaas_webhook
      (mkMeetingWebhookEvent "complete"
         (mkWebhookData (Some Transcript.sample_complete) None None)) read_only
    = (Raise (HTTPExceptionStr 500 "Failed to process webhook: "
                (HTTPExceptionStr 500 "Failed to save transcript: " OSError)),
       w1) ∧
    Transcript._metadata_cache (transcript_service w1)
    = Transcript._metadata_cache (transcript_service read_only) ∧
    Transcript.objects (transcript_service w1)
    = Transcript.objects (transcript_service read_only) ∧
    Transcript.files (transcript_service w1)
    = Transcript.files (transcript_service read_only) ∧
    Transcript.tasks (transcript_service w1)
    = Transcript.tasks (transcript_service read_only).
Proof.
  apply (webhook_failure_is_500
           (mkMeetingWebhookEvent "complete"
              (mkWebhookData (Some Transcript.sample_complete) None None))
           read_only).
  left. split; [reflexivity|]. simpl.
  apply (bool_decide_unpack _). by vm_compute.
Defined.

End WebhookWitnesses.

(** * Facts about the list of bots *)

Section BotListFacts.
Import Routes Api.

Lemma dict_set_set {A} (k : string) (v1 v2 : A) (d : list (string * A)) :
  Dict.set k v2 (Dict.set k v1 d) = Dict.set k v2 d.
Proof.
  induction d as [|[q v] d IH]; simpl.
  - by rewrite String.eqb_refl.
  - destruct (String.eqb q k) eqn:E; simpl; rewrite E; [done|]. by rewrite IH.
Qed.

Lemma dict_set_new {A} (k : string) (v : A) (d : list (string * A)) :
  Dict.mem k d = false → Dict.set k v d = d ++ [(k, v)].
Proof.
  unfold Dict.mem. induction d as [|[q v'] d IH]; simpl; [done|].
  destruct (String.eqb q k); [done|]. intros H. by rewrite IH.
Qed.

Lemma bots_of_app (l1 l2 : list (string * Details)) :
  bots_of (l1 ++ l2) = bots_of l1 ++ bots_of l2.
Proof.
  induction l1 as [|[k d] l1 IH]; simpl; [done|].
  destruct (str_truthy _); simpl; by rewrite IH.
Qed.

Local Ltac step_in H :=
  lazymatch type of H with
  | bind ?m ?k ?w = _ =>
      let E := fresh "E" in
      unfold bind at 1 in H;
      destruct (m w) as [[?|?] ?] eqn:E; [|discriminate H];
      cbv beta zeta in H;
      first [ unfold emit, modify in E; injection E as <- <-
            | unfold modify in E; injection E as <- <-
            | unfold get in E; injection E as <- <-
            | unfold in_persona_manager, lift in E;
              match type of E with
              | (let '(_, _) := ?c in _) = _ =>
                  let Ec := fresh "Ec" in
                  destruct c as [? ?] eqn:Ec; injection E as -> <-
              end
            | idtac ]
  end.

(** What an answered [join_meeting] leaves in [MEETING_DETAILS]. *)
Lemma join_meeting_details (E : env) (request : BotRequest) (key : string)
    (w w' : world) (r : response) :
  Str.nonempty (meeting_url request) = true →
  join_meeting E request key w = (Ok r, w') →
  ∃ name bid,
    MEETING_DETAILS w' =
      Dict.set (uuid4 E (uuid_count w))
        (mkDetails (meeting_url request) name bid (enable_tools request)
           "16khz" (entry_message request) (text_message request))
        (MEETING_DETAILS w) ∧
    ((∃ b, bid = Some b ∧ Str.nonempty b = true ∧
           r = mkResponse 201 [("bot_id", b)]) ∨
     (bid = None ∧
      r = mkResponse 500
            [("message", "Failed to create bot through MeetingBaas API");
             ("status", "error")])).
Proof.
  intros Hurl Hrun. unfold join_meeting in Hrun. rewrite Hurl in Hrun.
  simpl in Hrun.
  destruct (determine_websocket_url E) as [ws tmp].
  step_in Hrun. step_in Hrun. step_in Hrun. step_in Hrun. step_in Hrun.
  assert (Hw0 : MEETING_DETAILS w0 = MEETING_DETAILS w).
  { destruct (LOCAL_DEV_MODE E && str_truthy tmp);
      unfold bind, emit, modify, ret in E0; by injection E0 as _ <-. }
  clear E0.
  step_in Hrun. apply choose_persona_frame in E0 as ->.
  step_in Hrun. step_in Hrun. step_in Hrun. step_in Hrun. step_in Hrun.
  step_in Hrun.
  clear Ec Ec0 Ec1.
  match type of Hrun with
  | context [create_meeting_bot E ?c] =>
      set (bid := create_meeting_bot E c) in Hrun; clearbody bid
  end.
  destruct (str_truthy bid) eqn:Hbid.
  - unfold bind, modify, ret in Hrun. injection Hrun as <- <-.
    eexists _, bid. simpl. rewrite dict_set_set, Hw0. split; [reflexivity|].
    left. destruct bid as [b|]; [|done]. exists b. by repeat split.
  - unfold ret in Hrun. injection Hrun as <- <-.
    eexists _, None. simpl. rewrite Hw0. split; [reflexivity|]. by right.
Qed.

(** After [join_meeting] has answered, [GET /bots] lists the bots it
    listed before, in the same order, and, when the answer is 201, the
    new bot after them, under the bot id of the answer.  A session whose
    bot the provider did not create (the answer is 500) is not listed. *)
Theorem list_bots_after_join
    (E : env) (request : BotRequest) (key : string) (w w' : world)
    (r : response) :
  Str.nonempty (meeting_url request) = true →
  Dict.mem (uuid4 E (uuid_count w)) (MEETING_DETAILS w) = false →
  join_meeting E request key w = (Ok r, w') →
  (∃ b name,
     r = mkResponse 201 [("bot_id", b)] ∧
     list_bots w' =
       (Ok (bots_of (MEETING_DETAILS w)
            ++ [mkBotEntry b name (meeting_url request) [name]]), w')) ∨
  (status_code r = 500%Z ∧
   list_bots w' = (Ok (bots_of (MEETING_DETAILS w)), w')).
Proof.
  intros Hurl Hnew Hrun.
  destruct (join_meeting_details E request key w w' r Hurl Hrun)
    as (name & bid & Hd & [(b & -> & Hb & ->) | [-> ->]]);
    unfold list_bots, try_except, bind, get, ret; simpl;
    rewrite Hd, (dict_set_new _ _ _ Hnew), bots_of_app; simpl.
  - left. exists b, name. split; [done|]. by rewrite Hb.
  - right. split; [done|]. by rewrite app_nil_r.
Qed.

End BotListFacts.

Section BotListWitnesses.
Import Routes Api.

Lemma list_bots_after_join_witness :
  (∃ b name,
     mkResponse 201 [("bot_id", "remote-1")] = mkResponse 201 [("bot_id", b)] ∧
     list_bots (join_meeting quiet_env join_request "key" started).2 =
       (Ok (bots_of (MEETING_DETAILS started)
            ++ [mkBotEntry b name (meeting_url join_request) [name]]),
        (join_meeting quiet_env join_request "key" started).2)) ∨
  (status_code (mkResponse 201 [("bot_id", "remote-1")]) = 500%Z ∧
   list_bots (join_meeting quiet_env join_request "key" started).2
   = (Ok (bots_of (MEETING_DETAILS started)),
      (join_meeting quiet_env join_request "key" started).2)).
Proof.
  apply (list_bots_after_join quiet_env join_request "key" started).
  - reflexivity.
  - reflexivity.
  - vm_compute. reflexivity.
Defined.
End BotListWitnesses.

(** * More facts about the leave flow *)

Section LeaveFacts.
Import Routes Leave.

Lemma leave_remote_answer (E : env) (b key : string) (w : world) :
  Str.nonempty b = true →
  ∃ w', leave_remote E b key w = (Ok (leave_meeting_bot E b key), w') ∧
        same_session_tables w w' ∧
        pipecat_connections w' = pipecat_connections w ∧
        active_connections w' = active_connections w.
Proof.
  intros Hb. unfold leave_remote, bind, log, emit, modify, ret. rewrite Hb.
  simpl. destruct (leave_meeting_bot E b key); simpl;
    eexists; (split; [reflexivity|]); by repeat split.
Qed.

Lemma close_sockets_answer (cid : string) (success : bool) (w : world) :
  ∃ w', close_sockets cid success w =
        (Ok (success && closes (pipecat_connections w) cid
             && closes (active_connections w) cid), w') ∧
        same_session_tables (elapse 0.5 w) w'.
Proof.
  unfold close_sockets, mark_closing, disconnect, sleep, try_except, bind,
    log, emit, modify, get, ret, raise, elapse, set_pipecat_connections,
    set_active_connections, set_closing_clients, set_trace, set_logs,
    set_processes, closes.
  simpl.
  destruct (pipecat_connections w !! cid) as [sp|] eqn:Hp; simpl.
  - rewrite ?bool_decide_eq_true_2 by eauto. simpl. rewrite ?Hp.
    destruct (close_raises sp); simpl;
      destruct (active_connections w !! cid) as [sc|] eqn:Hc; simpl;
      rewrite ?bool_decide_eq_true_2 by eauto;
      rewrite ?bool_decide_eq_false_2 by (by intros [? ?]); simpl;
      rewrite ?Hc; try destruct (close_raises sc); simpl;
      eexists; (split; [by rewrite ?andb_false_r, ?andb_true_r|]); done.
  - rewrite ?bool_decide_eq_false_2 by (by intros [? ?]). simpl.
    destruct (active_connections w !! cid) as [sc|] eqn:Hc; simpl;
      rewrite ?bool_decide_eq_true_2 by eauto;
      rewrite ?bool_decide_eq_false_2 by (by intros [? ?]); simpl;
      rewrite ?Hc; try destruct (close_raises sc); simpl;
      eexists; (split; [by rewrite ?andb_false_r, ?andb_true_r|]); done.
Qed.

Lemma dict_pop_absent {A} (k : string) (d : list (string * A)) :
  Dict.mem k d = false → Dict.pop k d = d.
Proof.
  unfold Dict.mem. induction d as [|[q v] d IH]; simpl; [done|].
  destruct (String.eqb q k); [done|]. intros H. by rewrite IH.
Qed.

(** The last stage of the leave flow, for a session whose process is
    registered. *)
Lemma stop_process_registered (E : env) (cid : string) (success : bool)
    (w : world) (p : pid) (ps : Process.state) :
  PIPECAT_PROCESSES w !! cid = Some p →
  processes w !! p = Some ps →
  ∃ w' ps',
    stop_process E cid success w = (Ok success, w') ∧
    PIPECAT_PROCESSES w' = delete cid (PIPECAT_PROCESSES w) ∧
    MEETING_DETAILS w' = Dict.pop cid (MEETING_DETAILS w) ∧
    processes w' !! p = Some ps' ∧
    (killable ps → Process.exited (Process.proc ps')).
Proof.
  intros Hp Hps. unfold stop_process, bind at 1, get. rewrite Hp.
  unfold bind at 1. rewrite (on_process_poll p ps w Hps).
  set (w1 := set_processes _ w).
  assert (Htail : ∀ (ok : bool) (w2 : world) (ps2 : Process.state),
    MEETING_DETAILS w2 = MEETING_DETAILS w →
    PIPECAT_PROCESSES w2 = PIPECAT_PROCESSES w →
    processes w2 !! p = Some ps2 →
    ∃ w',
      ((emit (EvPopProcess cid) ;;;
        modify (fun w => set_PIPECAT_PROCESSES (delete cid (PIPECAT_PROCESSES w)) w) ;;;
        let! w := get in
        (if Dict.mem cid (MEETING_DETAILS w) then
           emit (EvPopDetails cid) ;;;
           modify (fun w => set_MEETING_DETAILS (Dict.pop cid (MEETING_DETAILS w)) w)
         else ret tt) ;;;
        (if LOCAL_DEV_MODE E then
           emit (EvReleaseNgrokUrl cid) ;;; emit EvLogNgrokStatus
         else ret tt) ;;;
        (ret ok : M world bool))%py w2) = (Ok ok, w') ∧
      PIPECAT_PROCESSES w' = delete cid (PIPECAT_PROCESSES w) ∧
      MEETING_DETAILS w' = Dict.pop cid (MEETING_DETAILS w) ∧
      processes w' !! p = Some ps2).
  { intros ok w2 ps2 Hm2 Hpp2 Hps2. unfold bind, emit, modify, get, ret. simpl.
    rewrite Hm2, Hpp2.
    destruct (Dict.mem cid (MEETING_DETAILS w)) eqn:Hmem; simpl;
      destruct (LOCAL_DEV_MODE E); simpl;
      eexists; (split; [reflexivity|]); simpl;
      rewrite ?Hm2, ?(dict_pop_absent _ _ Hmem); done. }
  destruct (Process.returncode (Process.reap (Process.proc ps))) as [c|] eqn:Hrc;
    cbn [Process.proc].
  - unfold bind at 1, ret at 1.
    destruct (Htail success w1 (Process.mkState (Process.reap (Process.proc ps))
                                  (Process.log ps ++ [Process.EvPoll])))
      as (w' & Hrun & H1 & H2 & H3); [done|done|..].
    { subst w1. simpl. apply lookup_insert_eq. }
    eexists w', _. split; [exact Hrun|]. repeat split; eauto.
    intros _. simpl. unfold Process.exited. rewrite reap_idem. congruence.
  - unfold bind at 1.
    destruct (terminate_ends (Process.reap (Process.proc ps))
                (Process.log ps ++ [Process.EvPoll]) 3.0)
      as (b & p' & added & Hterm & Hex & _).
    assert (Hterm' : ∃ w2,
      try_except
        (emit (EvTerminateProcess cid 3.0) ;;;
         let! graceful := on_process p (Process.terminate_process_gracefully 3.0) in
         (if graceful : bool
          then log INFO ("Gracefully terminated Pipecat process for client " +:+ cid)
          else log WARNING ("Had to forcefully kill Pipecat process for client " +:+ cid)) ;;;
         ret success)%py
        (fun _ => log ERROR "Error terminating Pipecat process" ;;; ret false)%py w1
      = (Ok success, w2) ∧
      MEETING_DETAILS w2 = MEETING_DETAILS w ∧
      PIPECAT_PROCESSES w2 = PIPECAT_PROCESSES w ∧
      processes w2 !! p = Some (Process.mkState p' ((Process.log ps ++ [Process.EvPoll]) ++ added))).
    { unfold try_except, bind, emit, modify, on_process, log, ret. simpl.
      rewrite lookup_insert_eq. rewrite Hterm.
      destruct b; simpl; eexists; (split; [reflexivity|]); simpl;
        repeat split; by rewrite lookup_insert_eq. }
    destruct Hterm' as (w2 & Hrun1 & M2 & P2 & S2).
    rewrite Hrun1.
    destruct (Htail success w2 _ M2 P2 S2) as (w' & Hrun & H1 & H2 & H3).
    eexists w', _. split; [exact Hrun|]. repeat split; eauto.
    intros [Hk Hi]. simpl. apply Hex.
    + destruct (reap_flags (Process.proc ps)) as (R1 & _). congruence.
    + destruct (reap_flags (Process.proc ps)) as (_ & R2 & _). congruence.
Qed.

Lemma stop_process_answer (E : env) (cid : string) (success : bool) (w : world) :
  (∀ p, PIPECAT_PROCESSES w !! cid = Some p → is_Some (processes w !! p)) →
  ∃ w', stop_process E cid success w = (Ok success, w').
Proof.
  intros Hwf. destruct (PIPECAT_PROCESSES w !! cid) as [p|] eqn:Hp.
  - destruct (Hwf p eq_refl) as [ps Hps].
    destruct (stop_process_registered E cid success w p ps Hp Hps)
      as (w' & ps' & H & _). eauto.
  - unfold stop_process, bind, get, log, modify, ret. rewrite Hp. simpl. eauto.
Qed.

(** The status that [leave_bot] reports for a session it has found is
    ["success"] exactly when the provider removed the bot and each socket
    that is registered could be closed, and ["partial"] otherwise: no
    failure is raised, and the termination of the child, graceful or
    forced, does not count. *)
Theorem leave_bot_status
    (E : env) (bot : string) (request : LeaveBotRequest) (key : string)
    (w : world) (cid : string) :
  Str.nonempty bot = true →
  find_client_id bot (MEETING_DETAILS w) = Some cid →
  Str.nonempty cid = true →
  (∀ p, PIPECAT_PROCESSES w !! cid = Some p → is_Some (processes w !! p)) →
  ∃ w',
    leave_bot E bot request key w =
    (Ok (mkResponse 200
           [("message", "Bot removal request processed");
            ("status", if all_steps_succeed E bot key cid w
                       then "success" else "partial");
            ("bot_id", bot)]), w').
Proof.
  intros Hbot Hfind Hcid Hwf.
  unfold leave_bot. rewrite Hbot. simpl.
  unfold bind at 1, log at 1, modify at 1.
  unfold bind at 1, get at 1. simpl. rewrite Hfind. simpl. rewrite Hcid.
  unfold bind at 1, log at 1, modify at 1.
  unfold bind at 1, ret at 1.
  set (w0 := set_logs _ _).
  assert (S0 : same_session_tables w w0) by done.
  assert (P0 : pipecat_connections w0 = pipecat_connections w) by done.
  assert (A0 : active_connections w0 = active_connections w) by done.
  clearbody w0.
  destruct (leave_remote_answer E bot key w0 Hbot) as (w1 & R1 & S1 & P1 & A1).
  unfold bind at 1. rewrite R1.
  destruct (close_sockets_answer cid (leave_meeting_bot E bot key) w1)
    as (w2 & R2 & S2).
  unfold bind at 1. rewrite R2.
  assert (Hwf2 : ∀ p, PIPECAT_PROCESSES w2 !! cid = Some p →
                      is_Some (processes w2 !! p)).
  { destruct S0 as (_ & Q1 & Q2), S1 as (_ & Q3 & Q4), S2 as (_ & Q5 & Q6).
    rewrite Q5, Q6. unfold elapse. simpl. rewrite Q3, Q1, Q4, Q2.
    intros p Hp. rewrite lookup_fmap.
    destruct (Hwf p Hp) as [ps ->]. by eexists. }
  destruct (stop_process_answer E cid
              (leave_meeting_bot E bot key && closes (pipecat_connections w1) cid
               && closes (active_connections w1) cid) w2 Hwf2) as (w3 & R3).
  unfold bind at 1. rewrite R3. unfold ret.
  exists w3. unfold all_steps_succeed. by rewrite P1, A1, P0, A0.
Qed.

(** When a process is registered for the session, the leave flow removes
    the session whatever status it reports: the session is in neither
    [MEETING_DETAILS] nor [PIPECAT_PROCESSES] afterwards, the other
    sessions are where they were, and the child has exited, provided
    SIGKILL reaches it. *)
Theorem leave_bot_removes_session
    (E : env) (bot : string) (request : LeaveBotRequest) (key : string)
    (w : world) (cid : string) (p : pid) (ps : Process.state) :
  Str.nonempty bot = true →
  find_client_id bot (MEETING_DETAILS w) = Some cid →
  Str.nonempty cid = true →
  NoDup (Dict.keys (MEETING_DETAILS w)) →
  PIPECAT_PROCESSES w !! cid = Some p →
  processes w !! p = Some ps →
  ∃ r w' ps',
    leave_bot E bot request key w = (Ok r, w') ∧
    Dict.lookup cid (MEETING_DETAILS w') = None ∧
    PIPECAT_PROCESSES w' !! cid = None ∧
    (∀ c, c ≠ cid →
       Dict.lookup c (MEETING_DETAILS w') = Dict.lookup c (MEETING_DETAILS w) ∧
       PIPECAT_PROCESSES w' !! c = PIPECAT_PROCESSES w !! c) ∧
    processes w' !! p = Some ps' ∧
    (killable ps → Process.exited (Process.proc ps')).
Proof.
  intros Hbot Hfind Hcid Hnd Hp Hps.
  unfold leave_bot. rewrite Hbot. simpl.
  unfold bind at 1, log at 1, modify at 1.
  unfold bind at 1, get at 1. simpl. rewrite Hfind. simpl. rewrite Hcid.
  unfold bind at 1, log at 1, modify at 1.
  unfold bind at 1, ret at 1.
  set (w0 := set_logs _ _).
  assert (S0 : same_session_tables w w0) by done.
  clearbody w0.
  destruct (leave_remote_answer E bot key w0 Hbot) as (w1 & R1 & S1 & _).
  unfold bind at 1. rewrite R1.
  destruct (close_sockets_answer cid (leave_meeting_bot E bot key) w1)
    as (w2 & R2 & S2).
  unfold bind at 1. rewrite R2.
  assert (S : MEETING_DETAILS w2 = MEETING_DETAILS w ∧
              PIPECAT_PROCESSES w2 = PIPECAT_PROCESSES w ∧
              processes w2 = later 0.5 <$> processes w).
  { destruct S0 as (M0 & P0 & X0), S1 as (M1 & P1 & X1), S2 as (M2 & P2 & X2).
    rewrite M2, P2, X2. unfold elapse. simpl.
    by rewrite M1, M0, P1, P0, X1, X0. }
  destruct S as (Q1 & Q2 & Q3).
  destruct (stop_process_registered E cid
              (leave_meeting_bot E bot key && closes (pipecat_connections w1) cid
               && closes (active_connections w1) cid) w2 p (later 0.5 ps))
    as (w3 & ps' & R3 & T1 & T2 & T3 & T4).
  { congruence. }
  { by rewrite Q3, lookup_fmap, Hps. }
  unfold bind at 1. rewrite R3. unfold ret.
  eexists _, w3, ps'. split; [reflexivity|].
  rewrite T1, T2, Q1, Q2.
  split; [by apply dict_lookup_pop_eq|].
  split; [apply lookup_delete_eq|].
  split.
  2:{ split; [exact T3|]. intros [Hk Hi]. apply T4. unfold killable, later.
      cbn [Process.proc].
      destruct (advance_flags (Process.ticks 0.5) (Process.proc ps))
        as (F1 & F2 & _).
      split; congruence. }
  intros c Hc. split; [by apply dict_lookup_pop_ne|].
  by rewrite lookup_delete_ne.
Qed.

End LeaveFacts.

(** * Facts about the start of the child process *)

Section LaunchFacts.
Import Routes Launch.

Variable executable : string.
Variable script_path : string.

Lemma in_persona_manager_read {A} (m : M Persona.state A) (w : world)
    (r : result A) :
  m (persona_manager w) = (r, persona_manager w) →
  in_persona_manager m w = (r, w).
Proof.
  intros H. unfold in_persona_manager, lift. rewrite H. by destruct w.
Qed.

Lemma dict_get_or_run (a : Persona.addr) (key : string) (dflt : Persona.value)
    (d : gmap string Persona.value) (w : world) :
  Persona.heap (persona_manager w) !! a = Some (Persona.ODict d) →
  in_persona_manager (dict_get_or a key dflt) w = (Ok (default dflt (d !! key)), w).
Proof.
  intros H. apply in_persona_manager_read.
  unfold dict_get_or, bind, get, ret. simpl. by rewrite H.
Qed.

Lemma dict_get_run (a : Persona.addr) (key : string)
    (d : gmap string Persona.value) (w : world) :
  Persona.heap (persona_manager w) !! a = Some (Persona.ODict d) →
  in_persona_manager (Persona.dict_get a key) w
  = (Ok (default Persona.VNone (d !! key)), w).
Proof.
  intros H. apply in_persona_manager_read.
  unfold Persona.dict_get, bind, get, ret. simpl. by rewrite H.
Qed.

Lemma log_run (lvl : level) (msg : string) (w : world) :
  log lvl msg w = (Ok tt, set_logs (logs w ++ [(lvl, msg)]) w).
Proof. reflexivity. Qed.

Lemma maybe_log_run (c : bool) (lvl : level) (msg : string) (w : world) :
  ∃ w', (if c then log lvl msg else ret tt) w = (Ok tt, w') ∧
        MEETING_DETAILS w' = MEETING_DETAILS w ∧
        persona_manager w' = persona_manager w.
Proof. destruct c; eexists; by repeat split. Qed.

(** When [start_pipecat_process] gets as far as starting the child, the
    command is made from one stored persona record and from the session's
    entry in [MEETING_DETAILS]: the display name and the speech rate are
    those of the record; the entry message is the one the session asked
    for when there is one, and the record's (or the empty string)
    otherwise; the flags for the initial speech, the speech rate and the
    tools are there exactly when these are set.  The tables of sessions
    and of personas are not changed. *)
Theorem start_pipecat_process_command
    (E : env) (client_id websocket_url meeting_url persona_name
       streaming_audio_frequency : string) (enable_tools : bool)
    (w w' : world) (command : list string) :
  start_pipecat_process executable script_path E client_id websocket_url
    meeting_url persona_name streaming_audio_frequency enable_tools w
  = (Ok command, w') →
  let details := Dict.lookup client_id (MEETING_DETAILS w) in
  let custom_entry_message := details ≫= d_entry_message in
  let initial_speech := details ≫= d_text_message in
  ∃ key a d display_name entry_message,
    (key, a) ∈ Persona.personas (persona_manager w) ∧
    Persona.heap (persona_manager w) !! a = Some (Persona.ODict d) ∧
    text_of d "name" persona_name = Persona.VStr display_name ∧
    (if str_truthy custom_entry_message
     then Persona.VStr (default "" custom_entry_message)
     else text_of d "entry_message" "") = Persona.VStr entry_message ∧
    command =
      [executable; script_path;
       "--meeting-url"; meeting_url;
       "--persona-name"; display_name;
       "--entry-message"; entry_message;
       "--websocket-url"; websocket_url;
       "--streaming-audio-frequency"; streaming_audio_frequency]
      ++ (if str_truthy initial_speech
          then ["--initial-speech"; default "" initial_speech] else [])
      ++ (if Persona.truthy (Persona.heap (persona_manager w'))
               (default Persona.VNone (d !! "speech_rate"))
          then ["--speech-rate";
                py_str E (default Persona.VNone (d !! "speech_rate"))]
          else [])
      ++ (if enable_tools then ["--enable-tools"] else []) ∧
    MEETING_DETAILS w' = MEETING_DETAILS w ∧
    Persona.personas (persona_manager w') = Persona.personas (persona_manager w).
Proof.
  intros Hrun details custom initial.
  unfold start_pipecat_process in Hrun.
  unfold bind at 1 in Hrun. rewrite log_run in Hrun.
  set (w0 := set_logs _ w) in Hrun.
  unfold bind at 1, in_persona_manager at 1, lift at 1 in Hrun.
  destruct (Persona.get_persona _ _ _ (persona_manager w0)) as [[a'|e] s1] eqn:Hget;
    [|discriminate].
  destruct (get_persona_spec _ _ _ _ _ _ Hget)
    as (Hps & Hdir & Hsub & Hnew & key & a & d & prompt & path & Hin & Ha & Ha1 & Hp & Hcopy).
  set (w1 := set_persona_manager s1 w0) in Hrun.
  assert (H1 : Persona.heap (persona_manager w1) !! a' =
               Some (Persona.ODict
                 (<["path" := Persona.VStr path]>
                    (<["prompt" := Persona.VStr (prompt +:+ PERSONA_INTERACTION_INSTRUCTIONS E)]>
                       (Persona.fix_image
                          (<[a' := Persona.ODict d]> (Persona.heap (persona_manager w0))) d)))))
    by exact Hcopy.
  assert (Hkey : ∀ k, k ≠ "path" → k ≠ "prompt" → k ≠ "image" →
    (<["path" := Persona.VStr path]>
       (<["prompt" := Persona.VStr (prompt +:+ PERSONA_INTERACTION_INSTRUCTIONS E)]>
          (Persona.fix_image
             (<[a' := Persona.ODict d]> (Persona.heap (persona_manager w0))) d)))
    !! k = d !! k).
  { intros k K1 K2 K3. rewrite !lookup_insert_ne by done.
    unfold Persona.fix_image. destruct (Persona.truthy _ _); [done|].
    by rewrite lookup_insert_ne. }
  unfold bind at 1 in Hrun. rewrite (dict_get_or_run _ _ _ _ w1 H1) in Hrun.
  unfold bind at 1 in Hrun. rewrite (dict_get_run _ _ _ w1 H1) in Hrun.
  rewrite !Hkey in Hrun by done.
  unfold bind at 1, get at 1 in Hrun.
  set (rate := default Persona.VNone (d !! "speech_rate")) in *.
  unfold bind at 1 in Hrun.
  destruct (maybe_log_run (Persona.truthy (Persona.heap (persona_manager w1)) rate)
              INFO ("Using custom speech rate from persona: " +:+ py_str E rate) w1)
    as (w2 & L2 & M2 & P2).
  rewrite L2 in Hrun.
  change (MEETING_DETAILS w1) with (MEETING_DETAILS w) in *.
  fold details custom initial in Hrun.
  unfold bind at 1 in Hrun.
  destruct (maybe_log_run (str_truthy custom) INFO
              ("Using custom entry message from request: " +:+ default "" custom) w2)
    as (w3 & L3 & M3 & P3).
  rewrite L3 in Hrun.
  unfold bind at 1 in Hrun.
  destruct (maybe_log_run (str_truthy initial) INFO
              ("Using custom speech message from request: " +:+ default "" initial) w3)
    as (w4 & L4 & M4 & P4).
  rewrite L4 in Hrun.
  assert (H4 : Persona.heap (persona_manager w4) !! a' = Persona.heap (persona_manager w1) !! a')
    by (by rewrite P4, P3, P2).
  rewrite H1 in H4.
  unfold bind at 1 in Hrun.
  assert (Hem : ∃ v,
    (if str_truthy custom
     then ret (Persona.VStr (default "" custom))
     else in_persona_manager
            (dict_get_or a' "entry_message" (Persona.VStr ""))) w4
    = (Ok v, w4) ∧
    v = if str_truthy custom then Persona.VStr (default "" custom)
        else text_of d "entry_message" "").
  { destruct (str_truthy custom).
    - eexists. by split.
    - rewrite (dict_get_or_run _ _ _ _ w4 H4). rewrite Hkey by done.
      eexists. by split. }
  destruct Hem as (v & Lv & Hv). rewrite Lv in Hrun.
  unfold bind at 1 in Hrun. rewrite log_run in Hrun.
  unfold bind at 1, argument at 1 in Hrun.
  destruct (default (Persona.VStr persona_name) (d !! "name")) as [| | | |dn|] eqn:Hdn;
    try discriminate.
  unfold ret at 1 in Hrun.
  unfold bind at 1, argument at 1 in Hrun.
  destruct v as [| | | |em|] eqn:Hvv; try discriminate.
  unfold ret in Hrun. injection Hrun as <- <-.
  exists key, a, d, dn, em.
  split; [exact Hin|]. split; [exact Ha|].
  split; [exact Hdn|]. split; [by rewrite <- Hv|].
  split; [|split].
  - simpl. by rewrite P4, P3, P2.
  - simpl. by rewrite M4, M3, M2.
  - simpl. rewrite P4, P3, P2. exact Hps.
Qed.

End LaunchFacts.

Section LeaveWitnesses.
Import Routes Leave.

(** The session in full swing: every step goes through. *)
Lemma leave_bot_status_witness :
  ∃ w',
    leave_bot quiet_env "remote-1" (mkLeaveBotRequest None) "key" busy =
    (Ok (mkResponse 200
           [("message", "Bot removal request processed");
            ("status", if all_steps_succeed quiet_env "remote-1" "key" "cid-1" busy
                       then "success" else "partial");
            ("bot_id", "remote-1")]), w').
Proof.
  apply (leave_bot_status quiet_env "remote-1" (mkLeaveBotRequest None) "key"
           busy "cid-1").
  - reflexivity.
  - reflexivity.
  - reflexivity.
  - intros p H. vm_compute in H. injection H as <-. vm_compute. eauto.
Defined.

Lemma leave_bot_removes_session_witness :
  ∃ r w' ps',
    leave_bot quiet_env "remote-1" (mkLeaveBotRequest None) "key" busy
    = (Ok r, w') ∧
    Dict.lookup "cid-1" (MEETING_DETAILS w') = None ∧
    PIPECAT_PROCESSES w' !! "cid-1" = None ∧
    (∀ c, c ≠ "cid-1" →
       Dict.lookup c (MEETING_DETAILS w') = Dict.lookup c (MEETING_DETAILS busy) ∧
       PIPECAT_PROCESSES w' !! c = PIPECAT_PROCESSES busy !! c) ∧
    processes w' !! 7%nat = Some ps' ∧
    (killable (Process.mkState
                 (Process.mkPopen None None (Some 3%nat) 0 false false false) [])
     → Process.exited (Process.proc ps')).
Proof.
  apply (leave_bot_removes_session quiet_env "remote-1" (mkLeaveBotRequest None)
           "key" busy "cid-1" 7%nat).
  - reflexivity.
  - reflexivity.
  - reflexivity.
  - simpl. apply NoDup_singleton.
  - reflexivity.
  - reflexivity.
Defined.
End LeaveWitnesses.

Section LaunchWitnesses.
Import Routes Launch.

(** The session of [greeted]: its own entry message goes before the
    persona's. *)
Lemma start_pipecat_process_command_witness :
  ∃ key a d display_name entry_message,
    (key, a) ∈ Persona.personas (persona_manager greeted) ∧
    Persona.heap (persona_manager greeted) !! a = Some (Persona.ODict d) ∧
    text_of d "name" "baas_onboarder" = Persona.VStr display_name ∧
    Persona.VStr "Hi all" = Persona.VStr entry_message ∧
    ["python3"; "scripts/meetingbaas.py";
     "--meeting-url"; "https://meet.example/abc";
     "--persona-name"; "Baas Onboarder";
     "--entry-message"; "Hi all";
     "--websocket-url"; "wss://bridge.example/ws";
     "--streaming-audio-frequency"; "16khz";
     "--initial-speech"; "Hello everyone";
     "--enable-tools"] =
      ["python3"; "scripts/meetingbaas.py";
       "--meeting-url"; "https://meet.example/abc";
       "--persona-name"; display_name;
       "--entry-message"; entry_message;
       "--websocket-url"; "wss://bridge.example/ws";
       "--streaming-audio-frequency"; "16khz"]
      ++ ["--initial-speech"; "Hello everyone"]
      ++ (if Persona.truthy
               (Persona.heap
                  (persona_manager
                     (start_pipecat_process "python3" "scripts/meetingbaas.py"
                        quiet_env "cid-1" "wss://bridge.example/ws"
                        "https://meet.example/abc" "baas_onboarder" "16khz"
                        true greeted).2))
               (default Persona.VNone (d !! "speech_rate"))
          then ["--speech-rate";
                py_str quiet_env (default Persona.VNone (d !! "speech_rate"))]
          else [])
      ++ ["--enable-tools"] ∧
    MEETING_DETAILS
      (start_pipecat_process "python3" "scripts/meetingbaas.py" quiet_env
         "cid-1" "wss://bridge.example/ws" "https://meet.example/abc"
         "baas_onboarder" "16khz" true greeted).2
    = MEETING_DETAILS greeted ∧
    Persona.personas
      (persona_manager
         (start_pipecat_process "python3" "scripts/meetingbaas.py" quiet_env
            "cid-1" "wss://bridge.example/ws" "https://meet.example/abc"
            "baas_onboarder" "16khz" true greeted).2)
    = Persona.personas (persona_manager greeted).
Proof.
  apply (start_pipecat_process_command "python3" "scripts/meetingbaas.py"
           quiet_env "cid-1" "wss://bridge.example/ws"
           "https://meet.example/abc" "baas_onboarder" "16khz" true greeted).
  vm_compute. reflexivity.
Defined.
End LaunchWitnesses.
